(** * Feedonomics client: transport normalisation and orchestration

    A shallow embedding of the client class [FdxClient]
    ([src/lib/FdxClient.ts]) and of the service class [FdxService]
    ([src/services/FdxService.ts]).

    - [Js]: the dynamically typed values the TypeScript code handles as
      [any] (response bodies, identifiers, error messages), with the
      ECMAScript operations the source applies to them.
    - [Uri]: [encodeURIComponent], [decodeURIComponent] and
      [URLSearchParams].
    - [Effects]: the world the code runs in (the client's session fields,
      the log of requests handed to axios, the console) and the monad of
      computations that return or throw.
    - [FdxClient], [FdxService]: the two classes, method by method.
    - [Spec]: the vocabulary the theorems are stated in.
    - [Fixtures]: concrete clients, networks and parameters.

    Conventions.  A string is the UTF-8 byte sequence of a well-formed
    JavaScript string.  A number is an integer ([Z]); fractional numbers
    and NaN are outside the model.  An object is the list of its own
    enumerable properties in enumeration order, with pairwise distinct
    keys; a property named [__proto__] is outside the model. *)

From Stdlib Require Import String Ascii List ZArith NArith Bool Lia DecimalString.
Import ListNotations.
Open Scope string_scope.
Open Scope Z_scope.
Set Warnings "-register-all".

(* ===================================================================== *)
(** ** JavaScript values *)
(* ===================================================================== *)

Module Js.

Inductive Value : Type :=
| Undefined
| Null
| Bool (b : bool)
| Num (n : Z)
| Str (s : string)
| Arr (items : list Value)
| Obj (fields : list (string * Value)).

(** What a [throw] carries.  The constructor of [FdxClient] throws an
    [Error]; every other exception the modelled code can raise is raised by
    the runtime (a failed property read, a failed call, a failed conversion
    to a primitive) and is a [TypeError].  Both have a [message]. *)
Inductive Exn : Type :=
| Error (message : string)
| TypeError (message : string).

Definition message (e : Exn) : string :=
  match e with Error m | TypeError m => m end.

(** The outcome of evaluating a pure expression. *)
Inductive Completion (A : Type) : Type :=
| Normal (a : A)
| Abrupt (e : Exn).

Arguments Normal {A} a.
Arguments Abrupt {A} e.

Definition cbind {A B} (c : Completion A) (k : A -> Completion B) : Completion B :=
  match c with
  | Normal a => k a
  | Abrupt e => Abrupt e
  end.

Notation "x <~ c ;; k" := (cbind c (fun x => k))
  (at level 61, c at next level, right associativity).

(** [!!v] *)
Definition truthy (v : Value) : bool :=
  match v with
  | Undefined | Null => false
  | Bool b => b
  | Num n => negb (n =? 0)
  | Str s => negb (s =? "")%string
  | Arr _ | Obj _ => true
  end.

(** [v !== undefined && v !== null] *)
Definition defined (v : Value) : bool :=
  match v with
  | Undefined | Null => false
  | _ => true
  end.

(** [typeof v === 'object'], for a value that is not [null]. *)
Definition isObject (v : Value) : bool :=
  match v with
  | Arr _ | Obj _ => true
  | _ => false
  end.

(** [a || b] *)
Definition or (a b : Value) : Value := if truthy a then a else b.

Fixpoint lookup (k : string) (fs : list (string * Value)) : option Value :=
  match fs with
  | [] => None
  | (k', v) :: rest => if (k' =? k)%string then Some v else lookup k rest
  end.

Definition hasOwn (k : string) (fs : list (string * Value)) : bool :=
  match lookup k fs with Some _ => true | None => false end.

Definition typeName (v : Value) : string :=
  match v with
  | Undefined => "undefined"
  | Null => "null"
  | Bool _ => "boolean"
  | Num _ => "number"
  | Str _ => "string"
  | Arr _ | Obj _ => "object"
  end.

Definition cannotRead (v : Value) (k : string) : Exn :=
  TypeError ("Cannot read properties of " ++ typeName v ++ " (reading '" ++ k ++ "')").

Definition notAFunction (what : string) : Exn :=
  TypeError (what ++ " is not a function").

(** The property [k] of a value that is neither [undefined] nor [null].
    Arrays and strings answer [length]; the other properties the source
    reads ([message], [id], [name], [data], ...) exist on objects only. *)
Definition prop (v : Value) (k : string) : Value :=
  match v with
  | Obj fs => match lookup k fs with Some x => x | None => Undefined end
  | Arr items => if (k =? "length")%string then Num (Z.of_nat (List.length items)) else Undefined
  | Str s => if (k =? "length")%string then Num (Z.of_nat (String.length s)) else Undefined
  | _ => Undefined
  end.

(** [v.k] *)
Definition get (v : Value) (k : string) : Completion Value :=
  match v with
  | Undefined | Null => Abrupt (cannotRead v k)
  | _ => Normal (prop v k)
  end.

(** [v?.k] *)
Definition optGet (v : Value) (k : string) : Value :=
  match v with
  | Undefined | Null => Undefined
  | _ => prop v k
  end.

(** [o[k] = v] on an ordinary object: an existing property keeps its
    place. *)
Fixpoint setField (k : string) (v : Value) (fs : list (string * Value))
  : list (string * Value) :=
  match fs with
  | [] => [(k, v)]
  | (k', v') :: rest =>
      if (k' =? k)%string then (k, v) :: rest else (k', v') :: setField k v rest
  end.

(** [{...a, ...b}] *)
Definition spread (a b : list (string * Value)) : list (string * Value) :=
  fold_left (fun acc kv => setField (fst kv) (snd kv) acc) b a.

Definition decimal (n : Z) : string := NilZero.string_of_int (Z.to_int n).

(** [String(v)], ECMAScript's ToString.  An array joins its elements with
    commas, [null] and [undefined] elements printing as nothing.  An object
    that came from JSON has no callable property: when it has an own
    [toString] the conversion finds nothing to call and throws, otherwise
    [Object.prototype.toString] answers. *)
Fixpoint toStr (v : Value) : Completion string :=
  match v with
  | Undefined => Normal "undefined"
  | Null => Normal "null"
  | Bool true => Normal "true"
  | Bool false => Normal "false"
  | Num n => Normal (decimal n)
  | Str s => Normal s
  | Arr items =>
      (fix join (first : bool) (l : list Value) : Completion string :=
         match l with
         | [] => Normal ""
         | x :: rest =>
             match (match x with
                    | Undefined | Null => Normal ""
                    | _ => toStr x
                    end) with
             | Abrupt e => Abrupt e
             | Normal sx =>
                 match join false rest with
                 | Abrupt e => Abrupt e
                 | Normal sr => Normal ((if first then "" else ",") ++ sx ++ sr)
                 end
             end
         end) true items
  | Obj fs =>
      if hasOwn "toString" fs
      then Abrupt (TypeError "Cannot convert object to primitive value")
      else Normal "[object Object]"
  end.

(** [v.toString()] for a truthy [v]; [what] is the text of the callee. *)
Definition callToString (what : string) (v : Value) : Completion string :=
  match v with
  | Undefined | Null => Abrupt (cannotRead v "toString")
  | Obj fs =>
      if hasOwn "toString" fs
      then Abrupt (notAFunction (what ++ ".toString"))
      else Normal "[object Object]"
  | _ => toStr v
  end.

(** [v === s] for a string literal [s]. *)
Definition isStr (v : Value) (s : string) : bool :=
  match v with
  | Str t => (t =? s)%string
  | _ => false
  end.

(** [Array.prototype.find] over the elements. *)
Fixpoint findIn (p : Value -> Completion bool) (l : list Value) : Completion Value :=
  match l with
  | [] => Normal Undefined
  | x :: rest =>
      match p x with
      | Abrupt e => Abrupt e
      | Normal true => Normal x
      | Normal false => findIn p rest
      end
  end.

(** [v.find(p)]; only an array has a [find] to call. *)
Definition find (what : string) (v : Value) (p : Value -> Completion bool)
  : Completion Value :=
  match v with
  | Undefined | Null => Abrupt (cannotRead v "find")
  | Arr items => findIn p items
  | _ => Abrupt (notAFunction (what ++ ".find"))
  end.

(** [v?.find(p)] *)
Definition optFind (what : string) (v : Value) (p : Value -> Completion bool)
  : Completion Value :=
  match v with
  | Undefined | Null => Normal Undefined
  | _ => find what v p
  end.

(** [Array.prototype.reduce] with an initial value. *)
Fixpoint reduceIn {A} (f : A -> Value -> Completion A) (l : list Value) (acc : A)
  : Completion A :=
  match l with
  | [] => Normal acc
  | x :: rest => acc' <~ f acc x ;; reduceIn f rest acc'
  end.

(** [s.startsWith(prefix)]; [what] is the text of the receiver. *)
Definition startsWith (what : string) (v : Value) (pre : string) : Completion bool :=
  match v with
  | Undefined | Null => Abrupt (cannotRead v "startsWith")
  | Str s => Normal (String.prefix pre s)
  | _ => Abrupt (notAFunction (what ++ ".startsWith"))
  end.

(** [Object.entries] of an object or an array. *)
Fixpoint indexed (i : nat) (l : list Value) : list (string * Value) :=
  match l with
  | [] => []
  | x :: rest => (decimal (Z.of_nat i), x) :: indexed (S i) rest
  end.

Definition entries (v : Value) : list (string * Value) :=
  match v with
  | Obj fs => fs
  | Arr items => indexed 0 items
  | _ => []
  end.

End Js.

(* ===================================================================== *)
(** ** Percent-encoding and URLSearchParams *)
(* ===================================================================== *)

Module Uri.

Definition code (c : ascii) : N := N_of_ascii c.

Definition between (lo hi : N) (c : ascii) : bool :=
  ((lo <=? code c) && (code c <=? hi))%N.

Definition isAlphaNum (c : ascii) : bool :=
  between 48 57 c || between 65 90 c || between 97 122 c.

Definition oneOf (cs : list ascii) (c : ascii) : bool :=
  existsb (Ascii.eqb c) cs.

(** The characters [encodeURIComponent] leaves alone:
    [A-Z a-z 0-9 - _ . ! ~ * ' ( )]. *)
Definition uriUnreserved (c : ascii) : bool :=
  isAlphaNum c || oneOf ["-"; "_"; "."; "!"; "~"; "*"; "'"; "("; ")"]%char c.

(** The characters the [application/x-www-form-urlencoded] serialiser
    leaves alone: [A-Z a-z 0-9 * - . _]. *)
Definition formUnreserved (c : ascii) : bool :=
  isAlphaNum c || oneOf ["*"; "-"; "."; "_"]%char c.

Definition hexDigit (n : N) : ascii :=
  if (n <? 10)%N then ascii_of_N (48 + n) else ascii_of_N (55 + n).

Definition hexValue (c : ascii) : option N :=
  if between 48 57 c then Some (code c - 48)%N
  else if between 65 70 c then Some (code c - 55)%N
  else if between 97 102 c then Some (code c - 87)%N
  else None.

(** [%XX], upper-case. *)
Definition percent (c : ascii) : string :=
  String "%" (String (hexDigit (code c / 16)) (String (hexDigit (code c mod 16)) "")).

Definition byteOf (hi lo : N) : ascii := ascii_of_N (16 * hi + lo).

(** [encodeURIComponent] on the UTF-8 bytes of a well-formed string.  (On
    a string with a lone surrogate, which has no UTF-8 bytes and is
    outside the model, the function throws a URIError.) *)
Fixpoint encodeURIComponent (s : string) : string :=
  match s with
  | EmptyString => ""
  | String c rest =>
      (if uriUnreserved c then String c "" else percent c) ++ encodeURIComponent rest
  end.

(** [decodeURIComponent]: [None] is the URIError for a [%] that two
    hexadecimal digits do not follow.  (The check that decoded bytes form
    UTF-8 is not modelled: it cannot fail on what [encodeURIComponent]
    produced.) *)
Fixpoint decodeURIComponent (s : string) : option string :=
  match s with
  | EmptyString => Some ""
  | String c rest =>
      if Ascii.eqb c "%" then
        match rest with
        | String h (String l rest') =>
            match hexValue h, hexValue l with
            | Some x, Some y => option_map (String (byteOf x y)) (decodeURIComponent rest')
            | _, _ => None
            end
        | _ => None
        end
      else option_map (String c) (decodeURIComponent rest)
  end.

(** One serialised name or value of [URLSearchParams.prototype.toString]. *)
Fixpoint formEncode (s : string) : string :=
  match s with
  | EmptyString => ""
  | String c rest =>
      (if Ascii.eqb c " " then "+"
       else if formUnreserved c then String c ""
       else percent c) ++ formEncode rest
  end.

Fixpoint plusToSpace (s : string) : string :=
  match s with
  | EmptyString => ""
  | String c rest => String (if Ascii.eqb c "+" then " "%char else c) (plusToSpace rest)
  end.

(** The form parser's percent-decoding: a [%] that two hexadecimal digits
    do not follow stands for itself. *)
Fixpoint percentDecode (s : string) : string :=
  match s with
  | EmptyString => ""
  | String c rest =>
      if Ascii.eqb c "%" then
        match rest with
        | String h (String l rest') =>
            match hexValue h, hexValue l with
            | Some x, Some y => String (byteOf x y) (percentDecode rest')
            | _, _ => String c (percentDecode rest)
            end
        | _ => String c (percentDecode rest)
        end
      else String c (percentDecode rest)
  end.

Definition formDecode (s : string) : string := percentDecode (plusToSpace s).

(** [s.split(sep)] for a one-character separator. *)
Fixpoint splitOn (sep : ascii) (s : string) : list string :=
  match s with
  | EmptyString => [""]
  | String c rest =>
      if Ascii.eqb c sep then "" :: splitOn sep rest
      else match splitOn sep rest with
           | [] => [String c ""]
           | x :: xs => String c x :: xs
           end
  end.

(** The text before the first [sep], and the text after it when there is
    one. *)
Fixpoint cut (sep : ascii) (s : string) : string * option string :=
  match s with
  | EmptyString => ("", None)
  | String c rest =>
      if Ascii.eqb c sep then ("", Some rest)
      else let (a, b) := cut sep rest in (String c a, b)
  end.

(** A [URLSearchParams] object: its list of name-value pairs. *)
Definition URLSearchParams : Type := list (string * string).

Definition removeName (name : string) (ps : URLSearchParams) : URLSearchParams :=
  filter (fun p => negb (fst p =? name)%string) ps.

(** [ps.set(name, value)]: the first pair of that name takes the value and
    the others go; without one the pair is appended. *)
Fixpoint set (name value : string) (ps : URLSearchParams) : URLSearchParams :=
  match ps with
  | [] => [(name, value)]
  | (n, v) :: rest =>
      if (n =? name)%string then (name, value) :: removeName name rest
      else (n, v) :: set name value rest
  end.

(** [ps.get(name)] *)
Fixpoint get (name : string) (ps : URLSearchParams) : option string :=
  match ps with
  | [] => None
  | (n, v) :: rest => if (n =? name)%string then Some v else get name rest
  end.

(** [ps.has(name)] *)
Definition has (name : string) (ps : URLSearchParams) : bool :=
  match get name ps with Some _ => true | None => false end.

(** [ps.toString()] *)
Fixpoint toString (ps : URLSearchParams) : string :=
  match ps with
  | [] => ""
  | (n, v) :: rest =>
      formEncode n ++ "=" ++ formEncode v ++
      match rest with
      | [] => ""
      | _ => "&" ++ toString rest
      end
  end.

Definition parsePair (piece : string) : list (string * string) :=
  match piece with
  | EmptyString => []
  | _ =>
      match cut "=" piece with
      | (n, Some v) => [(formDecode n, formDecode v)]
      | (n, None) => [(formDecode n, "")]
      end
  end.

(** [new URLSearchParams(init)] for a string: a leading [?] is dropped. *)
Definition parse (init : string) : URLSearchParams :=
  let body := match init with
              | String "?" rest => rest
              | _ => init
              end in
  flat_map parsePair (splitOn "&" body).

(** [new URL(url).search]: the text from the first [?] up to a [#].  The
    URL parser leaves the serialiser's alphabet as it is. *)
Fixpoint upTo (sep : ascii) (s : string) : string :=
  match s with
  | EmptyString => ""
  | String c rest => if Ascii.eqb c sep then "" else String c (upTo sep rest)
  end.

Fixpoint search (url : string) : string :=
  match url with
  | EmptyString => ""
  | String c rest =>
      if Ascii.eqb c "?" then
        match upTo "#" rest with
        | EmptyString => ""
        | q => String "?" q
        end
      else if Ascii.eqb c "#" then ""
      else search rest
  end.

(** [allChars p s]: every character of [s] satisfies [p]. *)
Fixpoint allChars (p : ascii -> bool) (s : string) : bool :=
  match s with
  | EmptyString => true
  | String c rest => p c && allChars p rest
  end.

Definition notChar (sep c : ascii) : bool := negb (Ascii.eqb c sep).

(** A character that is none of the delimiters of a query string. *)
Definition plain (c : ascii) : bool :=
  negb (oneOf ["&"; "="; "#"; "?"; "+"; "%"; " "]%char c).

End Uri.

(* ===================================================================== *)
(** ** Declared types ([src/types]) and the axios interface *)
(* ===================================================================== *)

Module Types.

(** [ServiceResponse<T>]: [None] is an absent key. *)
Record ServiceResponse : Type := {
  success : bool;
  data : option Js.Value;
  error : option Js.Value;
  status : option Z
}.

(** [result.data] and [result.error] as an expression reads them: an
    absent key reads as [undefined]. *)
Definition payload (r : ServiceResponse) : Js.Value :=
  match data r with Some v => v | None => Js.Undefined end.

Definition errorOf (r : ServiceResponse) : Js.Value :=
  match error r with Some v => v | None => Js.Undefined end.

(** [{ success: true, data: v }] *)
Definition ok (v : Js.Value) : ServiceResponse :=
  {| success := true; data := Some v; error := None; status := None |}.

(** [{ success: false, error: msg }] *)
Definition failure (msg : string) : ServiceResponse :=
  {| success := false; data := None; error := Some (Js.Str msg); status := None |}.

Record FeedonomicsConfig : Type := {
  cfgApiToken : string;
  cfgDbId : option string;
  cfgImportUrl : string;
  cfgVaultEntryName : string;
  cfgTimeout : option Z;
  cfgBaseUrl : option string;
  cfgVerbose : option bool
}.

Record Schedule : Type := {
  day : string;
  hour : string;
  minute : string
}.

Record FtpCredentials : Type := {
  host : string;
  username : string;
  password : string
}.

Record BigCommerceSetupParams : Type := {
  accountName : string;
  storeHash : string;
  storeUrl : option string;
  accessToken : string;
  storeId : option string;
  clientId : option string;
  channelId : Js.Value;
  userEmail : option string;
  vaultEntryName : option string;
  dbName : option string;
  groupName : option string;
  importSchedule : option Schedule;
  buildTemplate : option string
}.

(** An optional string as a value, and [s || fallback]. *)
Definition optStr (s : option string) : Js.Value :=
  match s with Some x => Js.Str x | None => Js.Undefined end.

(** [`${s}`] for an optional string. *)
Definition text (s : option string) : string :=
  match s with Some x => x | None => "undefined" end.

Definition orElse (s : option string) (fallback : string) : string :=
  match s with
  | Some x => if (x =? "")%string then fallback else x
  | None => fallback
  end.

Definition scheduleValue (s : Schedule) : Js.Value :=
  Js.Obj [("day", Js.Str (day s)); ("hour", Js.Str (hour s)); ("minute", Js.Str (minute s))].

End Types.

Module Axios.

(** [AxiosResponse]: the fields the client reads. *)
Record Response : Type := {
  status : Z;
  data : Js.Value
}.

(** What a rejected request carries: [error.response] and [error.message]. *)
Record Error : Type := {
  response : option Response;
  message : string
}.

Inductive Outcome : Type :=
| Resolved (r : Response)
| Rejected (e : Error).

(** The instance [axios.create] returns: its defaults. *)
Record Instance : Type := {
  baseURL : string;
  timeout : Z;
  headers : list (string * string)
}.

End Axios.

(* ===================================================================== *)
(** ** The world and the monad of effects *)
(* ===================================================================== *)

Module Effects.

(** The fields of an [FdxClient] object. *)
Record Client : Type := {
  client : Axios.Instance;
  apiToken : string;
  dbId : option string;
  baseUrl : string;
  config : Types.FeedonomicsConfig;
  verbose : bool
}.

(** The state a call can read and change: the client object, the requests
    handed to axios so far (oldest first) and the lines printed. *)
Record World : Type := {
  this : Client;
  requests : list Js.Value;
  console : list string
}.

(** What the code does not compute itself.  [axios] answers a request given
    the instance's defaults and the requests before it.  [dateNow] is the
    clock, [toISOString] prints a time, [JSON_stringify] prints a value and
    [numeralPositive s] says whether the number the text [s] converts to is
    above zero. *)
Class Runtime : Type := {
  axios : Axios.Instance -> list Js.Value -> Js.Value -> Axios.Outcome;
  dateNow : list Js.Value -> Z;
  toISOString : Z -> string;
  JSON_stringify : Js.Value -> string;
  numeralPositive : string -> bool
}.

Inductive Outcome (A : Type) : Type :=
| Returns (a : A) (w : World)
| Throws (e : Js.Exn) (w : World).

Arguments Returns {A} a w.
Arguments Throws {A} e w.

Definition M (A : Type) : Type := World -> Outcome A.

Definition ret {A} (a : A) : M A := fun w => Returns a w.

Definition throw {A} (e : Js.Exn) : M A := fun w => Throws e w.

Definition bind {A B} (m : M A) (k : A -> M B) : M B :=
  fun w =>
    match m w with
    | Returns a w' => k a w'
    | Throws e w' => Throws e w'
    end.

(** [try { body } catch (error) { handler }]: the handler runs in the world
    the body left. *)
Definition tryCatch {A} (body : M A) (handler : Js.Exn -> M A) : M A :=
  fun w =>
    match body w with
    | Returns a w' => Returns a w'
    | Throws e w' => handler e w'
    end.

(** A pure expression evaluated in place. *)
Definition lift {A} (c : Js.Completion A) : M A :=
  match c with
  | Js.Normal a => ret a
  | Js.Abrupt e => throw e
  end.

Definition worldOf {A} (o : Outcome A) : World :=
  match o with
  | Returns _ w => w
  | Throws _ w => w
  end.

Definition self : M Client := fun w => Returns (this w) w.

Definition print (line : string) : M unit :=
  fun w => Returns tt {| this := this w; requests := requests w; console := console w ++ [line] |}.

Definition setThis (c : Client) : M unit :=
  fun w => Returns tt {| this := c; requests := requests w; console := console w |}.

Section WithRuntime.
Context {rt : Runtime}.

(** [await this.client.request(req)]: the request joins the log. *)
Definition send (req : Js.Value) : M Axios.Outcome :=
  fun w =>
    Returns (axios (client (this w)) (requests w) req)
            {| this := this w; requests := requests w ++ [req]; console := console w |}.

(** [Date.now()] *)
Definition now : M Z := fun w => Returns (dateNow (requests w)) w.

End WithRuntime.

End Effects.

Notation "x <- m ;; k" := (Effects.bind m (fun x => k))
  (at level 61, m at next level, right associativity).
Notation "m ;;; k" := (Effects.bind m (fun _ => k))
  (at level 61, right associativity).
Notation "x <~ c ;; k" := (Js.cbind c (fun x => k))
  (at level 61, c at next level, right associativity).

(* ===================================================================== *)
(** ** [FdxClient] ([src/lib/FdxClient.ts]) *)
(* ===================================================================== *)

Module FdxClient.

Import Types Effects.

(** [new FdxClient(config)]; a missing configuration object is [None]. *)
Definition new (cfg : option FeedonomicsConfig) : Js.Completion Client :=
  match cfg with
  | None => Js.Abrupt (Js.Error "Config is required")
  | Some config =>
      if (cfgApiToken config =? "")%string
      then Js.Abrupt (Js.Error "API key is required")
      else
        let baseUrl := orElse (cfgBaseUrl config) "https://meta.feedonomics.com/api.php" in
        Js.Normal
          {| apiToken := cfgApiToken config;
             dbId := cfgDbId config;
             config := config;
             baseUrl := baseUrl;
             verbose := match cfgVerbose config with Some b => b | None => false end;
             client :=
               {| Axios.baseURL := baseUrl;
                  Axios.timeout :=
                    match cfgTimeout config with
                    | Some t => if t =? 0 then 60000 else t
                    | None => 60000
                    end;
                  Axios.headers :=
                    [("Content-Type", "application/json");
                     ("Accept", "application/json");
                     ("x-api-key", cfgApiToken config)] |} |}
  end.

(** [this.apiToken ? '[Set]' : '[Not Set]'] *)
Definition apiKeySet (c : Client) : string :=
  if (apiToken c =? "")%string then "[Not Set]" else "[Set]".

Definition logVerbose (endpoint : string) : M unit :=
  c <- self ;;
  if verbose c then
    print ("🔗 Full API URL: " ++ baseUrl c ++ endpoint) ;;;
    print ("🔐 API Key: " ++ apiKeySet c)
  else ret tt.

Definition processResponse (response : Axios.Response) : ServiceResponse :=
  if (200 <=? Axios.status response) && (Axios.status response <? 300) then
    {| success := true;
       data := Some (Axios.data response);
       error := None;
       status := Some (Axios.status response) |}
  else
    {| success := false;
       data := None;
       error := Some (Js.or (Js.optGet (Axios.data response) "message") (Js.Str "Unknown error"));
       status := Some (Axios.status response) |}.

(** The [catch] block of [request]. *)
Definition rejected (error : Axios.Error) : ServiceResponse :=
  match Axios.response error with
  | Some response =>
      {| success := false;
         data := None;
         Types.error :=
           Some (Js.or (Js.optGet (Axios.data response) "message") (Js.Str "API error"));
         status := Some (Axios.status response) |}
  | None =>
      {| success := false;
         data := None;
         Types.error := Some (Js.Str (orElse (Some (Axios.message error)) "Network error"));
         status := None |}
  end.

(** [{ method, url, data, ...config }] *)
Definition requestConfig (method url : string) (data : Js.Value)
  (config : list (string * Js.Value)) : Js.Value :=
  Js.Obj (Js.spread [("method", Js.Str method); ("url", Js.Str url); ("data", data)] config).

Definition dbIdRequired : ServiceResponse :=
  failure "Database ID is required. Please set it using setDbId() first.".

(** [!this.dbId] and [`${this.dbId}`] *)
Definition noDbId (c : Client) : bool := negb (Js.truthy (optStr (dbId c))).

Definition dbIdText (c : Client) : string := text (dbId c).

Definition setDbId (id : string) : M unit :=
  c <- self ;;
  setThis {| client := client c; apiToken := apiToken c; dbId := Some id;
             baseUrl := baseUrl c; config := config c; verbose := verbose c |}.

Definition getDbId : M (option string) :=
  c <- self ;; ret (dbId c).

Definition getConnectionDetails : M Js.Value :=
  c <- self ;;
  ret (Js.Obj [("baseUrl", Js.Str (baseUrl c));
               ("apiKeySet", Js.Str (apiKeySet c));
               ("verbose", Js.Bool (verbose c))]).

Section WithRuntime.
Context {rt : Runtime}.

(** [request(method, url, data?, config?)]; an absent [data] is
    [undefined], an absent [config] spreads nothing. *)
Definition request (method url : string) (data : Js.Value)
  (config : list (string * Js.Value)) : M ServiceResponse :=
  logVerbose url ;;;
  outcome <- send (requestConfig method url data config) ;;
  match outcome with
  | Axios.Resolved response => ret (processResponse response)
  | Axios.Rejected error => ret (rejected error)
  end.

(** *** User management *)

Definition invitePrimaryUser (accountId : Js.Value) (email : string) : M ServiceResponse :=
  a <- lift (Js.toStr accountId) ;;
  request "POST" ("/accounts/" ++ a ++ "/user_account_permissions")
    (Js.Obj [("permissions", Js.Str "primary"); ("username", Js.Str email)]) [].

(** *** Feed builds *)

Definition applyAutomateBuildTemplate (importId : Js.Value) (templateName : string)
  : M ServiceResponse :=
  c <- self ;;
  if noDbId c then ret dbIdRequired
  else
    request "POST" ("/dbs/" ++ dbIdText c ++ "/apply_automate_build_template")
      (Js.Obj [("import_id", importId); ("template_name", Js.Str templateName)]) [].

Definition feedBuild (buildId : Js.Value) : M ServiceResponse :=
  c <- self ;;
  if noDbId c then ret dbIdRequired
  else
    b <- lift (Js.toStr buildId) ;;
    request "GET" ("/dbs/" ++ dbIdText c ++ "/builds/" ++ b) Js.Undefined [].

Definition cancelBuild (buildId : Js.Value) : M ServiceResponse :=
  c <- self ;;
  if noDbId c then ret dbIdRequired
  else
    b <- lift (Js.toStr buildId) ;;
    request "POST" ("/dbs/" ++ dbIdText c ++ "/builds/" ++ b ++ "/cancel") Js.Undefined [].

(** *** Accounts and databases *)

Definition accounts : M ServiceResponse :=
  request "GET" "/user/accounts" Js.Undefined [].

Definition dbs (accountId : Js.Value) : M ServiceResponse :=
  a <- lift (Js.toStr accountId) ;;
  request "GET" ("/accounts/" ++ a ++ "/dbs") Js.Undefined [].

Definition createDb (accountId : Js.Value) (dbName : string) : M ServiceResponse :=
  a <- lift (Js.toStr accountId) ;;
  request "POST" ("/accounts/" ++ a ++ "/dbs") (Js.Obj [("name", Js.Str dbName)]) [].

Definition deleteDb (id : Js.Value) : M ServiceResponse :=
  d <- lift (Js.toStr id) ;;
  request "DELETE" ("/dbs/" ++ d) Js.Undefined [].

(** *** Vault *)

Definition vault : M ServiceResponse :=
  request "GET" "/vault" Js.Undefined [].

Definition createVault (entry : Js.Value) : M ServiceResponse :=
  request "POST" "/vault" entry [].

Definition updateVault (id : Js.Value) (entry : Js.Value) : M ServiceResponse :=
  i <- lift (Js.toStr id) ;;
  request "PUT" ("/vault/" ++ i) entry [].

Definition deleteVault (id : Js.Value) : M ServiceResponse :=
  i <- lift (Js.toStr id) ;;
  request "DELETE" ("/vault/" ++ i) Js.Undefined [].

(** *** FTP *)

Definition ftpAccounts : M ServiceResponse :=
  c <- self ;;
  if noDbId c then ret dbIdRequired
  else request "GET" ("/dbs/" ++ dbIdText c ++ "/ftp") Js.Undefined [].

Definition createFtpAccounts (data : Js.Value) : M ServiceResponse :=
  c <- self ;;
  if noDbId c then ret dbIdRequired
  else request "POST" ("/dbs/" ++ dbIdText c ++ "/ftp") data [].

(** *** Imports *)

Definition imports : M ServiceResponse :=
  c <- self ;;
  if noDbId c then ret dbIdRequired
  else request "GET" ("/dbs/" ++ dbIdText c ++ "/imports") Js.Undefined [].

Definition createImport (importConfig : Js.Value) : M ServiceResponse :=
  c <- self ;;
  if noDbId c then ret dbIdRequired
  else request "POST" ("/dbs/" ++ dbIdText c ++ "/imports") importConfig [].

Definition updateImport (importId : Js.Value) (importConfig : Js.Value) : M ServiceResponse :=
  c <- self ;;
  if noDbId c then ret dbIdRequired
  else
    i <- lift (Js.toStr importId) ;;
    request "PUT" ("/dbs/" ++ dbIdText c ++ "/imports/" ++ i) importConfig [].

Definition updateImportSchedule (importId : Js.Value) (schedule : Js.Value) : M ServiceResponse :=
  c <- self ;;
  if noDbId c then ret dbIdRequired
  else
    i <- lift (Js.toStr importId) ;;
    request "PUT" ("/dbs/" ++ dbIdText c ++ "/imports/" ++ i ++ "/schedule") schedule [].

(** *** Exports *)

Definition exports : M ServiceResponse :=
  c <- self ;;
  if noDbId c then ret dbIdRequired
  else request "GET" ("/dbs/" ++ dbIdText c ++ "/exports") Js.Undefined [].

Definition createExport (exportConfig : Js.Value) : M ServiceResponse :=
  c <- self ;;
  if noDbId c then ret dbIdRequired
  else request "POST" ("/dbs/" ++ dbIdText c ++ "/exports") exportConfig [].

Definition updateExport (exportId : Js.Value) (exportConfig : Js.Value) : M ServiceResponse :=
  c <- self ;;
  if noDbId c then ret dbIdRequired
  else
    i <- lift (Js.toStr exportId) ;;
    request "PUT" ("/dbs/" ++ dbIdText c ++ "/exports/" ++ i) exportConfig [].

Definition scheduleExport (exportId : Js.Value) (schedule : Js.Value) : M ServiceResponse :=
  c <- self ;;
  if noDbId c then ret dbIdRequired
  else
    i <- lift (Js.toStr exportId) ;;
    request "POST" ("/dbs/" ++ dbIdText c ++ "/exports/" ++ i ++ "/schedule") schedule [].

(** *** Transformers and fields *)

Definition transformers : M ServiceResponse :=
  c <- self ;;
  if noDbId c then ret dbIdRequired
  else request "GET" ("/dbs/" ++ dbIdText c ++ "/transformers") Js.Undefined [].

Definition createTransformer (transformer : Js.Value) : M ServiceResponse :=
  c <- self ;;
  if noDbId c then ret dbIdRequired
  else request "POST" ("/dbs/" ++ dbIdText c ++ "/transformers") transformer [].

Definition updateTransformer (transformerId : Js.Value) (transformer : Js.Value)
  : M ServiceResponse :=
  c <- self ;;
  if noDbId c then ret dbIdRequired
  else
    i <- lift (Js.toStr transformerId) ;;
    request "PUT" ("/dbs/" ++ dbIdText c ++ "/transformers/" ++ i) transformer [].

Definition updateDbFields (data : Js.Value) : M ServiceResponse :=
  c <- self ;;
  if noDbId c then ret dbIdRequired
  else request "PUT" ("/dbs/" ++ dbIdText c ++ "/fields") data [].

(** *** Join imports *)

Definition createJoinImport (joinImportConfig : Js.Value) : M ServiceResponse :=
  c <- self ;;
  if noDbId c then ret dbIdRequired
  else request "POST" ("/dbs/" ++ dbIdText c ++ "/join_imports") joinImportConfig [].

Definition joinImports : M ServiceResponse :=
  c <- self ;;
  if noDbId c then ret dbIdRequired
  else request "GET" ("/dbs/" ++ dbIdText c ++ "/join_imports") Js.Undefined [].

(** *** Groups *)

Definition groups (accountId : Js.Value) : M ServiceResponse :=
  a <- lift (Js.toStr accountId) ;;
  request "GET" ("/accounts/" ++ a ++ "/groups") Js.Undefined [].

Definition createGroup (groupName : string) : M ServiceResponse :=
  request "POST" "/groups" (Js.Obj [("name", Js.Str groupName)]) [].

Definition moveDbToGroup (payload : Js.Value) : M ServiceResponse :=
  groupId <- lift (Js.get payload "group_id") ;;
  g <- lift (Js.toStr groupId) ;;
  request "POST" ("/groups/" ++ g ++ "/dbs") payload [].

(** *** Authentication and BigCommerce *)

Definition login (username password name : string) : M ServiceResponse :=
  request "POST" "/login"
    (Js.Obj [("username", Js.Str username); ("password", Js.Str password);
             ("method", Js.Str "token"); ("name", Js.Str name)]) [].

Definition createBigCommerceAccount (name : string) : M ServiceResponse :=
  request "POST" "/bigcommerce/account" (Js.Obj [("name", Js.Str name)]) [].

Definition moveDbintoNewDbGroup (id : Js.Value) (targetGroupName : string) : M ServiceResponse :=
  d <- lift (Js.toStr id) ;;
  request "POST" ("/dbs/" ++ d ++ "/move_db_to_db_group")
    (Js.Obj [("source_db_group_id", Js.Num 0);
             ("target_db_group_id", Js.Num (-1));
             ("target_db_group_name", Js.Str targetGroupName)]) [].

(** [targetGroupName] defaults to the empty string. *)
Definition moveDbFromSourceToTargetDbGroup (id sourceGroupId targetGroupId : Js.Value)
  (targetGroupName : option string) : M ServiceResponse :=
  d <- lift (Js.toStr id) ;;
  request "POST" ("/dbs/" ++ d ++ "/move_db_to_db_group")
    (Js.Obj [("source_db_group_id", sourceGroupId);
             ("target_db_group_id", targetGroupId);
             ("target_db_group_name",
              Js.Str (match targetGroupName with Some n => n | None => "" end))]) [].

Definition addDbVaultEntry (id : Js.Value) (entry : Js.Value) : M ServiceResponse :=
  d <- lift (Js.toStr id) ;;
  request "POST" ("/dbs/" ++ d ++ "/vault") entry [].

Definition dbFields (id : Js.Value) : M ServiceResponse :=
  d <- lift (Js.toStr id) ;;
  request "GET" ("/dbs/" ++ d ++ "/fields") Js.Undefined [].

Definition deleteDbField (id fieldId : Js.Value) : M ServiceResponse :=
  d <- lift (Js.toStr id) ;;
  f <- lift (Js.toStr fieldId) ;;
  request "DELETE" ("/dbs/" ++ d ++ "/fields/" ++ f) Js.Undefined [].

End WithRuntime.

(** *** The preprocessor URL *)

Definition preprocessorBaseUrl : string :=
  "https://preprocess.proxy.feedonomics.com/preprocess/run_preprocess.php".

(** [for (const x of l) { ... }] over a state that each round may change or
    abandon by throwing. *)
Fixpoint forOf {A S} (body : A -> S -> Js.Completion S) (l : list A) (s : S)
  : Js.Completion S :=
  match l with
  | [] => Js.Normal s
  | x :: rest => s' <~ body x s ;; forOf body rest s'
  end.

(** The value both helpers store: [encodeURIComponent] applied twice. *)
Definition doubleEncode (s : string) : string :=
  Uri.encodeURIComponent (Uri.encodeURIComponent s).

Definition addParam (prefix key : string) (value : Js.Value) (searchParams : Uri.URLSearchParams)
  : Js.Completion Uri.URLSearchParams :=
  if Js.defined value then
    s <~ Js.toStr value ;;
    Js.Normal (Uri.set (prefix ++ "[" ++ key ++ "]") (doubleEncode s) searchParams)
  else Js.Normal searchParams.

Definition addNestedParam (prefix key subKey : string) (value : Js.Value)
  (searchParams : Uri.URLSearchParams) : Js.Completion Uri.URLSearchParams :=
  if Js.defined value then
    s <~ Js.toStr value ;;
    Js.Normal (Uri.set (prefix ++ "[" ++ key ++ "][" ++ subKey ++ "]") (doubleEncode s) searchParams)
  else Js.Normal searchParams.

(** The loop body over [Object.entries(params.connection_info)]. *)
Definition addConnectionField (field : string * Js.Value) (searchParams : Uri.URLSearchParams)
  : Js.Completion Uri.URLSearchParams :=
  let (key, value) := field in
  if Js.defined value then
    if Js.isObject value then
      forOf (fun sub sp =>
               if Js.defined (snd sub)
               then addNestedParam "connection_info" key (fst sub) (snd sub) sp
               else Js.Normal sp)
            (Js.entries value) searchParams
    else addParam "connection_info" key value searchParams
  else Js.Normal searchParams.

(** The loop body over [Object.entries(params.file_info)]. *)
Definition addFileField (field : string * Js.Value) (searchParams : Uri.URLSearchParams)
  : Js.Completion Uri.URLSearchParams :=
  if Js.defined (snd field)
  then addParam "file_info" (fst field) (snd field) searchParams
  else Js.Normal searchParams.

(** [generateBigCommercePreprocessorUrl({connection_info, file_info})]: the
    two parameters are the objects' properties; [file_info] may be
    absent. *)
Definition generateBigCommercePreprocessorUrl
  (connection_info : list (string * Js.Value))
  (file_info : option (list (string * Js.Value))) : Js.Completion string :=
  sp <~ addParam "connection_info" "client" (Js.Str "bigcommerce") [] ;;
  sp <~ addParam "connection_info" "protocol" (Js.Str "api") sp ;;
  sp <~ forOf addConnectionField connection_info sp ;;
  sp <~ match file_info with
        | Some fields => forOf addFileField fields sp
        | None => Js.Normal sp
        end ;;
  Js.Normal (preprocessorBaseUrl ++ "?" ++ Uri.toString sp).

(** *** The public operations that return an envelope *)

Inductive Operation : Type :=
| Request (method url : string) (data : Js.Value) (config : list (string * Js.Value))
| InvitePrimaryUser (accountId : Js.Value) (email : string)
| ApplyAutomateBuildTemplate (importId : Js.Value) (templateName : string)
| FeedBuild (buildId : Js.Value)
| CancelBuild (buildId : Js.Value)
| Accounts
| Dbs (accountId : Js.Value)
| CreateDb (accountId : Js.Value) (dbName : string)
| DeleteDb (id : Js.Value)
| Vault
| CreateVault (entry : Js.Value)
| UpdateVault (id entry : Js.Value)
| DeleteVault (id : Js.Value)
| FtpAccounts
| CreateFtpAccounts (data : Js.Value)
| Imports
| CreateImport (importConfig : Js.Value)
| UpdateImport (importId importConfig : Js.Value)
| UpdateImportSchedule (importId schedule : Js.Value)
| Exports
| CreateExport (exportConfig : Js.Value)
| UpdateExport (exportId exportConfig : Js.Value)
| ScheduleExport (exportId schedule : Js.Value)
| Transformers
| CreateTransformer (transformer : Js.Value)
| UpdateTransformer (transformerId transformer : Js.Value)
| UpdateDbFields (data : Js.Value)
| CreateJoinImport (joinImportConfig : Js.Value)
| JoinImports
| Groups (accountId : Js.Value)
| CreateGroup (groupName : string)
| MoveDbToGroup (payload : Js.Value)
| Login (username password name : string)
| CreateBigCommerceAccount (name : string)
| MoveDbintoNewDbGroup (id : Js.Value) (targetGroupName : string)
| MoveDbFromSourceToTargetDbGroup (id sourceGroupId targetGroupId : Js.Value)
    (targetGroupName : option string)
| AddDbVaultEntry (id entry : Js.Value)
| DbFields (id : Js.Value)
| DeleteDbField (id fieldId : Js.Value).

(** The operations that address the session's active database: imports,
    exports, transformers, FTP accounts, join imports, field updates and
    builds. *)
Definition dbScoped (op : Operation) : bool :=
  match op with
  | ApplyAutomateBuildTemplate _ _ | FeedBuild _ | CancelBuild _
  | FtpAccounts | CreateFtpAccounts _
  | Imports | CreateImport _ | UpdateImport _ _ | UpdateImportSchedule _ _
  | Exports | CreateExport _ | UpdateExport _ _ | ScheduleExport _ _
  | Transformers | CreateTransformer _ | UpdateTransformer _ _ | UpdateDbFields _
  | CreateJoinImport _ | JoinImports => true
  | _ => false
  end.

Section Dispatch.
Context {rt : Runtime}.

Definition run (op : Operation) : M ServiceResponse :=
  match op with
  | Request method url data config => request method url data config
  | InvitePrimaryUser accountId email => invitePrimaryUser accountId email
  | ApplyAutomateBuildTemplate importId templateName =>
      applyAutomateBuildTemplate importId templateName
  | FeedBuild buildId => feedBuild buildId
  | CancelBuild buildId => cancelBuild buildId
  | Accounts => accounts
  | Dbs accountId => dbs accountId
  | CreateDb accountId dbName => createDb accountId dbName
  | DeleteDb id => deleteDb id
  | Vault => vault
  | CreateVault entry => createVault entry
  | UpdateVault id entry => updateVault id entry
  | DeleteVault id => deleteVault id
  | FtpAccounts => ftpAccounts
  | CreateFtpAccounts data => createFtpAccounts data
  | Imports => imports
  | CreateImport importConfig => createImport importConfig
  | UpdateImport importId importConfig => updateImport importId importConfig
  | UpdateImportSchedule importId schedule => updateImportSchedule importId schedule
  | Exports => exports
  | CreateExport exportConfig => createExport exportConfig
  | UpdateExport exportId exportConfig => updateExport exportId exportConfig
  | ScheduleExport exportId schedule => scheduleExport exportId schedule
  | Transformers => transformers
  | CreateTransformer transformer => createTransformer transformer
  | UpdateTransformer transformerId transformer => updateTransformer transformerId transformer
  | UpdateDbFields data => updateDbFields data
  | CreateJoinImport joinImportConfig => createJoinImport joinImportConfig
  | JoinImports => joinImports
  | Groups accountId => groups accountId
  | CreateGroup groupName => createGroup groupName
  | MoveDbToGroup payload => moveDbToGroup payload
  | Login username password name => login username password name
  | CreateBigCommerceAccount name => createBigCommerceAccount name
  | MoveDbintoNewDbGroup id targetGroupName => moveDbintoNewDbGroup id targetGroupName
  | MoveDbFromSourceToTargetDbGroup id sourceGroupId targetGroupId targetGroupName =>
      moveDbFromSourceToTargetDbGroup id sourceGroupId targetGroupId targetGroupName
  | AddDbVaultEntry id entry => addDbVaultEntry id entry
  | DbFields id => dbFields id
  | DeleteDbField id fieldId => deleteDbField id fieldId
  end.

End Dispatch.

End FdxClient.

(* ===================================================================== *)
(** ** [FdxService] ([src/services/FdxService.ts]) *)
(* ===================================================================== *)

Module FdxService.

Import Types Effects.

Definition MAIN_IMPORT_NAME : string := "BigCommerceImport".
Definition JOIN_IMPORT_NAME : string := "Extra Google Fields".
Definition EXPORT_NAME : string := "Export Google".
Definition ACCOUNT_PREFIX : string := "BC-".

(** [{ success: false, error: `${label}${result.error}` }] *)
Definition failWith (label : string) (result : ServiceResponse) : M ServiceResponse :=
  msg <- lift (Js.toStr (errorOf result)) ;;
  ret (failure (label ++ msg)).

(** [{ id, storeHash }] *)
Record User : Type := {
  id : Js.Value;
  storeHash : string
}.

(** [{ hour, minutes }] *)
Record TimeSlot : Type := {
  hour : string;
  minutes : string
}.

(** [`${FdxService.ACCOUNT_PREFIX}${storeId}`] *)
Definition getAccountName (storeId : Js.Value) : Js.Completion string :=
  s <~ Js.toStr storeId ;; Js.Normal (ACCOUNT_PREFIX ++ s).

Definition buildConnectionInfo (user : User) (channelIds : Js.Value) (mode : string)
  : list (string * Js.Value) :=
  let payload :=
    [("access_token", Js.Str "{{feedonomics::vault::bc_credentials::access_token}}");
     ("client_id", id user);
     ("store_hash", Js.Str (storeHash user));
     ("store_url", Js.Str ("https://store-" ++ storeHash user ++ ".mybigcommerce.com"));
     ("channel_ids", channelIds);
     ("filters", Js.Obj [("is_visible", Js.Num 1)]);
     ("include", Js.Str "products");
     ("additional_parent_fields", Js.Str "price,sale_price");
     ("additional_variant_fields", Js.Str "price,sale_price")] in
  Js.setField "pull_sample" (Js.Num (if (mode =? "create")%string then 1 else 0)) payload.

Definition buildImportUrl (user : User) (channelId : Js.Value) (mode : string)
  : Js.Completion string :=
  let connectionInfo := buildConnectionInfo user (Js.Arr [channelId]) mode in
  FdxClient.generateBigCommercePreprocessorUrl connectionInfo
    (Some [("request_type", Js.Str "get")]).

Definition buildImportConfig (user : User) (channelId : Js.Value) (isCreate : bool)
  : Js.Completion Js.Value :=
  let mode := if isCreate then "create" else "update" in
  let connectionInfo := buildConnectionInfo user (Js.Arr [channelId]) mode in
  url <~ buildImportUrl user channelId mode ;;
  let importConfig :=
    [("name", Js.Str MAIN_IMPORT_NAME);
     ("additional_options", Js.Str "google_field,category_tree");
     ("url", Js.Str url);
     ("preprocess_info", Js.Obj [("connection_info", Js.Obj connectionInfo)])] in
  Js.Normal
    (Js.Obj (if negb isCreate
             then Js.setField "do_import" (Js.Bool false) importConfig
             else importConfig)).

Definition exportFieldMap : list (string * string) :=
  [("id", "id");
   ("title", "title");
   ("description", "description");
   ("product_type", "category_ancestors");
   ("link", "product_url");
   ("image_link", "image_link");
   ("additional_image_link", "additional_image_link_zoom");
   ("condition", "condition");
   ("availability", "availability");
   ("price", "price_parent");
   ("sale_price", "sale_price_parent");
   ("brand", "brand");
   ("gtin", "gtin");
   ("mpn", "mpn");
   ("item_group_id", "item_group_id");
   ("currency", "currency");
   ("storefront_url", "storefront_url");
   ("country", "country");
   ("language", "language");
   ("product_url", "product_url");
   ("weight_unit", "weight_unit")].

Definition getExportFields : list Js.Value :=
  map (fun entry =>
         Js.Obj [("field_name", Js.Str (snd entry));
                 ("export_field_name", Js.Str (fst entry));
                 ("required", Js.Str "")])
      exportFieldMap.

Definition buildExportConfig (ftpCredentials : FtpCredentials) (filename : string) : Js.Value :=
  Js.Obj
    [("name", Js.Str EXPORT_NAME);
     ("file_name", Js.Str filename);
     ("protocol", Js.Str "sftp");
     ("host", Js.Str (host ftpCredentials));
     ("username", Js.Str (username ftpCredentials));
     ("password", Js.Str (password ftpCredentials));
     ("export_fields", Js.Arr getExportFields);
     ("export_selector", Js.Str "[can_export] equal 'true'");
     ("tags", Js.Arr [Js.Obj [("tag", Js.Str "export_template");
                              ("value", Js.Str "google_shopping")]])].

(** [acc[account.account_name] = account; return acc;] *)
Definition indexByName (acc : list (string * Js.Value)) (account : Js.Value)
  : Js.Completion (list (string * Js.Value)) :=
  name <~ Js.get account "account_name" ;;
  key <~ Js.toStr name ;;
  Js.Normal (Js.setField key account acc).

(** [result.data?.reduce(indexByName, {})] *)
Definition accountsByName (data : Js.Value) : Js.Completion Js.Value :=
  match data with
  | Js.Undefined | Js.Null => Js.Normal Js.Undefined
  | Js.Arr items => acc <~ Js.reduceIn indexByName items [] ;; Js.Normal (Js.Obj acc)
  | _ => Js.Abrupt (Js.notAFunction "result.data?.reduce")
  end.

(** [(i) => i.name === expected] *)
Definition named (expected : string) (i : Js.Value) : Js.Completion bool :=
  name <~ Js.get i "name" ;; Js.Normal (Js.isStr name expected).

(** [(group) => group.name.startsWith(FdxService.ACCOUNT_PREFIX)] *)
Definition hasAccountPrefix (group : Js.Value) : Js.Completion bool :=
  name <~ Js.get group "name" ;; Js.startsWith "group.name" name ACCOUNT_PREFIX.

(** [new Date(t + 365 * 24 * 60 * 60 * 1000).toISOString().split('T')[0]] *)
Definition oneYearFrom {rt : Runtime} (t : Z) : string :=
  hd "" (Uri.splitOn "T" (toISOString (t + 365 * 24 * 60 * 60 * 1000))).

(** [x > 0] for the [length] that was read. *)
Definition greaterThanZero {rt : Runtime} (x : Js.Value) : Js.Completion bool :=
  match x with
  | Js.Undefined | Js.Null => Js.Normal false
  | Js.Bool b => Js.Normal b
  | Js.Num n => Js.Normal (0 <? n)
  | Js.Str s => Js.Normal (numeralPositive s)
  | _ => s <~ Js.toStr x ;; Js.Normal (numeralPositive s)
  end.

Section WithRuntime.
Context {rt : Runtime}.

(** *** Accounts *)

Definition retrieveAccounts : M ServiceResponse :=
  result <- FdxClient.accounts ;;
  if negb (success result) then failWith "Error getting accounts: " result
  else
    accounts <- lift (accountsByName (payload result)) ;;
    ret (ok (Js.or accounts (Js.Obj []))).

Definition createAccount (accountName : string) : M ServiceResponse :=
  result <- FdxClient.createBigCommerceAccount accountName ;;
  if negb (success result) then failWith "Error creating account: " result
  else ret (ok (payload result)).

Definition getOrCreateAccount (storeId : Js.Value) : M ServiceResponse :=
  accountName <- lift (getAccountName storeId) ;;
  accountsResult <- retrieveAccounts ;;
  if negb (success accountsResult) then ret accountsResult
  else
    let account := Js.optGet (payload accountsResult) accountName in
    if Js.truthy account then ret (ok account)
    else createAccount accountName.

(** *** Groups *)

Definition findGroup (accountId : Js.Value) : M ServiceResponse :=
  result <- FdxClient.groups accountId ;;
  if negb (success result) then failWith "Error getting db groups: " result
  else
    accountName <- lift (Js.optFind "result.data" (payload result) hasAccountPrefix) ;;
    ret (ok accountName).

Definition moveDbToGroup (accountId : Js.Value) (accountName : string) : M ServiceResponse :=
  existingGroupResult <- findGroup accountId ;;
  if negb (success existingGroupResult) then ret existingGroupResult
  else
    result <-
      (if Js.truthy (payload existingGroupResult) then
         groupId <- lift (Js.get (payload existingGroupResult) "id") ;;
         FdxClient.moveDbToGroup
           (Js.Obj [("db_id", Js.Num 0);
                    ("group_id", groupId);
                    ("group_name", Js.Str accountName)])
       else FdxClient.createGroup accountName) ;;
    if negb (success result) then failWith "Error moving db to group: " result
    else ret (ok (payload result)).

(** *** Vault *)

(** [null] is [None]. *)
Definition deleteOldEntry (entries : Js.Value) : M (option ServiceResponse) :=
  oldEntry <- lift (Js.find "entries" entries (named "BigCommerce Credentials")) ;;
  if negb (Js.truthy oldEntry) then ret None
  else
    oldId <- lift (Js.get oldEntry "id") ;;
    result <- FdxClient.deleteVault oldId ;;
    if negb (success result) then
      r <- failWith "Error deleting vault: " result ;; ret (Some r)
    else ret (Some (ok (payload result))).

(** The [entryPayload] of [createOrUpdateVaultEntry], built at time [t]. *)
Definition entryPayload (accessToken : string) (t : Z) : Js.Value :=
  Js.Obj [("name", Js.Str "bc_credentials");
          ("expiration", Js.Str (oneYearFrom t));
          ("credentials_type", Js.Str "none");
          ("credentials",
           Js.Str (JSON_stringify (Js.Obj [("access_token", Js.Str accessToken)])))].

Definition createOrUpdateVaultEntry (entries : Js.Value) (accessToken : string)
  : M ServiceResponse :=
  entry <- lift (Js.find "entries" entries (named "bc_credentials")) ;;
  t <- now ;;
  result <-
    (if Js.truthy entry then
       entryId <- lift (Js.get entry "id") ;;
       FdxClient.updateVault entryId (entryPayload accessToken t)
     else FdxClient.createVault (entryPayload accessToken t)) ;;
  if negb (success result) then
    msg <- lift (Js.toStr (Js.or (errorOf result) (Js.Str "Unknown error"))) ;;
    ret (failure ("Error creating vault: " ++ msg))
  else ret (ok (payload result)).

Definition updateVaultEntries (accessToken : string) : M ServiceResponse :=
  vaultResult <- FdxClient.vault ;;
  if negb (success vaultResult) then failWith "Error getting vaults: " vaultResult
  else
    let entries :=
      Js.or (Js.optGet (Js.optGet (payload vaultResult) "data") "vault_rows") (Js.Arr []) in
    deleteResult <- deleteOldEntry entries ;;
    match deleteResult with
    | Some r =>
        if negb (success r) then ret r
        else createOrUpdateVaultEntry entries accessToken
    | None => createOrUpdateVaultEntry entries accessToken
    end.

(** *** FTP and databases *)

Definition getFtpCredentials : M ServiceResponse :=
  ftpResponse <- FdxClient.ftpAccounts ;;
  if negb (success ftpResponse) then failWith "Error getting credentials: " ftpResponse
  else
    nonEmpty <-
      lift (if Js.truthy (payload ftpResponse)
            then len <~ Js.get (payload ftpResponse) "length" ;; greaterThanZero len
            else Js.Normal false) ;;
    if nonEmpty then ret (ok (payload ftpResponse))
    else
      createFtpResponse <- FdxClient.createFtpAccounts (Js.Obj []) ;;
      if negb (success createFtpResponse)
      then failWith "Error creating FTP credentials: " createFtpResponse
      else ret (ok (payload createFtpResponse)).

Definition deleteDb (dbId : Js.Value) : M ServiceResponse :=
  result <- FdxClient.deleteDb dbId ;;
  if negb (success result) then failWith "Error deleting db: " result
  else ret (ok (payload result)).

Definition createDb (accountId : Js.Value) (dbName : string) : M ServiceResponse :=
  result <- FdxClient.createDb accountId dbName ;;
  if negb (success result) then failWith "Error creating db: " result
  else ret (ok (payload result)).

(** *** Imports *)

Definition retrieveImport : M ServiceResponse :=
  imports <- FdxClient.imports ;;
  if negb (success imports) then failWith "Error getting imports: " imports
  else
    import_ <- lift (Js.optFind "imports.data" (payload imports) (named MAIN_IMPORT_NAME)) ;;
    ret (ok (Js.or import_ Js.Null)).

Definition createOrUpdateImport (user : User) (channelId : Js.Value) (isCreate : bool)
  : M ServiceResponse :=
  importConfig <- lift (buildImportConfig user channelId isCreate) ;;
  existingImport <- retrieveImport ;;
  if success existingImport && Js.truthy (payload existingImport) then
    importId <- lift (Js.get (payload existingImport) "id") ;;
    result <- FdxClient.updateImport importId importConfig ;;
    if negb (success result) then failWith "Error updating import: " result
    else ret (ok (payload existingImport))
  else
    result <- FdxClient.createImport importConfig ;;
    if negb (success result) then failWith "Error creating import: " result
    else ret (ok (payload result)).

Definition updateImportSchedule (importId : Js.Value) (day hour minute : string)
  : M ServiceResponse :=
  let schedule := scheduleValue {| Types.day := day; Types.hour := hour; Types.minute := minute |} in
  result <- FdxClient.updateImportSchedule importId schedule ;;
  if negb (success result) then failWith "Error updating import schedule: " result
  else ret (ok (payload result)).

(** *** Exports *)

Definition getExistingExport : M ServiceResponse :=
  exports <- FdxClient.exports ;;
  if negb (success exports) then failWith "Error getting exports: " exports
  else
    export_ <- lift (Js.optFind "exports.data" (payload exports) (named EXPORT_NAME)) ;;
    ret (ok (Js.or export_ Js.Null)).

Definition handleExistingExport (existingExport : Js.Value) (ftpCredentials : FtpCredentials)
  (filename : string) : M ServiceResponse :=
  let exportConfig := buildExportConfig ftpCredentials filename in
  if Js.truthy existingExport then
    exportId <- lift (Js.get existingExport "id") ;;
    result <- FdxClient.updateExport exportId exportConfig ;;
    if negb (success result) then failWith "Error updating exports: " result
    else ret (ok existingExport)
  else
    result <- FdxClient.createExport exportConfig ;;
    if negb (success result) then failWith "Error creating exports: " result
    else ret (ok (payload result)).

Definition runExportSchedule (export_ : Js.Value) (timeSlot : TimeSlot) : M ServiceResponse :=
  let schedule :=
    scheduleValue {| Types.day := "*"; Types.hour := hour timeSlot;
                     Types.minute := minutes timeSlot |} in
  exportId <- lift (Js.get export_ "id") ;;
  result <- FdxClient.scheduleExport exportId schedule ;;
  if negb (success result) then ret (failure "Error setting running export schedule in FDX")
  else ret (ok export_).

Definition createOrUpdateExport (ftpCredentials : FtpCredentials) (filename : string)
  (timeSlot : option TimeSlot) : M ServiceResponse :=
  currentExportResponse <- getExistingExport ;;
  if negb (success currentExportResponse)
  then failWith "Getting existing export: " currentExportResponse
  else
    export_ <- handleExistingExport (payload currentExportResponse) ftpCredentials filename ;;
    if negb (success export_) then failWith "Creating or updating exports: " export_
    else
      match timeSlot with
      | Some slot => runExportSchedule (payload export_) slot
      | None => ret export_
      end.

(** *** Transformers, fields and join imports *)

(** The loop of [createTransformers]; [results] is what was pushed so
    far. *)
Fixpoint createTransformersFrom (transformers : list Js.Value) (results : list Js.Value)
  : M ServiceResponse :=
  match transformers with
  | [] => ret (ok (Js.Arr results))
  | transformer :: rest =>
      result <- FdxClient.createTransformer transformer ;;
      if negb (success result) then failWith "Error creating transformer: " result
      else createTransformersFrom rest (results ++ [payload result])
  end.

Definition createTransformers (transformers : list Js.Value) : M ServiceResponse :=
  createTransformersFrom transformers [].

Fixpoint updateDbFieldsFrom (fields : list Js.Value) (results : list Js.Value)
  : M ServiceResponse :=
  match fields with
  | [] => ret (ok (Js.Arr results))
  | field :: rest =>
      result <- FdxClient.updateDbFields field ;;
      if negb (success result) then failWith "Error updating db fields: " result
      else updateDbFieldsFrom rest (results ++ [payload result])
  end.

Definition updateDbFields (fields : list Js.Value) : M ServiceResponse :=
  updateDbFieldsFrom fields [].

Definition createJoinImport (ftpCredentials : FtpCredentials) (fileName : string)
  : M ServiceResponse :=
  let joinImportConfig :=
    Js.Obj [("name", Js.Str JOIN_IMPORT_NAME);
            ("file_name", Js.Str fileName);
            ("host", Js.Str (host ftpCredentials));
            ("username", Js.Str (username ftpCredentials));
            ("password", Js.Str (password ftpCredentials))] in
  result <- FdxClient.createJoinImport joinImportConfig ;;
  if negb (success result) then failWith "Error creating join import: " result
  else ret (ok (payload result)).

(** *** Running an import or an export *)

Definition runImport (importId : string) : M ServiceResponse :=
  dbId <- FdxClient.getDbId ;;
  if negb (Js.truthy (optStr dbId)) then ret (failure "No database selected")
  else
    result <- FdxClient.request "POST"
                ("/dbs/" ++ text dbId ++ "/imports/" ++ importId ++ "/run") (Js.Obj []) [] ;;
    if negb (success result) then failWith "Error running import: " result
    else ret (ok (payload result)).

Definition runExport (exportId : string) : M ServiceResponse :=
  dbId <- FdxClient.getDbId ;;
  if negb (Js.truthy (optStr dbId)) then ret (failure "No database selected")
  else
    result <- FdxClient.request "POST"
                ("/dbs/" ++ text dbId ++ "/exports/" ++ exportId ++ "/run") (Js.Obj []) [] ;;
    if negb (success result) then failWith "Error running export: " result
    else ret (ok (payload result)).

End WithRuntime.

(** *** The composite workflow

    [setupBigCommerceIntegration] is a sequence of eight blocks inside one
    [try].  Each block is a function from the identifiers obtained so far
    ([Locals]) to either the next [Locals] or the envelope the method
    returns at once. *)

Module Setup.

Record Locals : Type := {
  accountId : Js.Value;
  dbId : Js.Value;
  vaultId : Js.Value;
  importId : Js.Value
}.

Definition start : Locals :=
  {| accountId := Js.Undefined; dbId := Js.Undefined;
     vaultId := Js.Undefined; importId := Js.Undefined |}.

Inductive Flow : Type :=
| Continue (locals : Locals)
| Return (result : ServiceResponse).

End Setup.

Import Setup.

(** [if (s)] for an optional string: absent and empty are both false. *)
Definition given (s : option string) : option string :=
  match s with
  | Some x => if (x =? "")%string then None else Some x
  | None => None
  end.

(** [!result.success || !result.data?.id] *)
Definition failedOrNoId (result : ServiceResponse) : bool :=
  negb (success result) || negb (Js.truthy (Js.optGet (payload result) "id")).

Definition returnFailure (label : string) (result : ServiceResponse) : M Flow :=
  r <- failWith label result ;; ret (Return r).

Definition connectionInfo (params : BigCommerceSetupParams) : list (string * Js.Value) :=
  [("client", Js.Str "bigcommerce");
   ("protocol", Js.Str "api");
   ("access_token", Js.Str (accessToken params));
   ("client_id", Js.Str (orElse (clientId params) ""));
   ("include", Js.Str "products,category_tree");
   ("filters", Js.Obj []);
   ("price_list", Js.Obj [("currencies", Js.Str ""); ("ids", Js.Str "")]);
   ("location_inventory", Js.Obj [("ids", Js.Str "")]);
   ("store_hash", Js.Str (Types.storeHash params));
   ("store_url",
    Js.Str (orElse (storeUrl params)
              ("https://store-" ++ Types.storeHash params ++ ".mybigcommerce.com/")));
   ("show_empty_fields", Js.Str "");
   ("additional_image_sizes", Js.Bool false);
   ("additional_options", Js.Str "");
   ("additional_parent_fields", Js.Str "");
   ("additional_variant_fields", Js.Str "");
   ("to_columns", Js.Str "");
   ("to_columns_keep_both", Js.Bool false)].

Definition fileInfo : list (string * Js.Value) :=
  [("request_type", Js.Str "get"); ("output_compressed", Js.Bool true)].

Definition importConfig (params : BigCommerceSetupParams) (url : string) : Js.Value :=
  Js.Obj
    [("file_location", Js.Str "preprocess_script");
     ("join_type", Js.Str "product_feed");
     ("name", Js.Str "BC Product Import");
     ("tags", Js.Obj [("platform", Js.Str "Bigcommerce")]);
     ("timeout", Js.Str "1800");
     ("do_import", Js.Bool false);
     ("do_notify", Js.Bool false);
     ("notification_email", Js.Null);
     ("cron", Js.Str "0 * * * *");
     ("url", Js.Str url);
     ("preprocess_info",
      Js.Obj [("actions", Js.Arr []);
              ("connection_info", Js.Obj (connectionInfo params));
              ("file_info", Js.Obj fileInfo)])].

(** The steps of the workflow, named. *)
Inductive Step : Type :=
| CreateAccount
| InviteUser
| CreateDatabase
| MoveToGroup
| AddVaultEntry
| CreateImport
| SetSchedule
| ApplyTemplate.

Definition steps : list Step :=
  [CreateAccount; InviteUser; CreateDatabase; MoveToGroup;
   AddVaultEntry; CreateImport; SetSchedule; ApplyTemplate].

(** The label a step's failure is reported under. *)
Definition label (s : Step) : string :=
  match s with
  | CreateAccount => "Failed to create account: "
  | InviteUser => "Failed to invite user: "
  | CreateDatabase => "Failed to create database: "
  | MoveToGroup => "Failed to move database to group: "
  | AddVaultEntry => "Failed to create vault entry: "
  | CreateImport => "Failed to create import: "
  | SetSchedule => "Failed to update import schedule: "
  | ApplyTemplate => "Failed to apply build template: "
  end.

(** The steps that precede a step. *)
Definition before (s : Step) : list Step :=
  match s with
  | CreateAccount => []
  | InviteUser => [CreateAccount]
  | CreateDatabase => [CreateAccount; InviteUser]
  | MoveToGroup => [CreateAccount; InviteUser; CreateDatabase]
  | AddVaultEntry => [CreateAccount; InviteUser; CreateDatabase; MoveToGroup]
  | CreateImport => [CreateAccount; InviteUser; CreateDatabase; MoveToGroup; AddVaultEntry]
  | SetSchedule =>
      [CreateAccount; InviteUser; CreateDatabase; MoveToGroup; AddVaultEntry; CreateImport]
  | ApplyTemplate =>
      [CreateAccount; InviteUser; CreateDatabase; MoveToGroup; AddVaultEntry; CreateImport;
       SetSchedule]
  end.

Section Workflow.
Context {rt : Runtime}.

Definition vaultEntry (params : BigCommerceSetupParams) (t : Z) : Js.Value :=
  Js.Obj
    [("name", Js.Str (orElse (vaultEntryName params) "bc_credentials"));
     ("expiration", Js.Str (oneYearFrom t));
     ("credentials_type", Js.Str "none");
     ("credentials",
      Js.Str (JSON_stringify
                (Js.Obj [("access_token", Js.Str (accessToken params));
                         ("store_hash", Js.Str (Types.storeHash params));
                         ("client_id", Js.Str (orElse (clientId params) ""));
                         ("channel_id", Js.or (channelId params) (Js.Str ""))])))].

(** Step 1: create the BigCommerce account. *)
Definition createAccountStep (params : BigCommerceSetupParams) (l : Locals) : M Flow :=
  accountResult <- FdxClient.createBigCommerceAccount (accountName params) ;;
  if failedOrNoId accountResult then returnFailure "Failed to create account: " accountResult
  else
    accountId <- lift (Js.get (payload accountResult) "id") ;;
    ret (Continue {| accountId := accountId; dbId := dbId l;
                     vaultId := vaultId l; importId := importId l |}).

(** Step 2: invite the primary user when an email was given. *)
Definition inviteUserStep (params : BigCommerceSetupParams) (l : Locals) : M Flow :=
  match given (userEmail params) with
  | Some primaryUserEmail =>
      inviteResult <- FdxClient.invitePrimaryUser (accountId l) primaryUserEmail ;;
      if negb (success inviteResult) then returnFailure "Failed to invite user: " inviteResult
      else ret (Continue l)
  | None => ret (Continue l)
  end.

(** Step 3: create the database and make it the client's active one. *)
Definition createDatabaseStep (params : BigCommerceSetupParams) (l : Locals) : M Flow :=
  let dbName := orElse (dbName params) ("BC Store " ++ Types.storeHash params) in
  dbResult <- FdxClient.createDb (accountId l) dbName ;;
  if failedOrNoId dbResult then returnFailure "Failed to create database: " dbResult
  else
    dbId <- lift (Js.get (payload dbResult) "id") ;;
    text <- lift (Js.callToString "dbId" dbId) ;;
    FdxClient.setDbId text ;;;
    ret (Continue {| accountId := accountId l; dbId := dbId;
                     vaultId := vaultId l; importId := importId l |}).

(** Step 4: move the database to a group when a group name was given. *)
Definition moveToGroupStep (params : BigCommerceSetupParams) (l : Locals) : M Flow :=
  match given (groupName params) with
  | Some name =>
      groupResult <- FdxClient.moveDbintoNewDbGroup (dbId l) name ;;
      if negb (success groupResult)
      then returnFailure "Failed to move database to group: " groupResult
      else ret (Continue l)
  | None => ret (Continue l)
  end.

(** Step 5: store the credentials in a vault entry of the database. *)
Definition addVaultEntryStep (params : BigCommerceSetupParams) (l : Locals) : M Flow :=
  t <- now ;;
  vaultResult <- FdxClient.addDbVaultEntry (dbId l) (vaultEntry params t) ;;
  if negb (success vaultResult) then returnFailure "Failed to create vault entry: " vaultResult
  else
    ret (Continue {| accountId := accountId l; dbId := dbId l;
                     vaultId := Js.optGet (Js.optGet (payload vaultResult) "data") "new_row_id";
                     importId := importId l |}).

(** Step 6: create the import configuration. *)
Definition createImportStep (params : BigCommerceSetupParams) (l : Locals) : M Flow :=
  url <- lift (FdxClient.generateBigCommercePreprocessorUrl
                 (connectionInfo params) (Some fileInfo)) ;;
  importResult <- FdxClient.createImport (importConfig params url) ;;
  if failedOrNoId importResult then returnFailure "Failed to create import: " importResult
  else
    importId <- lift (Js.get (payload importResult) "id") ;;
    ret (Continue {| accountId := accountId l; dbId := dbId l;
                     vaultId := vaultId l; importId := importId |}).

(** Step 7: set the import schedule when one was given. *)
Definition setScheduleStep (params : BigCommerceSetupParams) (l : Locals) : M Flow :=
  match importSchedule params with
  | Some s =>
      let schedule :=
        scheduleValue {| day := orElse (Some (day s)) "*";
                         Types.hour := orElse (Some (Types.hour s)) "*";
                         minute := orElse (Some (minute s)) "0" |} in
      scheduleResult <- FdxClient.updateImportSchedule (importId l) schedule ;;
      if negb (success scheduleResult)
      then returnFailure "Failed to update import schedule: " scheduleResult
      else ret (Continue l)
  | None => ret (Continue l)
  end.

(** Step 8: apply the build template when one was named. *)
Definition applyTemplateStep (params : BigCommerceSetupParams) (l : Locals) : M Flow :=
  match given (buildTemplate params) with
  | Some template =>
      buildResult <- FdxClient.applyAutomateBuildTemplate (importId l) template ;;
      if negb (success buildResult)
      then returnFailure "Failed to apply build template: " buildResult
      else ret (Continue l)
  | None => ret (Continue l)
  end.

Definition runStep (s : Step) : BigCommerceSetupParams -> Locals -> M Flow :=
  match s with
  | CreateAccount => createAccountStep
  | InviteUser => inviteUserStep
  | CreateDatabase => createDatabaseStep
  | MoveToGroup => moveToGroupStep
  | AddVaultEntry => addVaultEntryStep
  | CreateImport => createImportStep
  | SetSchedule => setScheduleStep
  | ApplyTemplate => applyTemplateStep
  end.

(** The blocks in sequence: a [return] in one skips the rest. *)
Fixpoint runSteps (ss : list Step) (params : BigCommerceSetupParams) (l : Locals) : M Flow :=
  match ss with
  | [] => ret (Continue l)
  | s :: rest =>
      flow <- runStep s params l ;;
      match flow with
      | Continue l' => runSteps rest params l'
      | Return r => ret (Return r)
      end
  end.

(** The [try] block. *)
Definition setupBody (params : BigCommerceSetupParams) : M ServiceResponse :=
  flow <- runSteps steps params start ;;
  match flow with
  | Return r => ret r
  | Continue l =>
      ret (ok (Js.Obj [("success", Js.Bool true);
                       ("accountId", accountId l);
                       ("dbId", dbId l);
                       ("importId", importId l);
                       ("vaultEntryId", vaultId l);
                       ("primaryUserEmail", optStr (userEmail params))]))
  end.

Definition setupBigCommerceIntegration (params : BigCommerceSetupParams) : M ServiceResponse :=
  tryCatch (setupBody params)
    (fun error => ret (failure ("BigCommerce setup failed: " ++ Js.message error))).

(** The client call a step makes, with the arguments the step builds for
    it; [None] when the step is skipped. *)
Definition clientCall (s : Step) (params : BigCommerceSetupParams) (l : Locals)
  : option (M ServiceResponse) :=
  match s with
  | CreateAccount => Some (FdxClient.createBigCommerceAccount (accountName params))
  | InviteUser =>
      option_map (FdxClient.invitePrimaryUser (accountId l)) (given (userEmail params))
  | CreateDatabase =>
      Some (FdxClient.createDb (accountId l)
              (orElse (dbName params) ("BC Store " ++ Types.storeHash params)))
  | MoveToGroup =>
      option_map (FdxClient.moveDbintoNewDbGroup (dbId l)) (given (groupName params))
  | AddVaultEntry =>
      Some (t <- now ;; FdxClient.addDbVaultEntry (dbId l) (vaultEntry params t))
  | CreateImport =>
      Some (url <- lift (FdxClient.generateBigCommercePreprocessorUrl
                           (connectionInfo params) (Some fileInfo)) ;;
            FdxClient.createImport (importConfig params url))
  | SetSchedule =>
      option_map
        (fun s =>
           FdxClient.updateImportSchedule (importId l)
             (scheduleValue {| day := orElse (Some (day s)) "*";
                               Types.hour := orElse (Some (Types.hour s)) "*";
                               minute := orElse (Some (minute s)) "0" |}))
        (importSchedule params)
  | ApplyTemplate =>
      option_map (FdxClient.applyAutomateBuildTemplate (importId l))
        (given (buildTemplate params))
  end.

End Workflow.

(** *** The public operations *)

Inductive Operation : Type :=
| RetrieveAccounts
| GetOrCreateAccount (storeId : Js.Value)
| CreateAccountOp (accountName : string)
| MoveDbToGroup (accountId : Js.Value) (accountName : string)
| UpdateVaultEntries (accessToken : string)
| GetFtpCredentials
| DeleteDb (dbId : Js.Value)
| CreateDb (accountId : Js.Value) (dbName : string)
| RetrieveImport
| CreateOrUpdateImport (user : User) (channelId : Js.Value) (isCreate : bool)
| UpdateImportSchedule (importId : Js.Value) (day hour minute : string)
| CreateOrUpdateExport (ftpCredentials : FtpCredentials) (filename : string)
    (timeSlot : option TimeSlot)
| GetExistingExport
| CreateTransformers (transformers : list Js.Value)
| UpdateDbFields (fields : list Js.Value)
| CreateJoinImport (ftpCredentials : FtpCredentials) (fileName : string)
| RunImport (importId : string)
| RunExport (exportId : string)
| SetupBigCommerceIntegration (params : BigCommerceSetupParams).

Section Dispatch.
Context {rt : Runtime}.

Definition run (op : Operation) : M ServiceResponse :=
  match op with
  | RetrieveAccounts => retrieveAccounts
  | GetOrCreateAccount storeId => getOrCreateAccount storeId
  | CreateAccountOp accountName => createAccount accountName
  | MoveDbToGroup accountId accountName => moveDbToGroup accountId accountName
  | UpdateVaultEntries accessToken => updateVaultEntries accessToken
  | GetFtpCredentials => getFtpCredentials
  | DeleteDb dbId => deleteDb dbId
  | CreateDb accountId dbName => createDb accountId dbName
  | RetrieveImport => retrieveImport
  | CreateOrUpdateImport user channelId isCreate => createOrUpdateImport user channelId isCreate
  | UpdateImportSchedule importId day hour minute => updateImportSchedule importId day hour minute
  | CreateOrUpdateExport ftpCredentials filename timeSlot =>
      createOrUpdateExport ftpCredentials filename timeSlot
  | GetExistingExport => getExistingExport
  | CreateTransformers transformers => createTransformers transformers
  | UpdateDbFields fields => updateDbFields fields
  | CreateJoinImport ftpCredentials fileName => createJoinImport ftpCredentials fileName
  | RunImport importId => runImport importId
  | RunExport exportId => runExport exportId
  | SetupBigCommerceIntegration params => setupBigCommerceIntegration params
  end.

End Dispatch.

End FdxService.

(* ===================================================================== *)
(** ** The vocabulary of the statements *)
(* ===================================================================== *)

Module Spec.

Import Types Effects.

(** *** Requests *)

(** The world [request] leaves: what [logVerbose] printed is on the
    console and the request is the last of the log. *)
Definition sent (w : World) (url : string) (req : Js.Value) : World :=
  let w' := worldOf (FdxClient.logVerbose url w) in
  {| this := this w'; requests := requests w' ++ [req]; console := console w' |}.

Definition in2xx (code : Z) : Prop := 200 <= code < 300.

(** The body's [message] when it is truthy, a placeholder otherwise. *)
Definition serverMessageOr (placeholder : string) (body : Js.Value) : Js.Value :=
  Js.or (Js.optGet body "message") (Js.Str placeholder).

(** The method and the path of a logged request. *)
Definition route (req : Js.Value) : Js.Value * Js.Value :=
  (Js.prop req "method", Js.prop req "url").

(** *** Envelopes *)

(** A success carries no error; a failure carries no payload and an
    error. *)
Definition wellFormed (r : ServiceResponse) : Prop :=
  (success r = true -> error r = None) /\
  (success r = false ->
   data r = None /\ exists e, error r = Some e /\ e <> Js.Undefined).

(** [Ensures Q m]: whatever [m] returns satisfies [Q]. *)
Definition Ensures {A} (Q : A -> Prop) (m : M A) : Prop :=
  forall w, match m w with Returns a _ => Q a | Throws _ _ => True end.

Definition flowWellFormed (f : FdxService.Setup.Flow) : Prop :=
  match f with
  | FdxService.Setup.Return r => wellFormed r
  | FdxService.Setup.Continue _ => True
  end.

Definition optionWellFormed (o : option ServiceResponse) : Prop :=
  match o with Some r => wellFormed r | None => True end.

(** *** The session *)

(** Every session field but the active database is the same. *)
Definition sameSettings (c c' : Client) : Prop :=
  client c' = client c /\
  apiToken c' = apiToken c /\
  baseUrl c' = baseUrl c /\
  config c' = config c /\
  verbose c' = verbose c.

(** [Frames R m]: running [m] takes the client object to one related to it
    by [R], whether [m] returns or throws. *)
Definition Frames {A} (R : Client -> Client -> Prop) (m : M A) : Prop :=
  forall w, R (this w) (this (worldOf (m w))).

(** *** Groups *)

(** No group in the lookup's payload has a name that starts with the
    account prefix. *)
Definition noPrefixedGroup (data : Js.Value) : Prop :=
  match data with
  | Js.Undefined | Js.Null => True
  | Js.Arr items =>
      Forall (fun group =>
                exists name,
                  Js.get group "name" = Js.Normal (Js.Str name) /\
                  String.prefix FdxService.ACCOUNT_PREFIX name = false)
             items
  | _ => False
  end.

(** *** The preprocessor URL *)

(** A string, a number or a boolean. *)
Definition scalar (v : Js.Value) : bool :=
  match v with
  | Js.Bool _ | Js.Num _ | Js.Str _ => true
  | _ => false
  end.

(** The query parameters one property of [connection_info] gives rise to,
    by name, with the value each carries. *)
Definition connectionFieldParams (field : string * Js.Value) : list (string * Js.Value) :=
  let (key, value) := field in
  if Js.defined value then
    if Js.isObject value then
      flat_map (fun sub =>
                  if Js.defined (snd sub)
                  then [("connection_info[" ++ key ++ "][" ++ fst sub ++ "]", snd sub)]
                  else [])
               (Js.entries value)
    else [("connection_info[" ++ key ++ "]", value)]
  else [].

Definition fileFieldParams (field : string * Js.Value) : list (string * Js.Value) :=
  if Js.defined (snd field) then [("file_info[" ++ fst field ++ "]", snd field)] else [].

(** Every query parameter the fields of the parameter object give rise
    to, in the order the loops write them. *)
Definition fieldParams (connection_info : list (string * Js.Value))
  (file_info : option (list (string * Js.Value))) : list (string * Js.Value) :=
  flat_map connectionFieldParams connection_info ++
  match file_info with
  | Some fields => flat_map fileFieldParams fields
  | None => []
  end.

(** The names of those parameters. *)
Definition parameterNames (connection_info : list (string * Js.Value))
  (file_info : option (list (string * Js.Value))) : list string :=
  map fst (fieldParams connection_info file_info).

(** [ScalarField connection_info file_info name value]: [value] is a
    defined scalar field of the parameter object and [name] is the name of
    its query parameter. *)
Inductive ScalarField (connection_info : list (string * Js.Value))
  (file_info : option (list (string * Js.Value))) : string -> Js.Value -> Prop :=
| TopLevel key value :
    In (key, value) connection_info -> scalar value = true ->
    ScalarField connection_info file_info ("connection_info[" ++ key ++ "]") value
| Nested key object subKey value :
    In (key, object) connection_info -> Js.isObject object = true ->
    In (subKey, value) (Js.entries object) -> scalar value = true ->
    ScalarField connection_info file_info
      ("connection_info[" ++ key ++ "][" ++ subKey ++ "]") value
| FileInfo fields key value :
    file_info = Some fields -> In (key, value) fields -> scalar value = true ->
    ScalarField connection_info file_info ("file_info[" ++ key ++ "]") value.

(** One [searchParams.set(name, doubleEncode(String(value)))]. *)
Definition setParam (param : string * Js.Value) (sp : Uri.URLSearchParams)
  : Js.Completion Uri.URLSearchParams :=
  s <~ Js.toStr (snd param) ;;
  Js.Normal (Uri.set (fst param) (FdxClient.doubleEncode s) sp).

(** What [searchParams] holds when the two fixed parameters are in. *)
Definition fixedParams : Uri.URLSearchParams :=
  [("connection_info[client]", FdxClient.doubleEncode "bigcommerce");
   ("connection_info[protocol]", FdxClient.doubleEncode "api")].

(** [decodeURIComponent(decodeURIComponent(s))] *)
Definition decodeTwice (s : string) : option string :=
  match Uri.decodeURIComponent s with
  | Some once => Uri.decodeURIComponent once
  | None => None
  end.

(** *** Traffic *)

(** The methods and paths of the requests sent so far, oldest first. *)
Definition routes (w : World) : list (Js.Value * Js.Value) := map route (requests w).

Definition post (url : string) : Js.Value * Js.Value := (Js.Str "POST", Js.Str url).

(** [AtMostOnce scoped m]: a call of [m] that throws leaves the world as
    it was; one that returns leaves the client object as it was and
    either was stopped by the guard of a database-scoped operation, with
    nothing sent, or handed exactly one request to axios. *)
Definition AtMostOnce (scoped : bool) (m : M ServiceResponse) : Prop :=
  forall w,
    match m w with
    | Throws _ w' => w' = w
    | Returns r w' =>
        this w' = this w /\
        ((scoped = true /\ FdxClient.noDbId (this w) = true /\
          r = FdxClient.dbIdRequired /\ w' = w) \/
         exists req, requests w' = (requests w ++ [req])%list)
    end.

(** *** Envelopes of the service *)

(** An envelope the service built itself: [{ success: true, data }] or
    [{ success: false, error }] with a text for the error. *)
Definition builtHere (r : ServiceResponse) : Prop :=
  (exists v, r = ok v) \/ (exists msg, r = failure msg).

Definition flowBuiltHere (f : FdxService.Setup.Flow) : Prop :=
  match f with
  | FdxService.Setup.Continue _ => True
  | FdxService.Setup.Return r => builtHere r
  end.

Definition optionBuiltHere (o : option ServiceResponse) : Prop :=
  match o with
  | Some r => builtHere r
  | None => True
  end.

(** *** The workflow that goes through *)

Definition whenGiven {A B} (o : option A) (x : B) : list B :=
  match o with Some _ => [x] | None => [] end.

(** The calls of a workflow that goes through, in order: [a], [d] and [i]
    are the texts of the account, database and import identifiers. *)
Definition setupRoutes (params : BigCommerceSetupParams) (a d i : string)
  : list (Js.Value * Js.Value) :=
  ([post "/bigcommerce/account"] ++
   whenGiven (FdxService.given (userEmail params))
     (post ("/accounts/" ++ a ++ "/user_account_permissions")) ++
   [post ("/accounts/" ++ a ++ "/dbs")] ++
   whenGiven (FdxService.given (groupName params))
     (post ("/dbs/" ++ d ++ "/move_db_to_db_group")) ++
   [post ("/dbs/" ++ d ++ "/vault"); post ("/dbs/" ++ d ++ "/imports")] ++
   whenGiven (importSchedule params)
     (Js.Str "PUT", Js.Str ("/dbs/" ++ d ++ "/imports/" ++ i ++ "/schedule")) ++
   whenGiven (FdxService.given (buildTemplate params))
     (post ("/dbs/" ++ d ++ "/apply_automate_build_template")))%list.

(** The payload of a workflow that went through with the identifiers
    [l]. *)
Definition setupResult (params : BigCommerceSetupParams) (l : FdxService.Setup.Locals)
  : Js.Value :=
  Js.Obj [("success", Js.Bool true);
          ("accountId", FdxService.Setup.accountId l);
          ("dbId", FdxService.Setup.dbId l);
          ("importId", FdxService.Setup.importId l);
          ("vaultEntryId", FdxService.Setup.vaultId l);
          ("primaryUserEmail", optStr (userEmail params))].

(** Whether a step sends its call: the optional ones only when their
    parameter was given. *)
Definition sends (params : BigCommerceSetupParams) (s : FdxService.Step) : bool :=
  match s with
  | FdxService.InviteUser =>
      match FdxService.given (userEmail params) with Some _ => true | None => false end
  | FdxService.MoveToGroup =>
      match FdxService.given (groupName params) with Some _ => true | None => false end
  | FdxService.SetSchedule =>
      match importSchedule params with Some _ => true | None => false end
  | FdxService.ApplyTemplate =>
      match FdxService.given (buildTemplate params) with Some _ => true | None => false end
  | _ => true
  end.

(** How many requests a workflow that goes through has sent when it
    reaches the step [s]. *)
Definition sentBefore (params : BigCommerceSetupParams) (s : FdxService.Step) : nat :=
  List.length (filter (sends params) (FdxService.before s)).

(** [answered w w' n route body]: of the requests sent between [w] and
    [w'], the one at position [n] (from 0) went to [route], and axios, with
    the requests before it in the log, resolved it with a response whose
    code is in [200,300) and whose body is [body]. *)
Definition answered {rt : Runtime} (w w' : World) (n : nat) (to : Js.Value * Js.Value)
  (body : Js.Value) : Prop :=
  exists earlier req later response,
    requests w' = (requests w ++ earlier ++ req :: later)%list /\
    List.length earlier = n /\
    route req = to /\
    axios (client (this w)) (requests w ++ earlier) req = Axios.Resolved response /\
    in2xx (Axios.status response) /\
    Axios.data response = body.

(** The steps that need an [id] in the payload of their call. *)
Definition needsId (s : FdxService.Step) : bool :=
  match s with
  | FdxService.CreateAccount | FdxService.CreateDatabase | FdxService.CreateImport => true
  | _ => false
  end.

(** *** Accounts by name *)

(** [String(account.account_name)]: the key [retrieveAccounts] files an
    account under. *)
Definition accountKey (account : Js.Value) : Js.Completion string :=
  name <~ Js.get account "account_name" ;; Js.toStr name.

(** An account the listing can file: it has a key, and the key is not the
    one an object keeps its prototype under. *)
Definition filable (account : Js.Value) : Prop :=
  exists key, accountKey account = Js.Normal key /\ key <> "__proto__".

(** The last of [accounts] filed under [key]. *)
Fixpoint lastFiled (key : string) (accounts : list Js.Value) : option Js.Value :=
  match accounts with
  | [] => None
  | account :: rest =>
      match lastFiled key rest with
      | Some later => Some later
      | None =>
          match accountKey account with
          | Js.Normal k => if (k =? key)%string then Some account else None
          | Js.Abrupt _ => None
          end
      end
  end.

(** *** What axios answered *)

(** The envelope [request] makes of what axios delivered. *)
Definition envelopeOf (o : Axios.Outcome) : ServiceResponse :=
  match o with
  | Axios.Resolved response => FdxClient.processResponse response
  | Axios.Rejected error => FdxClient.rejected error
  end.

(** *** Batches *)

(** The requests of a loop that sends one [method] request to [path] per
    item. *)
Definition batchRequests (method path : string) (items : list Js.Value) : list Js.Value :=
  map (fun item => FdxClient.requestConfig method path item []) items.

(** The envelope of the call for the item at position [k] (from 0) of a
    batch that starts in the world [w]: what axios answers to the request
    of that item when the requests of the items before it are in the
    log. *)
Definition batchReply {rt : Runtime} (method path : string) (items : list Js.Value)
  (w : World) (k : nat) : ServiceResponse :=
  envelopeOf
    (axios (client (this w)) (requests w ++ batchRequests method path (firstn k items))
       (FdxClient.requestConfig method path (nth k items Js.Undefined) [])).

(** What a loop over [items] that stops at the first failure does, from
    the world [w].  Either the call of every item went through: one request
    per item was sent and the loop returns the payloads of the calls, in
    order.  Or the item at position [k] is the first whose call failed: the
    requests of the items up to it were sent, none of a later item, and the
    loop returns the failure labelled with the error of that call, or
    throws when that error cannot be printed. *)
Definition batchOutcome {rt : Runtime} (label method path : string) (items : list Js.Value)
  (w : World) (o : Outcome ServiceResponse) : Prop :=
  let reply := batchReply method path items w in
  this (worldOf o) = this w /\
  (((forall k, (k < List.length items)%nat -> success (reply k) = true) /\
    requests (worldOf o) = (requests w ++ batchRequests method path items)%list /\
    o = Returns (ok (Js.Arr (map (fun k => payload (reply k)) (seq 0 (List.length items)))))
          (worldOf o)) \/
   (exists k,
      (k < List.length items)%nat /\
      (forall j, (j < k)%nat -> success (reply j) = true) /\
      success (reply k) = false /\
      requests (worldOf o) =
        (requests w ++ batchRequests method path (firstn (S k) items))%list /\
      o = match Js.toStr (errorOf (reply k)) with
          | Js.Normal msg => Returns (failure (label ++ msg)) (worldOf o)
          | Js.Abrupt e => Throws e (worldOf o)
          end)).

(** *** The alphabet of the URL *)

(** The characters a serialised query is made of: the ones the serialiser
    leaves alone, the percent sign of an escape, the plus sign for a
    space, and the two separators. *)
Definition querySafe (c : ascii) : bool :=
  Uri.formUnreserved c || Uri.oneOf ["%"; "+"; "&"; "="]%char c.

(** *** Budgets *)

(** [Adds n P m]: whether it returns or throws, [m] adds at most [n]
    requests to the log, each of which satisfies [P], and takes none
    away. *)
Definition Adds {A} (n : nat) (P : Js.Value -> Prop) (m : M A) : Prop :=
  forall w, exists added,
    requests (worldOf (m w)) = (requests w ++ added)%list /\
    (List.length added <= n)%nat /\
    Forall P added.

(** A request that creates or changes something: a [POST] or a [PUT]. *)
Definition writes (req : Js.Value) : Prop :=
  Js.prop req "method" = Js.Str "POST" \/ Js.prop req "method" = Js.Str "PUT".

(** The most requests a public operation of the service sends. *)
Definition budget (op : FdxService.Operation) : nat :=
  match op with
  | FdxService.RetrieveAccounts | FdxService.CreateAccountOp _
  | FdxService.DeleteDb _ | FdxService.CreateDb _ _
  | FdxService.RetrieveImport | FdxService.UpdateImportSchedule _ _ _ _
  | FdxService.GetExistingExport | FdxService.CreateJoinImport _ _
  | FdxService.RunImport _ | FdxService.RunExport _ => 1
  | FdxService.GetOrCreateAccount _ | FdxService.MoveDbToGroup _ _
  | FdxService.GetFtpCredentials | FdxService.CreateOrUpdateImport _ _ _ => 2
  | FdxService.UpdateVaultEntries _ | FdxService.CreateOrUpdateExport _ _ _ => 3
  | FdxService.CreateTransformers items | FdxService.UpdateDbFields items => List.length items
  | FdxService.SetupBigCommerceIntegration _ => 8
  end.

End Spec.

(* ===================================================================== *)
(** ** The entry points ([src/index.ts]) *)
(* ===================================================================== *)

Module Index.

Import Types Effects.

(** [DEFAULT_CONFIG]; [token] is what [process.env.FEEDONOMICS_API_TOKEN]
    held when the module was loaded. *)
Definition DEFAULT_CONFIG (token : option string) : list (string * Js.Value) :=
  [("apiToken", Js.Str (orElse token ""));
   ("importUrl",
    Js.Str "https://preprocess.proxy.feedonomics.com/preprocess/run_preprocess.php");
   ("vaultEntryName", Js.Str "bc_credentials");
   ("timeout", Js.Num 60000)].

(** A property of the configuration object read at its declared type;
    [undefined] and an absent key read alike. *)
Definition textOf (v : option Js.Value) : option string :=
  match v with Some (Js.Str s) => Some s | _ => None end.

Definition numberOf (v : option Js.Value) : option Z :=
  match v with Some (Js.Num n) => Some n | _ => None end.

Definition flagOf (v : option Js.Value) : option bool :=
  match v with Some (Js.Bool b) => Some b | _ => None end.

(** The configuration object as the constructor reads it. *)
Definition asConfig (o : list (string * Js.Value)) : FeedonomicsConfig :=
  {| cfgApiToken := match textOf (Js.lookup "apiToken" o) with Some s => s | None => "" end;
     cfgDbId := textOf (Js.lookup "dbId" o);
     cfgImportUrl := match textOf (Js.lookup "importUrl" o) with Some s => s | None => "" end;
     cfgVaultEntryName :=
       match textOf (Js.lookup "vaultEntryName" o) with Some s => s | None => "" end;
     cfgTimeout := numberOf (Js.lookup "timeout" o);
     cfgBaseUrl := textOf (Js.lookup "baseUrl" o);
     cfgVerbose := flagOf (Js.lookup "verbose" o) |}.

(** A [Partial<FeedonomicsConfig>]: an object with distinct keys whose
    properties, where present, are [undefined] or of the declared type. *)
Definition declared (key : string) (v : Js.Value) : Prop :=
  v = Js.Undefined \/
  match v with
  | Js.Str _ => In key ["apiToken"; "dbId"; "importUrl"; "vaultEntryName"; "baseUrl"]
  | Js.Num _ => key = "timeout"
  | Js.Bool _ => key = "verbose"
  | _ => False
  end.

Definition PartialConfig (config : list (string * Js.Value)) : Prop :=
  NoDup (map fst config) /\ Forall (fun kv => declared (fst kv) (snd kv)) config.

(** [createClient(config = {})] *)
Definition createClient (token : option string) (config : list (string * Js.Value))
  : Js.Completion Client :=
  let finalConfig := Js.spread (DEFAULT_CONFIG token) config in
  FdxClient.new (Some (asConfig finalConfig)).

End Index.

(* ===================================================================== *)
(** ** Concrete clients, networks and parameters *)
(* ===================================================================== *)

Module Fixtures.

Import Types Effects.

Definition networkDown : Axios.Outcome :=
  Axios.Rejected {| Axios.response := None; Axios.message := "Network Error" |}.

(** A network that answers the n-th request with the n-th outcome of a
    script and is down afterwards; the clock stands still. *)
Definition scripted (answers : list Axios.Outcome) : Runtime :=
  {| axios := fun _ log _ => nth (List.length log) answers networkDown;
     dateNow := fun _ => 0;
     toISOString := fun _ => "1971-01-01T00:00:00.000Z";
     JSON_stringify := fun _ => "{}";
     numeralPositive := fun _ => false |}.

(** A response axios resolves, and one it rejects with. *)
Definition respond (status : Z) (body : Js.Value) : Axios.Outcome :=
  Axios.Resolved {| Axios.status := status; Axios.data := body |}.

Definition refuse (status : Z) (body : Js.Value) : Axios.Outcome :=
  Axios.Rejected
    {| Axios.response := Some {| Axios.status := status; Axios.data := body |};
       Axios.message := "Request failed" |}.

Definition someConfig (db : option string) : FeedonomicsConfig :=
  {| cfgApiToken := "test-token"; cfgDbId := db;
     cfgImportUrl := "https://test.example.com/import";
     cfgVaultEntryName := "test-vault";
     cfgTimeout := None; cfgBaseUrl := None; cfgVerbose := None |}.

Definition someClient (db : option string) : Client :=
  match FdxClient.new (Some (someConfig db)) with
  | Js.Normal c => c
  | Js.Abrupt _ =>
      {| client := {| Axios.baseURL := ""; Axios.timeout := 0; Axios.headers := [] |};
         apiToken := ""; dbId := None; baseUrl := ""; config := someConfig db;
         verbose := false |}
  end.

(** A new client whose active database is [db], before any request. *)
Definition fresh (db : option string) : World :=
  {| this := someClient db; requests := []; console := [] |}.

Definition storeParams : BigCommerceSetupParams :=
  {| accountName := "Test Store";
     storeHash := "abc123";
     storeUrl := Some "https://store-abc123.mybigcommerce.com/";
     accessToken := "test_token";
     storeId := None;
     clientId := None;
     channelId := Js.Str "12345";
     userEmail := Some "test@example.com";
     vaultEntryName := Some "bc_credentials";
     dbName := Some "BC Store abc123";
     groupName := Some "BigCommerce";
     importSchedule := Some {| day := "*"; hour := "*/4"; minute := "0" |};
     buildTemplate := Some "bigcommerce_template" |}.

Definition someUser : FdxService.User :=
  {| FdxService.id := Js.Num 12345; FdxService.storeHash := "abc123" |}.

Definition someFtp : FtpCredentials :=
  {| host := "ftp.example.com"; username := "feed"; password := "secret" |}.

(** The account is created; the invitation is refused. *)
Definition inviteRefused : Runtime :=
  scripted [respond 200 (Js.Obj [("id", Js.Str "1234")]);
            refuse 403 (Js.Obj [("message", Js.Str "User invitation failed")])].

(** The account is refused with a message that cannot be printed. *)
Definition accountRefusedUnprintably : Runtime :=
  scripted [refuse 422 (Js.Obj [("message", Js.Obj [("toString", Js.Num 1)])])].

(** The database comes back with an identifier that cannot be printed. *)
Definition unprintableDatabaseId : Runtime :=
  scripted [respond 200 (Js.Obj [("id", Js.Str "1234")]);
            respond 200 (Js.Obj []);
            respond 200 (Js.Obj [("id", Js.Obj [("toString", Js.Num 1)])])].

(** The database is created; moving it to a group is refused. *)
Definition groupMoveRefused : Runtime :=
  scripted [respond 200 (Js.Obj [("id", Js.Str "1234")]);
            respond 200 (Js.Obj []);
            respond 200 (Js.Obj [("id", Js.Str "5678")]);
            refuse 500 (Js.Obj [])].

(** Listing the imports is refused; creating one succeeds. *)
Definition importsLookupRefused : Runtime :=
  scripted [refuse 500 (Js.Obj []);
            respond 201 (Js.Obj [("id", Js.Num 9)])].

Definition existingImport : Js.Value :=
  Js.Obj [("id", Js.Num 7); ("name", Js.Str "BigCommerceImport")].

(** Whatever is listed first is refused, and nothing else is answered. *)
Definition lookupRefused : Runtime := scripted [refuse 500 (Js.Obj [])].

(** The lookup finds the record; the update is refused with a message. *)
Definition updateRefused (found : Js.Value) : Runtime :=
  scripted [respond 200 (Js.Arr [found]);
            refuse 422 (Js.Obj [("message", Js.Str "Invalid import")])].

(** The server answers [404] with a message of its own. *)
Definition notFound : Runtime :=
  scripted [refuse 404 (Js.Obj [("message", Js.Str "No such account")])].

Definition existingExport : Js.Value :=
  Js.Obj [("id", Js.Num 8); ("name", Js.Str "Export Google")].

Definition existingVaultEntry : Js.Value :=
  Js.Obj [("id", Js.Num 3); ("name", Js.Str "bc_credentials")].

(** A lookup that finds the record, then an update that echoes something
    else. *)
Definition lookupThenUpdate (found : Js.Value) : Runtime :=
  scripted [respond 200 (Js.Arr [found]);
            respond 200 (Js.Obj [("updated", Js.Bool true)])].

(** A lookup that finds the record, an update that echoes something
    else, and a scheduling that is accepted. *)
Definition updateThenSchedule (found : Js.Value) : Runtime :=
  scripted [respond 200 (Js.Arr [found]);
            respond 200 (Js.Obj [("updated", Js.Bool true)]);
            respond 200 (Js.Obj [("scheduled", Js.Bool true)])].

Definition atHalfPastSix : FdxService.TimeSlot :=
  {| FdxService.hour := "6"; FdxService.minutes := "30" |}.

(** An update that echoes something else. *)
Definition updateAccepted : Runtime :=
  scripted [respond 200 (Js.Obj [("updated", Js.Bool true)])].

(** The account has one group, not named after the prefix; creating a
    group succeeds. *)
Definition noAccountGroup : Runtime :=
  scripted [respond 200 (Js.Arr [Js.Obj [("id", Js.Num 1); ("name", Js.Str "Other")]]);
            respond 201 (Js.Obj [("id", Js.Num 2); ("name", Js.Str "BC-12345")])].

Definition specialCharacters : list (string * Js.Value) :=
  [("access_token", Js.Str "a&b");
   ("client_id", Js.Num 12345);
   ("filters", Js.Obj [("is_visible", Js.Num 1)]);
   ("include", Js.Undefined);
   ("store_hash", Js.Str "x/y");
   ("store_url", Js.Str "")].

(** A parameter object with a filter that cannot be printed. *)
Definition unprintableFilter : list (string * Js.Value) :=
  [("store_hash", Js.Str "abc123");
   ("filters", Js.Obj [("is_visible", Js.Obj [("toString", Js.Num 1)])])].

(** The URL [generateBigCommercePreprocessorUrl] produces for
    [specialCharacters] and no [file_info]. *)
Definition specialCharactersUrl : string :=
  "https://preprocess.proxy.feedonomics.com/preprocess/run_preprocess.php?connection_info%5Bclient%5D=bigcommerce&connection_info%5Bprotocol%5D=api&connection_info%5Baccess_token%5D=a%252526b&connection_info%5Bclient_id%5D=12345&connection_info%5Bfilters%5D%5Bis_visible%5D=1&connection_info%5Bstore_hash%5D=x%25252Fy&connection_info%5Bstore_url%5D=".

(** The listing is empty and whatever follows is accepted. *)
Definition emptyListing : Runtime :=
  scripted [respond 200 (Js.Arr []); respond 200 (Js.Obj [])].

(** Every call of the workflow is accepted. *)
Definition everythingAccepted : Runtime :=
  scripted [respond 200 (Js.Obj [("id", Js.Str "1234")]);
            respond 200 (Js.Obj []);
            respond 200 (Js.Obj [("id", Js.Num 5678)]);
            respond 200 (Js.Obj []);
            respond 200 (Js.Obj [("data", Js.Obj [("new_row_id", Js.Num 42)])]);
            respond 201 (Js.Obj [("id", Js.Num 9)]);
            respond 200 (Js.Obj []);
            respond 200 (Js.Obj [])].

(** The account is created, but the answer carries no identifier. *)
Definition accountWithoutId : Runtime :=
  scripted [respond 200 (Js.Obj [("name", Js.Str "Test Store")])].

(** The account [BC-42] is listed twice. *)
Definition listedTwice : Runtime :=
  scripted [respond 200
              (Js.Arr [Js.Obj [("id", Js.Num 1); ("account_name", Js.Str "BC-42")];
                       Js.Obj [("id", Js.Num 2); ("account_name", Js.Str "BC-7")];
                       Js.Obj [("id", Js.Num 3); ("account_name", Js.Str "BC-42")]])].

(** The account has a group named after the prefix; the move is
    accepted. *)
Definition accountGroupListed : Runtime :=
  scripted [respond 200
              (Js.Arr [Js.Obj [("id", Js.Num 5); ("name", Js.Str "Other")];
                       Js.Obj [("id", Js.Num 6); ("name", Js.Str "BC-42")]]);
            respond 200 (Js.Obj [("moved", Js.Bool true)])].

(** The first call is accepted, the second is refused. *)
Definition secondRefused : Runtime :=
  scripted [respond 200 (Js.Obj [("id", Js.Num 1)]);
            refuse 422 (Js.Obj [("message", Js.Str "Invalid transformer")])].

(** The vault holds an entry under the old name; deleting it is
    refused. *)
Definition legacyEntryKept : Runtime :=
  scripted [respond 200
              (Js.Obj [("data",
                        Js.Obj [("vault_rows",
                                 Js.Arr [Js.Obj [("id", Js.Num 4);
                                                 ("name", Js.Str "BigCommerce Credentials")]])])]);
            refuse 403 (Js.Obj [("message", Js.Str "Forbidden")])].

End Fixtures.

(* ===================================================================== *)
(** ** Percent-encoding: what is encoded can be decoded *)
(* ===================================================================== *)

Module UriFacts.

Import Uri.

Lemma hex_roundtrip c :
  hexValue (hexDigit (code c / 16)) = Some (code c / 16)%N /\
  hexValue (hexDigit (code c mod 16)) = Some (code c mod 16)%N /\
  byteOf (code c / 16) (code c mod 16) = c.
Proof.
  destruct c as [[] [] [] [] [] [] [] []]; vm_compute; repeat split; reflexivity.
Qed.

Lemma uriUnreserved_not_percent c : uriUnreserved c = true -> Ascii.eqb c "%" = false.
Proof.
  destruct (Ascii.eqb_spec c "%"); [subst; vm_compute; discriminate | reflexivity].
Qed.

Lemma decode_percent c rest :
  decodeURIComponent (percent c ++ rest) =
  option_map (String c) (decodeURIComponent rest).
Proof.
  destruct (hex_roundtrip c) as (Hh & Hl & Hb).
  unfold percent. cbn [append decodeURIComponent].
  replace (Ascii.eqb "%" "%") with true by reflexivity.
  rewrite Hh, Hl, Hb. reflexivity.
Qed.

Lemma decode_encode s : decodeURIComponent (encodeURIComponent s) = Some s.
Proof.
  induction s as [|c s IH]; [reflexivity|].
  cbn [encodeURIComponent].
  destruct (uriUnreserved c) eqn:Hc.
  - cbn [append decodeURIComponent].
    rewrite (uriUnreserved_not_percent _ Hc), IH. reflexivity.
  - rewrite decode_percent, IH. reflexivity.
Qed.

Lemma allChars_app p a b : allChars p (a ++ b) = allChars p a && allChars p b.
Proof. induction a as [|c a IH]; cbn; [reflexivity|]. rewrite IH. apply andb_assoc. Qed.

Lemma formUnreserved_plain c : formUnreserved c = true -> plain c = true.
Proof.
  destruct c as [[] [] [] [] [] [] [] []]; vm_compute; intros H; (reflexivity || discriminate H).
Qed.

Lemma delimiter_cases sep :
  oneOf ["&"; "="; "#"; "?"; "+"]%char sep = true ->
  sep = "&"%char \/ sep = "="%char \/ sep = "#"%char \/ sep = "?"%char \/ sep = "+"%char.
Proof.
  unfold oneOf. cbn. intros Hsep.
  repeat (apply orb_prop in Hsep; destruct Hsep as [Hsep|Hsep];
          [apply Ascii.eqb_eq in Hsep; subst; auto 10|]).
  discriminate.
Qed.

Lemma percent_delimiter_free c sep :
  oneOf ["&"; "="; "#"; "?"; "+"]%char sep = true ->
  allChars (notChar sep) (percent c) = true.
Proof.
  intros Hsep. apply delimiter_cases in Hsep.
  destruct c as [[] [] [] [] [] [] [] []];
    destruct Hsep as [->|[->|[->|[->| ->]]]]; vm_compute; reflexivity.
Qed.

Lemma plain_notChar c sep :
  oneOf ["&"; "="; "#"; "?"; "+"]%char sep = true -> plain c = true -> notChar sep c = true.
Proof.
  intros Hsep Hc. unfold notChar.
  destruct (Ascii.eqb_spec c sep) as [->|]; [|reflexivity].
  apply delimiter_cases in Hsep.
  destruct Hsep as [->|[->|[->|[->| ->]]]]; vm_compute in Hc; discriminate Hc.
Qed.

Lemma query_delimiter sep :
  oneOf ["&"; "="; "#"; "?"]%char sep = true ->
  oneOf ["&"; "="; "#"; "?"; "+"]%char sep = true.
Proof.
  unfold oneOf. cbn. intros Hsep.
  repeat (apply orb_prop in Hsep; destruct Hsep as [Hsep|Hsep];
          [rewrite Hsep; repeat rewrite orb_true_r; reflexivity|]).
  discriminate.
Qed.

Lemma formEncode_delimiter_free sep s :
  oneOf ["&"; "="; "#"; "?"]%char sep = true ->
  allChars (notChar sep) (formEncode s) = true.
Proof.
  intros Hsep. pose proof (query_delimiter _ Hsep) as Hsep'.
  induction s as [|c s IH]; [reflexivity|].
  cbn [formEncode]. rewrite allChars_app, IH, andb_true_r.
  destruct (Ascii.eqb_spec c " ") as [->|Hsp].
  - cbn. rewrite andb_true_r. apply delimiter_cases in Hsep'.
    destruct Hsep' as [->|[->|[->|[->| ->]]]]; try reflexivity.
    vm_compute in Hsep. discriminate Hsep.
  - destruct (formUnreserved c) eqn:Hc.
    + cbn. rewrite andb_true_r. apply plain_notChar; [assumption|].
      apply formUnreserved_plain, Hc.
    + apply percent_delimiter_free, Hsep'.
Qed.

Lemma plusToSpace_percent c : plusToSpace (percent c) = percent c.
Proof. destruct c as [[] [] [] [] [] [] [] []]; vm_compute; reflexivity. Qed.

Lemma plusToSpace_app a b : plusToSpace (a ++ b) = plusToSpace a ++ plusToSpace b.
Proof. induction a as [|c a IH]; cbn; [reflexivity|]. now rewrite IH. Qed.

Lemma percentDecode_percent c rest :
  percentDecode (percent c ++ rest) = String c (percentDecode rest).
Proof.
  destruct (hex_roundtrip c) as (Hh & Hl & Hb).
  unfold percent. cbn [append percentDecode].
  replace (Ascii.eqb "%" "%") with true by reflexivity.
  rewrite Hh, Hl, Hb. reflexivity.
Qed.

Lemma formUnreserved_literal c :
  formUnreserved c = true -> Ascii.eqb c "+" = false /\ Ascii.eqb c "%" = false.
Proof.
  intros H. split.
  - destruct (Ascii.eqb_spec c "+"); [subst; vm_compute in H; discriminate | reflexivity].
  - destruct (Ascii.eqb_spec c "%"); [subst; vm_compute in H; discriminate | reflexivity].
Qed.

Lemma formDecode_formEncode s : formDecode (formEncode s) = s.
Proof.
  unfold formDecode.
  induction s as [|c s IH]; [reflexivity|].
  cbn [formEncode]. rewrite plusToSpace_app.
  destruct (Ascii.eqb_spec c " ") as [->|Hsp].
  - cbn. now rewrite IH.
  - destruct (formUnreserved c) eqn:Hc.
    + destruct (formUnreserved_literal _ Hc) as [Hp Hq].
      cbn. rewrite Hp, Hq, IH. reflexivity.
    + rewrite plusToSpace_percent, percentDecode_percent, IH. reflexivity.
Qed.

Lemma splitOn_none sep s : allChars (notChar sep) s = true -> splitOn sep s = [s].
Proof.
  induction s as [|c s IH]; [reflexivity|].
  cbn. intros H. apply andb_prop in H. destruct H as [Hc Hs].
  unfold notChar in Hc. apply negb_true_iff in Hc. rewrite Hc, (IH Hs). reflexivity.
Qed.

Lemma splitOn_first sep a b :
  allChars (notChar sep) a = true ->
  splitOn sep (a ++ String sep b) = a :: splitOn sep b.
Proof.
  induction a as [|c a IH]; cbn.
  - intros _. now rewrite Ascii.eqb_refl.
  - intros H. apply andb_prop in H. destruct H as [Hc Hs].
    unfold notChar in Hc. apply negb_true_iff in Hc. rewrite Hc, (IH Hs). reflexivity.
Qed.

Lemma cut_first sep a b :
  allChars (notChar sep) a = true -> cut sep (a ++ String sep b) = (a, Some b).
Proof.
  induction a as [|c a IH]; cbn.
  - intros _. now rewrite Ascii.eqb_refl.
  - intros H. apply andb_prop in H. destruct H as [Hc Hs].
    unfold notChar in Hc. apply negb_true_iff in Hc. rewrite Hc, (IH Hs). reflexivity.
Qed.

Lemma upTo_none sep s : allChars (notChar sep) s = true -> upTo sep s = s.
Proof.
  induction s as [|c s IH]; [reflexivity|].
  cbn. intros H. apply andb_prop in H. destruct H as [Hc Hs].
  unfold notChar in Hc. apply negb_true_iff in Hc. rewrite Hc, (IH Hs). reflexivity.
Qed.

(** The serialised query has no [#] and no [?] of its own. *)
Lemma toString_delimiter_free sep ps :
  oneOf ["#"; "?"]%char sep = true -> allChars (notChar sep) (toString ps) = true.
Proof.
  intros Hsep.
  assert (Hsep' : oneOf ["&"; "="; "#"; "?"]%char sep = true).
  { unfold oneOf in *. cbn in *. rewrite orb_false_r in *.
    apply orb_prop in Hsep. destruct Hsep as [H|H]; rewrite H;
      repeat rewrite orb_true_r; reflexivity. }
  assert (Heq : notChar sep "=" = true /\ notChar sep "&" = true).
  { unfold oneOf in Hsep. cbn in Hsep. rewrite orb_false_r in Hsep.
    apply orb_prop in Hsep.
    destruct Hsep as [H|H]; apply Ascii.eqb_eq in H; subst; split; reflexivity. }
  destruct Heq as [He Ha].
  induction ps as [|[n v] rest IH]; [reflexivity|].
  cbn [toString]. rewrite !allChars_app.
  rewrite !formEncode_delimiter_free by assumption.
  cbn [allChars]. rewrite He. cbn [andb].
  destruct rest as [|p rest']; [reflexivity|].
  rewrite allChars_app. cbn [allChars]. rewrite Ha, IH. reflexivity.
Qed.

Lemma parsePair_pair n v :
  parsePair (formEncode n ++ "=" ++ formEncode v) = [(n, v)].
Proof.
  unfold parsePair.
  assert (Hcut : cut "=" (formEncode n ++ "=" ++ formEncode v)
                 = (formEncode n, Some (formEncode v))).
  { apply cut_first, formEncode_delimiter_free. reflexivity. }
  destruct (formEncode n ++ "=" ++ formEncode v) eqn:E.
  - destruct (formEncode n); discriminate E.
  - rewrite Hcut, !formDecode_formEncode. reflexivity.
Qed.

Lemma pair_no_ampersand n v :
  allChars (notChar "&") (formEncode n ++ "=" ++ formEncode v) = true.
Proof.
  rewrite !allChars_app, !formEncode_delimiter_free by reflexivity. reflexivity.
Qed.

Lemma append_empty s : s ++ "" = s.
Proof. induction s as [|c s IH]; cbn; [reflexivity|]. now rewrite IH. Qed.

Lemma append_assoc a b c : (a ++ b) ++ c = a ++ (b ++ c).
Proof. induction a as [|x a IH]; cbn; [reflexivity|]. now rewrite IH. Qed.

(** Parsing undoes serialising. *)
Lemma parse_body_toString ps : flat_map parsePair (splitOn "&" (toString ps)) = ps.
Proof.
  induction ps as [|[n v] rest IH]; [reflexivity|].
  cbn [toString]. destruct rest as [|p rest'].
  - rewrite append_empty, splitOn_none by apply pair_no_ampersand.
    cbn [flat_map]. rewrite parsePair_pair. reflexivity.
  - replace (formEncode n ++ "=" ++ formEncode v ++ "&" ++ toString (p :: rest'))
      with ((formEncode n ++ "=" ++ formEncode v) ++ String "&" (toString (p :: rest'))).
    2: { rewrite !append_assoc. reflexivity. }
    rewrite splitOn_first by apply pair_no_ampersand.
    cbn [flat_map]. rewrite parsePair_pair, IH. reflexivity.
Qed.

Lemma parse_search_toString ps :
  parse (search (FdxClient.preprocessorBaseUrl ++ "?" ++ toString ps)) = ps.
Proof.
  assert (Hs : search (FdxClient.preprocessorBaseUrl ++ "?" ++ toString ps)
               = match toString ps with EmptyString => "" | q => String "?" q end).
  { cbn. rewrite upTo_none by (apply toString_delimiter_free; reflexivity). reflexivity. }
  rewrite Hs. destruct (toString ps) eqn:E.
  - destruct ps as [|[n v] rest]; [reflexivity|].
    cbn [toString] in E. destruct (formEncode n); discriminate E.
  - unfold parse. rewrite <- E. apply parse_body_toString.
Qed.

Lemma get_removeName_other name other ps :
  name <> other -> get name (removeName other ps) = get name ps.
Proof.
  intros Hne. induction ps as [|[n v] rest IH]; [reflexivity|].
  cbn. destruct (String.eqb_spec n other) as [->|Hn]; cbn.
  - destruct (String.eqb_spec other name); [congruence|]. exact IH.
  - destruct (String.eqb_spec n name); [reflexivity|]. exact IH.
Qed.

Lemma get_set_same name value ps : get name (set name value ps) = Some value.
Proof.
  induction ps as [|[n v] rest IH]; cbn.
  - now rewrite String.eqb_refl.
  - destruct (String.eqb_spec n name) as [->|Hn]; cbn.
    + now rewrite String.eqb_refl.
    + destruct (String.eqb_spec n name); [congruence|]. exact IH.
Qed.

Lemma get_set_other name other value ps :
  name <> other -> get name (set other value ps) = get name ps.
Proof.
  intros Hne. induction ps as [|[n v] rest IH]; cbn.
  - destruct (String.eqb_spec other name); [congruence|]. reflexivity.
  - destruct (String.eqb_spec n other) as [->|Hn]; cbn.
    + destruct (String.eqb_spec other name); [congruence|].
      apply get_removeName_other, Hne.
    + destruct (String.eqb_spec n name); [reflexivity|]. exact IH.
Qed.

End UriFacts.

(* ===================================================================== *)
(** ** The preprocessor URL *)
(* ===================================================================== *)

Module UrlFacts.

Import FdxClient Spec.

Lemma forOf_app {A S} (body : A -> S -> Js.Completion S) l1 l2 s :
  forOf body (l1 ++ l2) s = (s' <~ forOf body l1 s ;; forOf body l2 s').
Proof.
  revert s. induction l1 as [|x l1 IH]; intros s; cbn; [reflexivity|].
  destruct (body x s); cbn; [apply IH | reflexivity].
Qed.

Lemma forOf_flat_map {A B S} (f : A -> list B) (g : B -> S -> Js.Completion S)
  (body : A -> S -> Js.Completion S) :
  (forall x s, body x s = forOf g (f x) s) ->
  forall l s, forOf body l s = forOf g (flat_map f l) s.
Proof.
  intros H l. induction l as [|x l IH]; intros s; cbn; [reflexivity|].
  rewrite forOf_app, H. destruct (forOf g (f x) s); cbn; [apply IH | reflexivity].
Qed.

Lemma scalar_defined v : scalar v = true -> Js.defined v = true /\ Js.isObject v = false.
Proof. destruct v; cbn; intros H; try discriminate; auto. Qed.

Lemma scalar_toStr v : scalar v = true -> exists s, Js.toStr v = Js.Normal s.
Proof. destruct v as [| |[]| | | |]; cbn; intros H; try discriminate; eauto. Qed.

(** Each loop body is a run of [set] calls, one per parameter. *)
Lemma addConnectionField_params field sp :
  addConnectionField field sp = forOf setParam (connectionFieldParams field) sp.
Proof.
  destruct field as [key value]. unfold addConnectionField, connectionFieldParams.
  destruct (Js.defined value) eqn:Hd; [|reflexivity].
  destruct (Js.isObject value) eqn:Ho.
  - apply forOf_flat_map. intros [subKey subValue] s. cbn [fst snd].
    unfold addNestedParam.
    destruct (Js.defined subValue); cbn; [|reflexivity].
    unfold setParam. cbn. destruct (Js.toStr subValue); reflexivity.
  - unfold addParam. rewrite Hd. cbn. unfold setParam. cbn.
    destruct (Js.toStr value); reflexivity.
Qed.

Lemma addFileField_params field sp :
  addFileField field sp = forOf setParam (fileFieldParams field) sp.
Proof.
  unfold addFileField, fileFieldParams, addParam.
  destruct (Js.defined (snd field)); [|reflexivity].
  cbn. unfold setParam. cbn. destruct (Js.toStr (snd field)); reflexivity.
Qed.

Lemma generate_params connection_info file_info :
  generateBigCommercePreprocessorUrl connection_info file_info =
  (sp <~ forOf setParam (fieldParams connection_info file_info) fixedParams ;;
   Js.Normal (preprocessorBaseUrl ++ "?" ++ Uri.toString sp)).
Proof.
  unfold generateBigCommercePreprocessorUrl, fieldParams.
  change (addParam "connection_info" "client" (Js.Str "bigcommerce") [])
    with (Js.Normal [("connection_info[client]", doubleEncode "bigcommerce")]).
  cbn [Js.cbind].
  change (addParam "connection_info" "protocol" (Js.Str "api")
            [("connection_info[client]", doubleEncode "bigcommerce")])
    with (Js.Normal fixedParams).
  cbn [Js.cbind].
  rewrite forOf_app.
  rewrite (forOf_flat_map connectionFieldParams setParam addConnectionField
             addConnectionField_params).
  destruct (forOf setParam (flat_map connectionFieldParams connection_info) fixedParams);
    cbn [Js.cbind]; [|reflexivity].
  destruct file_info as [fields|]; [|reflexivity].
  rewrite (forOf_flat_map fileFieldParams setParam addFileField addFileField_params).
  reflexivity.
Qed.

(** A run of [set] calls leaves the parameters it does not name. *)
Lemma setParams_untouched name params :
  ~ In name (map fst params) ->
  forall sp sp', forOf setParam params sp = Js.Normal sp' -> Uri.get name sp' = Uri.get name sp.
Proof.
  induction params as [|[n v] rest IH]; intros Hnot sp sp' H; cbn in *.
  - now inversion H.
  - unfold setParam in H at 1. cbn in H.
    destruct (Js.toStr v) as [s|]; cbn in H; [|discriminate].
    rewrite (IH (fun Hin => Hnot (or_intror Hin)) _ _ H).
    apply UriFacts.get_set_other. intros ->. apply Hnot. now left.
Qed.

(** After a run of [set] calls with distinct names, each name holds the
    double encoding of its value. *)
Lemma setParams_get name v params :
  NoDup (map fst params) -> In (name, v) params ->
  forall sp sp', forOf setParam params sp = Js.Normal sp' ->
  exists s, Js.toStr v = Js.Normal s /\ Uri.get name sp' = Some (doubleEncode s).
Proof.
  induction params as [|[n x] rest IH]; intros Hnd Hin sp sp' H; [contradiction|].
  cbn in Hnd. inversion Hnd as [|? ? Hnotin Hnd']; subst.
  cbn in H. unfold setParam in H at 1. cbn in H.
  destruct (Js.toStr x) as [s|] eqn:Hx; cbn in H; [|discriminate].
  destruct Hin as [Heq|Hin].
  - inversion Heq; subst. exists s. split; [assumption|].
    rewrite (setParams_untouched _ _ Hnotin _ _ H). apply UriFacts.get_set_same.
  - exact (IH Hnd' Hin _ _ H).
Qed.

Lemma scalarField_param connection_info file_info name v :
  ScalarField connection_info file_info name v ->
  In (name, v) (fieldParams connection_info file_info).
Proof.
  intros [key value Hin Hs | key object subKey value Hin Ho Hsub Hs | fields key value -> Hin Hs];
    unfold fieldParams; apply in_or_app.
  - left. apply in_flat_map. exists (key, value). split; [assumption|].
    destruct (scalar_defined _ Hs) as [Hd Hn]. cbn. rewrite Hd, Hn. now left.
  - left. apply in_flat_map. exists (key, object). split; [assumption|].
    cbn. rewrite Ho.
    replace (Js.defined object) with true by (destruct object; cbn in *; congruence).
    apply in_flat_map. exists (subKey, value). split; [assumption|].
    destruct (scalar_defined _ Hs) as [Hd _]. cbn. rewrite Hd. now left.
  - right. apply in_flat_map. exists (key, value). split; [assumption|].
    destruct (scalar_defined _ Hs) as [Hd _]. unfold fileFieldParams. cbn. rewrite Hd. now left.
Qed.

End UrlFacts.

(** C3.  For every defined scalar field of the parameter object, whether a
    property of [connection_info], a property of an object nested in it or
    a property of [file_info]: the value the produced URL's query string
    holds under the field's parameter name is the field's text with
    [encodeURIComponent] applied twice, and decoding that value twice gives
    the text back.  The parameter names the fields give rise to are taken
    to be pairwise distinct: a later [set] of the same name would replace
    the value. *)
Theorem preprocessor_url_double_encoding connection_info file_info url name v :
  FdxClient.generateBigCommercePreprocessorUrl connection_info file_info = Js.Normal url ->
  NoDup (Spec.parameterNames connection_info file_info) ->
  Spec.ScalarField connection_info file_info name v ->
  exists s,
    Js.toStr v = Js.Normal s /\
    Uri.get name (Uri.parse (Uri.search url)) = Some (FdxClient.doubleEncode s) /\
    Spec.decodeTwice (FdxClient.doubleEncode s) = Some s.
Proof.
  intros Hurl Hnd Hfield.
  rewrite UrlFacts.generate_params in Hurl.
  destruct (FdxClient.forOf Spec.setParam (Spec.fieldParams connection_info file_info)
              Spec.fixedParams) as [sp|] eqn:Hsp;
    cbn [Js.cbind] in Hurl; [|discriminate].
  replace url with (FdxClient.preprocessorBaseUrl ++ "?" ++ Uri.toString sp) by congruence.
  destruct (UrlFacts.setParams_get name v _ Hnd (UrlFacts.scalarField_param _ _ _ _ Hfield) _ _ Hsp)
    as (s & Hs & Hget).
  exists s. repeat split.
  - exact Hs.
  - rewrite UriFacts.parse_search_toString. exact Hget.
  - unfold Spec.decodeTwice, FdxClient.doubleEncode.
    rewrite UriFacts.decode_encode. apply UriFacts.decode_encode.
Qed.

(** Pairwise distinct string literals. *)
Ltac distinct_names :=
  vm_compute;
  repeat (apply NoDup_cons; [cbn; intuition discriminate|]);
  apply NoDup_nil.

Lemma preprocessor_url_double_encoding_witness :
  FdxClient.generateBigCommercePreprocessorUrl Fixtures.specialCharacters None =
    Js.Normal Fixtures.specialCharactersUrl /\
  (exists s,
      Js.toStr (Js.Str "a&b") = Js.Normal s /\
      Uri.get "connection_info[access_token]"
        (Uri.parse (Uri.search Fixtures.specialCharactersUrl)) =
        Some (FdxClient.doubleEncode s) /\
      Spec.decodeTwice (FdxClient.doubleEncode s) = Some s) /\
  (exists s,
      Js.toStr (Js.Num 1) = Js.Normal s /\
      Uri.get "connection_info[filters][is_visible]"
        (Uri.parse (Uri.search Fixtures.specialCharactersUrl)) =
        Some (FdxClient.doubleEncode s) /\
      Spec.decodeTwice (FdxClient.doubleEncode s) = Some s).
Proof.
  split; [vm_compute; reflexivity|]. split.
  - apply (preprocessor_url_double_encoding Fixtures.specialCharacters None
             Fixtures.specialCharactersUrl "connection_info[access_token]" (Js.Str "a&b")).
    + vm_compute. reflexivity.
    + distinct_names.
    + apply (Spec.TopLevel _ _ "access_token" (Js.Str "a&b")); [cbn; auto | reflexivity].
  - apply (preprocessor_url_double_encoding Fixtures.specialCharacters None
             Fixtures.specialCharactersUrl "connection_info[filters][is_visible]" (Js.Num 1)).
    + vm_compute. reflexivity.
    + distinct_names.
    + apply (Spec.Nested _ _ "filters" (Js.Obj [("is_visible", Js.Num 1)]) "is_visible" (Js.Num 1));
        [cbn; auto 10 | reflexivity | cbn; auto | reflexivity].
Defined.

(** The text of the query string itself carries one more layer, the
    serialiser's own, which the parser of the query string takes off: for
    [a&b] the URL reads [a%252526b] and the parameter's value is
    [a%2526b]. *)
Example serialised_value_has_one_more_layer :
  Uri.get "connection_info[access_token]"
    (Uri.parse (Uri.search Fixtures.specialCharactersUrl)) = Some "a%2526b" /\
  Uri.formEncode "a%2526b" = "a%252526b" /\
  Uri.decodeURIComponent "a%2526b" = Some "a%26b" /\
  Uri.decodeURIComponent "a%26b" = Some "a&b".
Proof. repeat split; vm_compute; reflexivity. Qed.

(** A field that is [undefined] or [null] leaves no parameter; an empty
    string leaves a parameter with an empty value. *)
Example undefined_is_absent_empty_is_present :
  Uri.has "connection_info[include]"
    (Uri.parse (Uri.search Fixtures.specialCharactersUrl)) = false /\
  Uri.get "connection_info[store_url]"
    (Uri.parse (Uri.search Fixtures.specialCharactersUrl)) = Some "".
Proof. split; vm_compute; reflexivity. Qed.

(* ===================================================================== *)
(** ** Running the monad *)
(* ===================================================================== *)

Section MonadFacts.

Import Types Effects.

Lemma bind_returns {A B} (m : M A) (k : A -> M B) w a w' :
  m w = Returns a w' -> bind m k w = k a w'.
Proof. intros H. unfold bind. now rewrite H. Qed.

Lemma bind_throws {A B} (m : M A) (k : A -> M B) w e w' :
  m w = Throws e w' -> bind m k w = Throws e w'.
Proof. intros H. unfold bind. now rewrite H. Qed.

Lemma bind_inv {A B} (m : M A) (k : A -> M B) w b w' :
  bind m k w = Returns b w' -> exists a w1, m w = Returns a w1 /\ k a w1 = Returns b w'.
Proof.
  unfold bind. destruct (m w) as [a w1|e w1]; intros H; [eauto | discriminate H].
Qed.

Lemma lift_inv {A} (c : Js.Completion A) w a w' :
  lift c w = Returns a w' -> c = Js.Normal a /\ w' = w.
Proof. destruct c; cbn; intros H; inversion H; auto. Qed.

Lemma get_truthy v k : Js.truthy v = true -> Js.get v k = Js.Normal (Js.prop v k).
Proof. destruct v; cbn; intros H; try discriminate H; reflexivity. Qed.

End MonadFacts.

(* ===================================================================== *)
(** ** The request and its envelope *)
(* ===================================================================== *)

Section ClientFacts.

Import Types Effects Spec.
Context {rt : Runtime}.

Lemma logVerbose_frame url w :
  exists lines, FdxClient.logVerbose url w =
    Returns tt {| this := this w; requests := requests w; console := console w ++ lines |}.
Proof.
  unfold FdxClient.logVerbose, bind, self, print, ret. cbn.
  destruct (verbose (this w)).
  - eexists. cbn. rewrite <- app_assoc. reflexivity.
  - exists []. rewrite app_nil_r. destruct w; reflexivity.
Qed.

Lemma requests_sent w url req : requests (sent w url req) = (requests w ++ [req])%list.
Proof.
  unfold sent. destruct (logVerbose_frame url w) as [lines ->]. reflexivity.
Qed.

Lemma this_sent w url req : this (sent w url req) = this w.
Proof.
  unfold sent. destruct (logVerbose_frame url w) as [lines ->]. reflexivity.
Qed.

(** [request] hands exactly one request to axios and never throws. *)
Lemma request_run method url data config w :
  FdxClient.request method url data config w =
  Returns
    (match axios (client (this w)) (requests w) (FdxClient.requestConfig method url data config) with
     | Axios.Resolved response => FdxClient.processResponse response
     | Axios.Rejected error => FdxClient.rejected error
     end)
    (sent w url (FdxClient.requestConfig method url data config)).
Proof.
  unfold FdxClient.request, sent, bind, send.
  destruct (logVerbose_frame url w) as [lines ->]. cbn.
  destruct (axios _ _ _); reflexivity.
Qed.

(** C1, as the code has it.  A response axios resolves gives a success
    envelope with the body and the code when the code is in [200,300), and
    otherwise a failure envelope with the code and the body's message or,
    without one, the placeholder ['Unknown error'].  A response axios
    delivers by rejecting the request gives a failure envelope with the
    code and the body's message or, without one, the placeholder
    ['API error']. *)
Theorem request_envelope_by_delivery method url data config w :
  let req := FdxClient.requestConfig method url data config in
  let answer := axios (client (this w)) (requests w) req in
  (forall response,
      answer = Axios.Resolved response -> in2xx (Axios.status response) ->
      FdxClient.request method url data config w =
      Returns {| success := true; Types.data := Some (Axios.data response);
                 error := None; status := Some (Axios.status response) |}
              (sent w url req)) /\
  (forall response,
      answer = Axios.Resolved response -> ~ in2xx (Axios.status response) ->
      FdxClient.request method url data config w =
      Returns {| success := false; Types.data := None;
                 error := Some (serverMessageOr "Unknown error" (Axios.data response));
                 status := Some (Axios.status response) |}
              (sent w url req)) /\
  (forall failure response,
      answer = Axios.Rejected failure -> Axios.response failure = Some response ->
      FdxClient.request method url data config w =
      Returns {| success := false; Types.data := None;
                 error := Some (serverMessageOr "API error" (Axios.data response));
                 status := Some (Axios.status response) |}
              (sent w url req)).
Proof.
  intros req answer. subst req answer. unfold in2xx.
  split; [|split].
  - intros response Hanswer Hcode. rewrite request_run, Hanswer.
    unfold FdxClient.processResponse.
    replace ((200 <=? Axios.status response) && (Axios.status response <? 300)) with true
      by (symmetry; apply andb_true_intro; split; [apply Z.leb_le | apply Z.ltb_lt]; lia).
    reflexivity.
  - intros response Hanswer Hcode. rewrite request_run, Hanswer.
    unfold FdxClient.processResponse.
    replace ((200 <=? Axios.status response) && (Axios.status response <? 300)) with false.
    + reflexivity.
    + symmetry. apply andb_false_iff.
      destruct (Z.leb_spec 200 (Axios.status response)); [right|left; reflexivity].
      apply Z.ltb_ge. lia.
  - intros failure response Hanswer Hresponse. rewrite request_run, Hanswer.
    unfold FdxClient.rejected. rewrite Hresponse. reflexivity.
Qed.

(** Under axios's default [validateStatus], which resolves the codes in
    [200,300) and rejects the others, every response outside the range
    gets the placeholder ['API error']. *)
Lemma request_envelope_default_validateStatus method url data config w response :
  let req := FdxClient.requestConfig method url data config in
  let answer := axios (client (this w)) (requests w) req in
  (forall r, answer = Axios.Resolved r -> in2xx (Axios.status r)) ->
  (answer = Axios.Resolved response \/
   exists failure, answer = Axios.Rejected failure /\ Axios.response failure = Some response) ->
  ~ in2xx (Axios.status response) ->
  FdxClient.request method url data config w =
  Returns {| success := false; Types.data := None;
             error := Some (serverMessageOr "API error" (Axios.data response));
             status := Some (Axios.status response) |}
          (sent w url req).
Proof.
  intros req answer Hdefault Hreceived Hcode.
  destruct Hreceived as [Hresolved|(failure & Hrejected & Hresponse)].
  - exfalso. apply Hcode, Hdefault, Hresolved.
  - rewrite request_run. fold req. fold answer. rewrite Hrejected.
    unfold FdxClient.rejected. rewrite Hresponse. reflexivity.
Qed.

(** C2.  A database-scoped operation called while the active database is
    unset (or an empty string) returns the fixed failure envelope, which has
    no status code, and leaves the world as it was: no request was handed to
    axios and nothing was printed. *)
Theorem db_scoped_requires_dbId op w :
  FdxClient.dbScoped op = true ->
  dbId (this w) = None \/ dbId (this w) = Some "" ->
  FdxClient.run op w =
  Returns {| success := false; Types.data := None;
             error := Some (Js.Str "Database ID is required. Please set it using setDbId() first.");
             status := None |}
          w.
Proof.
  intros Hop Hunset.
  assert (Hno : FdxClient.noDbId (this w) = true).
  { unfold FdxClient.noDbId. destruct Hunset as [-> | ->]; reflexivity. }
  destruct op; cbn in Hop; try discriminate Hop; cbn [FdxClient.run];
    unfold FdxClient.applyAutomateBuildTemplate, FdxClient.feedBuild, FdxClient.cancelBuild,
      FdxClient.ftpAccounts, FdxClient.createFtpAccounts, FdxClient.imports,
      FdxClient.createImport, FdxClient.updateImport, FdxClient.updateImportSchedule,
      FdxClient.exports, FdxClient.createExport, FdxClient.updateExport,
      FdxClient.scheduleExport, FdxClient.transformers, FdxClient.createTransformer,
      FdxClient.updateTransformer, FdxClient.updateDbFields, FdxClient.createJoinImport,
      FdxClient.joinImports;
    unfold bind, self; rewrite Hno; reflexivity.
Qed.

End ClientFacts.

Lemma request_envelope_by_delivery_witness :
  FdxClient.request (rt := Fixtures.scripted [Fixtures.respond 204 (Js.Str "")])
    "GET" "/user/accounts" Js.Undefined [] (Fixtures.fresh None) =
  Effects.Returns
    {| Types.success := true; Types.data := Some (Js.Str "");
       Types.error := None; Types.status := Some 204 |}
    (Spec.sent (Fixtures.fresh None) "/user/accounts"
       (FdxClient.requestConfig "GET" "/user/accounts" Js.Undefined [])) /\
  FdxClient.request
    (rt := Fixtures.scripted [Fixtures.respond 400 (Js.Obj [("message", Js.Str "Bad request")])])
    "GET" "/test" Js.Undefined [] (Fixtures.fresh None) =
  Effects.Returns
    {| Types.success := false; Types.data := None;
       Types.error := Some (Js.Str "Bad request"); Types.status := Some 400 |}
    (Spec.sent (Fixtures.fresh None) "/test"
       (FdxClient.requestConfig "GET" "/test" Js.Undefined [])) /\
  FdxClient.request (rt := Fixtures.scripted [Fixtures.refuse 500 (Js.Obj [])])
    "GET" "/user/accounts" Js.Undefined [] (Fixtures.fresh None) =
  Effects.Returns
    {| Types.success := false; Types.data := None;
       Types.error := Some (Js.Str "API error"); Types.status := Some 500 |}
    (Spec.sent (Fixtures.fresh None) "/user/accounts"
       (FdxClient.requestConfig "GET" "/user/accounts" Js.Undefined [])).
Proof.
  split; [|split].
  - apply (proj1 (request_envelope_by_delivery
                    (rt := Fixtures.scripted [Fixtures.respond 204 (Js.Str "")])
                    "GET" "/user/accounts" Js.Undefined [] (Fixtures.fresh None))
             {| Axios.status := 204; Axios.data := Js.Str "" |});
      [reflexivity | unfold Spec.in2xx; cbn; lia].
  - apply (proj1 (proj2 (request_envelope_by_delivery
                    (rt := Fixtures.scripted
                             [Fixtures.respond 400 (Js.Obj [("message", Js.Str "Bad request")])])
                    "GET" "/test" Js.Undefined [] (Fixtures.fresh None)))
             {| Axios.status := 400; Axios.data := Js.Obj [("message", Js.Str "Bad request")] |});
      [reflexivity | unfold Spec.in2xx; cbn; lia].
  - apply (proj2 (proj2 (request_envelope_by_delivery
                    (rt := Fixtures.scripted [Fixtures.refuse 500 (Js.Obj [])])
                    "GET" "/user/accounts" Js.Undefined [] (Fixtures.fresh None)))
             {| Axios.response := Some {| Axios.status := 500; Axios.data := Js.Obj [] |};
                Axios.message := "Request failed" |}
             {| Axios.status := 500; Axios.data := Js.Obj [] |});
      reflexivity.
Defined.

(** C1 as it is stated fails: a response with code 404 and no message that
    axios resolves (as it does under a [validateStatus] that accepts every
    code) gets the placeholder ['Unknown error'], not ['API error']. *)
Lemma request_placeholder_counterexample :
  exists r w',
    FdxClient.request (rt := Fixtures.scripted [Fixtures.respond 404 (Js.Obj [])])
      "GET" "/user/accounts" Js.Undefined [("validateStatus", Js.Null)]
      (Fixtures.fresh None) = Effects.Returns r w' /\
    Types.status r = Some 404 /\
    Types.error r = Some (Js.Str "Unknown error") /\
    Types.error r <> Some (Js.Str "API error").
Proof.
  eexists. eexists. split; [vm_compute; reflexivity|].
  cbn. repeat split. discriminate.
Qed.

Lemma db_scoped_requires_dbId_witness :
  FdxClient.run (rt := Fixtures.scripted []) FdxClient.Imports (Fixtures.fresh None) =
  Effects.Returns
    {| Types.success := false; Types.data := None;
       Types.error :=
         Some (Js.Str "Database ID is required. Please set it using setDbId() first.");
       Types.status := None |}
    (Fixtures.fresh None).
Proof.
  apply (db_scoped_requires_dbId (rt := Fixtures.scripted []) FdxClient.Imports
           (Fixtures.fresh None)); [reflexivity | left; reflexivity].
Defined.

(* ===================================================================== *)
(** ** The shape of every envelope *)
(* ===================================================================== *)

Section EnvelopeRules.

Import Types Effects Spec.

Lemma ensures_ret {A} (Q : A -> Prop) a : Q a -> Ensures Q (ret a).
Proof. intros H w. exact H. Qed.

Lemma ensures_throw {A} (Q : A -> Prop) e : Ensures Q (throw e).
Proof. intros w. exact I. Qed.

Lemma ensures_bind {A B} (P : A -> Prop) (Q : B -> Prop) m k :
  Ensures P m -> (forall a, P a -> Ensures Q (k a)) -> Ensures Q (bind m k).
Proof.
  intros Hm Hk w. unfold bind. specialize (Hm w).
  destruct (m w) as [a w'|e w']; [apply (Hk a Hm) | exact I].
Qed.

Lemma ensures_any {A B} (Q : B -> Prop) (m : M A) k :
  (forall a, Ensures Q (k a)) -> Ensures Q (bind m k).
Proof.
  intros Hk. apply (ensures_bind (fun _ => True)); [intros w; destruct (m w); exact I | auto].
Qed.

Lemma ensures_tryCatch {A} (Q : A -> Prop) body handler :
  Ensures Q body -> (forall e, Ensures Q (handler e)) -> Ensures Q (tryCatch body handler).
Proof.
  intros Hb Hh w. unfold tryCatch. specialize (Hb w).
  destruct (body w) as [a w'|e w']; [exact Hb | apply Hh].
Qed.

Lemma wellFormed_ok v : wellFormed (ok v).
Proof. split; cbn; intros H; [reflexivity | discriminate H]. Qed.

Lemma wellFormed_failure msg : wellFormed (failure msg).
Proof.
  split; cbn; intros H; [discriminate H|].
  split; [reflexivity|]. eexists. split; [reflexivity | discriminate].
Qed.

Lemma or_placeholder_defined v s : Js.or v (Js.Str s) <> Js.Undefined.
Proof.
  unfold Js.or. destruct (Js.truthy v) eqn:H; [|discriminate]. intros ->. discriminate H.
Qed.

Lemma wellFormed_processResponse response : wellFormed (FdxClient.processResponse response).
Proof.
  unfold FdxClient.processResponse.
  destruct ((200 <=? Axios.status response) && (Axios.status response <? 300));
    split; cbn; intros H; try discriminate H; try reflexivity.
  split; [reflexivity|]. eexists. split; [reflexivity | apply or_placeholder_defined].
Qed.

Lemma wellFormed_rejected failure : wellFormed (FdxClient.rejected failure).
Proof.
  unfold FdxClient.rejected.
  destruct (Axios.response failure); split; cbn; intros H; try discriminate H;
    (split; [reflexivity|]); eexists; (split; [reflexivity|]);
    [apply or_placeholder_defined | discriminate].
Qed.

End EnvelopeRules.

Create HintDb envelope.
#[export] Hint Resolve wellFormed_ok wellFormed_failure wellFormed_processResponse
  wellFormed_rejected : envelope.

Section EnvelopeInvariant.

Import Types Effects Spec FdxService.
Context {rt : Runtime}.

Lemma ensures_request method url data config :
  Ensures wellFormed (FdxClient.request method url data config).
Proof.
  intros w. rewrite request_run. destruct (axios _ _ _); auto with envelope.
Qed.

Lemma ensures_failWith label r : Ensures wellFormed (failWith label r).
Proof.
  unfold failWith. apply ensures_any. intros msg.
  apply ensures_ret. auto with envelope.
Qed.

(** One step of an envelope proof: a client call, a labelled failure, a
    fresh envelope, a branch or a bind. *)
Ltac envelope_step :=
  first
    [ apply ensures_failWith
    | apply ensures_request
    | apply ensures_ret; solve [auto with envelope]
    | apply ensures_throw
    | match goal with
      | |- Ensures _ (if ?b then _ else _) => destruct b
      | |- Ensures _ (match ?o with Some _ => _ | None => _ end) => destruct o
      | |- Ensures _ (lift ?c) => destruct c
      end
    | apply ensures_any; intros ].

Ltac envelope := repeat envelope_step.

Lemma ensures_client_run op : Ensures wellFormed (FdxClient.run op).
Proof.
  destruct op; cbn [FdxClient.run];
    unfold FdxClient.invitePrimaryUser, FdxClient.applyAutomateBuildTemplate,
      FdxClient.feedBuild, FdxClient.cancelBuild, FdxClient.accounts, FdxClient.dbs,
      FdxClient.createDb, FdxClient.deleteDb, FdxClient.vault, FdxClient.createVault,
      FdxClient.updateVault, FdxClient.deleteVault, FdxClient.ftpAccounts,
      FdxClient.createFtpAccounts, FdxClient.imports, FdxClient.createImport,
      FdxClient.updateImport, FdxClient.updateImportSchedule, FdxClient.exports,
      FdxClient.createExport, FdxClient.updateExport, FdxClient.scheduleExport,
      FdxClient.transformers, FdxClient.createTransformer, FdxClient.updateTransformer,
      FdxClient.updateDbFields, FdxClient.createJoinImport, FdxClient.joinImports,
      FdxClient.groups, FdxClient.createGroup, FdxClient.moveDbToGroup, FdxClient.login,
      FdxClient.createBigCommerceAccount, FdxClient.moveDbintoNewDbGroup,
      FdxClient.moveDbFromSourceToTargetDbGroup, FdxClient.addDbVaultEntry,
      FdxClient.dbFields, FdxClient.deleteDbField, FdxClient.dbIdRequired;
    envelope.
Qed.

Lemma ensures_retrieveAccounts : Ensures wellFormed retrieveAccounts.
Proof. unfold retrieveAccounts. envelope. Qed.

Lemma ensures_createAccount name : Ensures wellFormed (createAccount name).
Proof. unfold createAccount. envelope. Qed.

(** [getOrCreateAccount] hands on the envelope of [retrieveAccounts]. *)
Lemma ensures_getOrCreateAccount storeId : Ensures wellFormed (getOrCreateAccount storeId).
Proof.
  unfold getOrCreateAccount. apply ensures_any. intros accountName.
  apply (ensures_bind wellFormed); [apply ensures_retrieveAccounts|].
  intros accountsResult Hwf.
  destruct (negb (success accountsResult)); [apply ensures_ret, Hwf|].
  destruct (Js.truthy _); [envelope | apply ensures_createAccount].
Qed.

Lemma ensures_findGroup accountId : Ensures wellFormed (findGroup accountId).
Proof. unfold findGroup. envelope. Qed.

Lemma ensures_moveDbToGroup accountId accountName :
  Ensures wellFormed (moveDbToGroup accountId accountName).
Proof.
  unfold moveDbToGroup.
  apply (ensures_bind wellFormed); [apply ensures_findGroup|].
  intros existing Hwf.
  destruct (negb (success existing)); [apply ensures_ret, Hwf|].
  envelope.
Qed.

Lemma ensures_deleteOldEntry entries : Ensures optionWellFormed (deleteOldEntry entries).
Proof.
  unfold deleteOldEntry. apply ensures_any. intros oldEntry.
  destruct (negb (Js.truthy oldEntry)); [apply ensures_ret; exact I|].
  apply ensures_any. intros oldId. apply ensures_any. intros result.
  destruct (negb (success result)).
  - apply (ensures_bind wellFormed); [apply ensures_failWith|].
    intros r Hr. apply ensures_ret. exact Hr.
  - apply ensures_ret. cbn. auto with envelope.
Qed.

Lemma ensures_createOrUpdateVaultEntry entries token :
  Ensures wellFormed (createOrUpdateVaultEntry entries token).
Proof. unfold createOrUpdateVaultEntry. envelope. Qed.

Lemma ensures_updateVaultEntries token : Ensures wellFormed (updateVaultEntries token).
Proof.
  unfold updateVaultEntries. apply ensures_any. intros vaultResult.
  destruct (negb (success vaultResult)); [apply ensures_failWith|].
  apply (ensures_bind optionWellFormed); [apply ensures_deleteOldEntry|].
  intros [r|] Hr; [|apply ensures_createOrUpdateVaultEntry].
  destruct (negb (success r)); [apply ensures_ret, Hr | apply ensures_createOrUpdateVaultEntry].
Qed.

Lemma ensures_getFtpCredentials : Ensures wellFormed getFtpCredentials.
Proof. unfold getFtpCredentials. envelope. Qed.

Lemma ensures_deleteDb id : Ensures wellFormed (deleteDb id).
Proof. unfold deleteDb. envelope. Qed.

Lemma ensures_createDb accountId name : Ensures wellFormed (createDb accountId name).
Proof. unfold createDb. envelope. Qed.

Lemma ensures_retrieveImport : Ensures wellFormed retrieveImport.
Proof. unfold retrieveImport. envelope. Qed.

Lemma ensures_createOrUpdateImport user channelId isCreate :
  Ensures wellFormed (createOrUpdateImport user channelId isCreate).
Proof. unfold createOrUpdateImport. envelope. Qed.

Lemma ensures_updateImportSchedule importId day hour minute :
  Ensures wellFormed (updateImportSchedule importId day hour minute).
Proof. unfold updateImportSchedule. envelope. Qed.

Lemma ensures_getExistingExport : Ensures wellFormed getExistingExport.
Proof. unfold getExistingExport. envelope. Qed.

Lemma ensures_handleExistingExport existing ftp filename :
  Ensures wellFormed (handleExistingExport existing ftp filename).
Proof. unfold handleExistingExport. envelope. Qed.

Lemma ensures_runExportSchedule export_ slot : Ensures wellFormed (runExportSchedule export_ slot).
Proof. unfold runExportSchedule. envelope. Qed.

(** [createOrUpdateExport] hands on the envelope of
    [handleExistingExport]. *)
Lemma ensures_createOrUpdateExport ftp filename slot :
  Ensures wellFormed (createOrUpdateExport ftp filename slot).
Proof.
  unfold createOrUpdateExport. apply ensures_any. intros current.
  destruct (negb (success current)); [apply ensures_failWith|].
  apply (ensures_bind wellFormed); [apply ensures_handleExistingExport|].
  intros export_ Hwf.
  destruct (negb (success export_)); [apply ensures_failWith|].
  destruct slot; [apply ensures_runExportSchedule | apply ensures_ret, Hwf].
Qed.

Lemma ensures_createTransformersFrom ts results :
  Ensures wellFormed (createTransformersFrom ts results).
Proof.
  revert results. induction ts as [|t ts IH]; intros results; cbn.
  - envelope.
  - apply ensures_any. intros result.
    destruct (negb (success result)); [apply ensures_failWith | apply IH].
Qed.

Lemma ensures_updateDbFieldsFrom fields results :
  Ensures wellFormed (updateDbFieldsFrom fields results).
Proof.
  revert results. induction fields as [|f fields IH]; intros results; cbn.
  - envelope.
  - apply ensures_any. intros result.
    destruct (negb (success result)); [apply ensures_failWith | apply IH].
Qed.

Lemma ensures_createJoinImport ftp fileName : Ensures wellFormed (createJoinImport ftp fileName).
Proof. unfold createJoinImport. envelope. Qed.

Lemma ensures_runImport importId : Ensures wellFormed (runImport importId).
Proof. unfold runImport. envelope. Qed.

Lemma ensures_runExport exportId : Ensures wellFormed (runExport exportId).
Proof. unfold runExport. envelope. Qed.

Lemma ensures_returnFailure label r : Ensures flowWellFormed (returnFailure label r).
Proof.
  unfold returnFailure. apply (ensures_bind wellFormed); [apply ensures_failWith|].
  intros r' Hr. apply ensures_ret. exact Hr.
Qed.

Ltac flow_step :=
  first
    [ apply ensures_returnFailure
    | apply ensures_ret; exact I
    | match goal with
      | |- Ensures _ (if ?b then _ else _) => destruct b
      | |- Ensures _ (match ?o with Some _ => _ | None => _ end) => destruct o
      end
    | apply ensures_any; intros ].

Lemma ensures_runStep s params l : Ensures flowWellFormed (runStep s params l).
Proof.
  destruct s; cbn [runStep];
    unfold createAccountStep, inviteUserStep, createDatabaseStep, moveToGroupStep,
      addVaultEntryStep, createImportStep, setScheduleStep, applyTemplateStep;
    repeat flow_step.
Qed.

Lemma ensures_runSteps ss params l : Ensures flowWellFormed (runSteps ss params l).
Proof.
  revert l. induction ss as [|s ss IH]; intros l; cbn [runSteps].
  - apply ensures_ret. exact I.
  - apply (ensures_bind flowWellFormed); [apply ensures_runStep|].
    intros [l'|r] Hf; [apply IH | apply ensures_ret, Hf].
Qed.

Lemma ensures_setup params : Ensures wellFormed (setupBigCommerceIntegration params).
Proof.
  unfold setupBigCommerceIntegration. apply ensures_tryCatch.
  - unfold setupBody. apply (ensures_bind flowWellFormed); [apply ensures_runSteps|].
    intros [l|r] Hf; apply ensures_ret; [auto with envelope | exact Hf].
  - intros e. apply ensures_ret. auto with envelope.
Qed.

Lemma ensures_service_run op : Ensures wellFormed (FdxService.run op).
Proof.
  destruct op; cbn [FdxService.run].
  - apply ensures_retrieveAccounts.
  - apply ensures_getOrCreateAccount.
  - apply ensures_createAccount.
  - apply ensures_moveDbToGroup.
  - apply ensures_updateVaultEntries.
  - apply ensures_getFtpCredentials.
  - apply ensures_deleteDb.
  - apply ensures_createDb.
  - apply ensures_retrieveImport.
  - apply ensures_createOrUpdateImport.
  - apply ensures_updateImportSchedule.
  - apply ensures_createOrUpdateExport.
  - apply ensures_getExistingExport.
  - apply ensures_createTransformersFrom.
  - apply ensures_updateDbFieldsFrom.
  - apply ensures_createJoinImport.
  - apply ensures_runImport.
  - apply ensures_runExport.
  - apply ensures_setup.
Qed.

(** C8.  Whatever envelope a public operation of the client or of the
    service returns, in whatever world it is called: a success has no
    error field, a failure has no data field and has an error. *)
Theorem envelopes_are_well_formed w :
  (forall op,
      match FdxClient.run op w with
      | Returns r _ => wellFormed r
      | Throws _ _ => True
      end) /\
  (forall op,
      match FdxService.run op w with
      | Returns r _ => wellFormed r
      | Throws _ _ => True
      end).
Proof.
  split; intros op; [apply ensures_client_run | apply ensures_service_run].
Qed.

End EnvelopeInvariant.

(* ===================================================================== *)
(** ** Get-or-create: the update branch *)
(* ===================================================================== *)

Section ServiceFacts.

Import Types Effects Spec FdxService.
Context {rt : Runtime}.

Lemma failWith_run label r msg w :
  Js.toStr (errorOf r) = Js.Normal msg ->
  failWith label r w = Returns (failure (label ++ msg)) w.
Proof. intros H. unfold failWith, bind. rewrite H. reflexivity. Qed.

Lemma failWith_world label r w : worldOf (failWith label r w) = w.
Proof. unfold failWith, bind. destruct (Js.toStr (errorOf r)); reflexivity. Qed.

(** A guarded request with an identifier in its path was sent once it
    reports success: the guard's envelope is a failure. *)
Lemma guarded_request_success (path : string -> string -> string) method id body w r w' :
  (c <- self ;;
   if FdxClient.noDbId c then ret FdxClient.dbIdRequired
   else i <- lift (Js.toStr id) ;;
        FdxClient.request method (path (FdxClient.dbIdText c) i) body []) w = Returns r w' ->
  success r = true ->
  exists i, Js.toStr id = Js.Normal i /\
            w' = sent w (path (FdxClient.dbIdText (this w)) i)
                   (FdxClient.requestConfig method (path (FdxClient.dbIdText (this w)) i) body []).
Proof.
  unfold bind at 1. unfold self at 1. intros H Hs.
  destruct (FdxClient.noDbId (this w)).
  - inversion H; subst. discriminate Hs.
  - unfold bind in H. destruct (Js.toStr id) as [i|e]; cbn in H; [|discriminate H].
    rewrite request_run in H. inversion H; subst. eauto.
Qed.

Lemma updateImport_success id body w r w' :
  FdxClient.updateImport id body w = Returns r w' -> success r = true ->
  exists i, Js.toStr id = Js.Normal i /\
    requests w' = (requests w ++
      [FdxClient.requestConfig "PUT"
         ("/dbs/" ++ FdxClient.dbIdText (this w) ++ "/imports/" ++ i) body []])%list.
Proof.
  intros H Hs.
  destruct (guarded_request_success (fun d i => "/dbs/" ++ d ++ "/imports/" ++ i)
              _ _ _ _ _ _ H Hs) as (i & Hi & ->).
  exists i. split; [assumption | apply requests_sent].
Qed.

Lemma updateExport_success id body w r w' :
  FdxClient.updateExport id body w = Returns r w' -> success r = true ->
  exists i, Js.toStr id = Js.Normal i /\
    requests w' = (requests w ++
      [FdxClient.requestConfig "PUT"
         ("/dbs/" ++ FdxClient.dbIdText (this w) ++ "/exports/" ++ i) body []])%list.
Proof.
  intros H Hs.
  destruct (guarded_request_success (fun d i => "/dbs/" ++ d ++ "/exports/" ++ i)
              _ _ _ _ _ _ H Hs) as (i & Hi & ->).
  exists i. split; [assumption | apply requests_sent].
Qed.

Lemma updateVault_returns id body w r w' :
  FdxClient.updateVault id body w = Returns r w' ->
  exists i, Js.toStr id = Js.Normal i /\
    requests w' = (requests w ++ [FdxClient.requestConfig "PUT" ("/vault/" ++ i) body []])%list.
Proof.
  unfold FdxClient.updateVault, bind. intros H.
  destruct (Js.toStr id) as [i|e]; cbn in H; [|discriminate H].
  rewrite request_run in H. inversion H; subst.
  exists i. split; [reflexivity | apply requests_sent].
Qed.

Lemma handleExistingExport_update existing ftpCredentials filename w r w2 :
  Js.truthy existing = true ->
  FdxClient.updateExport (Js.prop existing "id")
    (buildExportConfig ftpCredentials filename) w = Returns r w2 ->
  success r = true ->
  handleExistingExport existing ftpCredentials filename w = Returns (ok existing) w2.
Proof.
  intros Hfound Hput Hr. unfold handleExistingExport. rewrite Hfound.
  rewrite (bind_returns _ _ w (Js.prop existing "id") w)
    by (rewrite (get_truthy _ _ Hfound); reflexivity).
  rewrite (bind_returns _ _ _ _ _ Hput). rewrite Hr. reflexivity.
Qed.

(** A scheduling call on an identifier that prints, with a database
    selected, sends its one request and returns what the request gave. *)
Lemma scheduleExport_run id i schedule w :
  FdxClient.noDbId (this w) = false ->
  Js.toStr id = Js.Normal i ->
  exists s,
    FdxClient.scheduleExport id schedule w =
    Returns s (sent w ("/dbs/" ++ FdxClient.dbIdText (this w) ++ "/exports/" ++ i ++ "/schedule")
                 (FdxClient.requestConfig "POST"
                    ("/dbs/" ++ FdxClient.dbIdText (this w) ++ "/exports/" ++ i ++ "/schedule")
                    schedule [])).
Proof.
  intros Hdb Hi. unfold FdxClient.scheduleExport, bind at 1, self at 1. rewrite Hdb.
  unfold bind. rewrite Hi. cbn [lift ret]. rewrite request_run. eauto.
Qed.

(** A guarded request that reports success passed the guard. *)
Lemma guarded_request_passed (k : Client -> M ServiceResponse) w r w' :
  (c <- self ;; if FdxClient.noDbId c then ret FdxClient.dbIdRequired else k c) w
    = Returns r w' ->
  success r = true ->
  FdxClient.noDbId (this w) = false.
Proof.
  unfold bind at 1, self at 1. intros H Hs.
  destruct (FdxClient.noDbId (this w)); [|reflexivity].
  inversion H; subst. discriminate Hs.
Qed.

(** C5.  Imports: when the lookup found an import and the update call
    succeeds, the call is a PUT on the found import's identifier and the
    payload returned is the found record.  Exports: the same; when a time
    slot was given, the scheduling call follows, a POST on the same
    identifier, and the operation returns the found record when that call
    succeeds and the failure of the scheduling when it does not, so that
    the payload of a success is the found record in every case.  Vault
    entries: when an entry named [bc_credentials] exists and the update
    call succeeds, the call is a PUT on the entry's identifier and the
    payload returned is the update's response body. *)
Theorem existing_record_is_updated :
  (forall user channelId isCreate w config existing w1 r w2,
      buildImportConfig user channelId isCreate = Js.Normal config ->
      retrieveImport w = Returns existing w1 ->
      success existing = true -> Js.truthy (payload existing) = true ->
      FdxClient.updateImport (Js.prop (payload existing) "id") config w1 = Returns r w2 ->
      success r = true ->
      createOrUpdateImport user channelId isCreate w = Returns (ok (payload existing)) w2 /\
      exists i, Js.toStr (Js.prop (payload existing) "id") = Js.Normal i /\
        requests w2 = (requests w1 ++
          [FdxClient.requestConfig "PUT"
             ("/dbs/" ++ FdxClient.dbIdText (this w1) ++ "/imports/" ++ i) config []])%list) /\
  (forall ftpCredentials filename timeSlot w current w1 r w2,
      getExistingExport w = Returns current w1 ->
      success current = true -> Js.truthy (payload current) = true ->
      FdxClient.updateExport (Js.prop (payload current) "id")
        (buildExportConfig ftpCredentials filename) w1 = Returns r w2 ->
      success r = true ->
      exists i, Js.toStr (Js.prop (payload current) "id") = Js.Normal i /\
        requests w2 = (requests w1 ++
          [FdxClient.requestConfig "PUT"
             ("/dbs/" ++ FdxClient.dbIdText (this w1) ++ "/exports/" ++ i)
             (buildExportConfig ftpCredentials filename) []])%list /\
        match timeSlot with
        | None =>
            createOrUpdateExport ftpCredentials filename timeSlot w =
            Returns (ok (payload current)) w2
        | Some slot =>
            let schedule :=
              scheduleValue {| Types.day := "*"; Types.hour := hour slot;
                               Types.minute := minutes slot |} in
            exists s w3,
              FdxClient.scheduleExport (Js.prop (payload current) "id") schedule w2
                = Returns s w3 /\
              requests w3 = (requests w2 ++
                [FdxClient.requestConfig "POST"
                   ("/dbs/" ++ FdxClient.dbIdText (this w1) ++ "/exports/" ++ i ++ "/schedule")
                   schedule []])%list /\
              createOrUpdateExport ftpCredentials filename timeSlot w =
              Returns (if success s then ok (payload current)
                       else failure "Error setting running export schedule in FDX") w3
        end) /\
  (forall entries accessToken entry w r w2,
      Js.find "entries" entries (named "bc_credentials") = Js.Normal entry ->
      Js.truthy entry = true ->
      FdxClient.updateVault (Js.prop entry "id")
        (entryPayload accessToken (dateNow (requests w))) w = Returns r w2 ->
      success r = true ->
      createOrUpdateVaultEntry entries accessToken w = Returns (ok (payload r)) w2 /\
      exists i, Js.toStr (Js.prop entry "id") = Js.Normal i /\
        requests w2 = (requests w ++
          [FdxClient.requestConfig "PUT" ("/vault/" ++ i)
             (entryPayload accessToken (dateNow (requests w))) []])%list).
Proof.
  split; [|split].
  - intros user channelId isCreate w config existing w1 r w2 Hcfg Hget Hok Hfound Hput Hr.
    split; [|eapply updateImport_success; eassumption].
    unfold createOrUpdateImport.
    rewrite (bind_returns _ _ w config w) by (rewrite Hcfg; reflexivity).
    rewrite (bind_returns _ _ _ _ _ Hget). rewrite Hok, Hfound. cbn [andb].
    rewrite (bind_returns _ _ w1 (Js.prop (payload existing) "id") w1)
      by (rewrite (get_truthy _ _ Hfound); reflexivity).
    rewrite (bind_returns _ _ _ _ _ Hput). rewrite Hr. reflexivity.
  - intros ftpCredentials filename timeSlot w current w1 r w2 Hget Hok Hfound Hput Hr.
    pose proof (guarded_request_passed _ _ _ _ Hput Hr) as Hdb.
    destruct (guarded_request_success (fun d i => "/dbs/" ++ d ++ "/exports/" ++ i)
                _ _ _ _ _ _ Hput Hr) as (i & Hi & Hw2).
    exists i. split; [exact Hi|]. split; [rewrite Hw2; apply requests_sent|].
    assert (Hhandled :
      (export_ <- handleExistingExport (payload current) ftpCredentials filename ;;
       if negb (success export_) then failWith "Creating or updating exports: " export_
       else match timeSlot with
            | Some slot => runExportSchedule (payload export_) slot
            | None => ret export_
            end) w1 =
      match timeSlot with
      | Some slot => runExportSchedule (payload current) slot w2
      | None => Returns (ok (payload current)) w2
      end).
    { rewrite (bind_returns _ _ _ _ _
                 (handleExistingExport_update _ _ _ _ _ _ Hfound Hput Hr)).
      cbn [success ok negb payload data]. destruct timeSlot; reflexivity. }
    unfold createOrUpdateExport.
    rewrite (bind_returns _ _ _ _ _ Hget). rewrite Hok. cbn [negb]. rewrite Hhandled.
    destruct timeSlot as [slot|]; [|reflexivity].
    cbv zeta.
    assert (Hthis : this w2 = this w1) by (rewrite Hw2; apply this_sent).
    destruct (scheduleExport_run (Js.prop (payload current) "id") i
                (scheduleValue {| Types.day := "*"; Types.hour := hour slot;
                                  Types.minute := minutes slot |}) w2)
      as [s Hs]; [rewrite Hthis; exact Hdb | exact Hi |].
    rewrite Hthis in Hs.
    eexists. eexists. split; [exact Hs|]. split; [apply requests_sent|].
    unfold runExportSchedule.
    rewrite (bind_returns _ _ w2 (Js.prop (payload current) "id") w2)
      by (rewrite (get_truthy _ _ Hfound); reflexivity).
    rewrite (bind_returns _ _ _ _ _ Hs).
    destruct (success s); reflexivity.
  - intros entries accessToken entry w r w2 Hfind Hfound Hput Hr.
    split; [|eapply updateVault_returns; eassumption].
    unfold createOrUpdateVaultEntry.
    rewrite (bind_returns _ _ w entry w) by (rewrite Hfind; reflexivity).
    rewrite (bind_returns _ _ w (dateNow (requests w)) w) by reflexivity.
    rewrite Hfound.
    erewrite bind_returns; cycle 1.
    { rewrite (bind_returns _ _ w (Js.prop entry "id") w)
        by (rewrite (get_truthy _ _ Hfound); reflexivity).
      exact Hput. }
    rewrite Hr. reflexivity.
Qed.

End ServiceFacts.

Lemma existing_record_is_updated_witness :
  (exists w2,
      FdxService.createOrUpdateImport (rt := Fixtures.lookupThenUpdate Fixtures.existingImport)
        Fixtures.someUser (Js.Num 1) false (Fixtures.fresh (Some "db1")) =
        Effects.Returns (Types.ok Fixtures.existingImport) w2 /\
      map Spec.route (Effects.requests w2) =
        [(Js.Str "GET", Js.Str "/dbs/db1/imports");
         (Js.Str "PUT", Js.Str "/dbs/db1/imports/7")]) /\
  (exists w2,
      FdxService.createOrUpdateExport (rt := Fixtures.lookupThenUpdate Fixtures.existingExport)
        Fixtures.someFtp "feed.csv" None (Fixtures.fresh (Some "db1")) =
        Effects.Returns (Types.ok Fixtures.existingExport) w2 /\
      map Spec.route (Effects.requests w2) =
        [(Js.Str "GET", Js.Str "/dbs/db1/exports");
         (Js.Str "PUT", Js.Str "/dbs/db1/exports/8")]) /\
  (exists w3,
      FdxService.createOrUpdateExport (rt := Fixtures.updateThenSchedule Fixtures.existingExport)
        Fixtures.someFtp "feed.csv" (Some Fixtures.atHalfPastSix) (Fixtures.fresh (Some "db1")) =
        Effects.Returns (Types.ok Fixtures.existingExport) w3 /\
      map Spec.route (Effects.requests w3) =
        [(Js.Str "GET", Js.Str "/dbs/db1/exports");
         (Js.Str "PUT", Js.Str "/dbs/db1/exports/8");
         (Js.Str "POST", Js.Str "/dbs/db1/exports/8/schedule")]) /\
  (exists w2,
      FdxService.createOrUpdateVaultEntry (rt := Fixtures.updateAccepted)
        (Js.Arr [Fixtures.existingVaultEntry]) "token" (Fixtures.fresh None) =
        Effects.Returns (Types.ok (Js.Obj [("updated", Js.Bool true)])) w2 /\
      map Spec.route (Effects.requests w2) = [(Js.Str "PUT", Js.Str "/vault/3")]).
Proof.
  split; [|split; [|split]].
  - eexists. split.
    + eapply proj1.
      eapply (proj1 (existing_record_is_updated
                       (rt := Fixtures.lookupThenUpdate Fixtures.existingImport))
                Fixtures.someUser (Js.Num 1) false (Fixtures.fresh (Some "db1")) _
                (Types.ok Fixtures.existingImport));
        vm_compute; reflexivity.
    + vm_compute. reflexivity.
  - edestruct (proj1 (proj2 (existing_record_is_updated
                       (rt := Fixtures.lookupThenUpdate Fixtures.existingExport)))
                Fixtures.someFtp "feed.csv" None (Fixtures.fresh (Some "db1"))
                (Types.ok Fixtures.existingExport))
      as (i & Hi & Hput & Hrun); [vm_compute; reflexivity..|].
    eexists. split; [exact Hrun | vm_compute; reflexivity].
  - edestruct (proj1 (proj2 (existing_record_is_updated
                       (rt := Fixtures.updateThenSchedule Fixtures.existingExport)))
                Fixtures.someFtp "feed.csv" (Some Fixtures.atHalfPastSix)
                (Fixtures.fresh (Some "db1")) (Types.ok Fixtures.existingExport))
      as (i & Hi & Hput & s & w3 & Hs & Hpost & Hrun); [vm_compute; reflexivity..|].
    vm_compute in Hs. inversion Hs; subst s w3.
    eexists. split; [exact Hrun | vm_compute; reflexivity].
  - eexists. split.
    + eapply proj1.
      eapply (proj2 (proj2 (existing_record_is_updated (rt := Fixtures.updateAccepted)))
                (Js.Arr [Fixtures.existingVaultEntry]) "token" Fixtures.existingVaultEntry
                (Fixtures.fresh None)
                {| Types.success := true;
                   Types.data := Some (Js.Obj [("updated", Js.Bool true)]);
                   Types.error := None; Types.status := Some 200 |});
        vm_compute; reflexivity.
    + vm_compute. reflexivity.
Defined.

(* ===================================================================== *)
(** ** The composite workflow *)
(* ===================================================================== *)

Section WorkflowFacts.

Import Types Effects Spec FdxService FdxService.Setup.
Context {rt : Runtime}.

Lemma runSteps_app a b params l w :
  runSteps (a ++ b) params l w =
  match runSteps a params l w with
  | Returns (Continue l') w' => runSteps b params l' w'
  | Returns (Return r) w' => Returns (Return r) w'
  | Throws e w' => Throws e w'
  end.
Proof.
  revert l w. induction a as [|s a IH]; intros l w; cbn [app runSteps].
  - reflexivity.
  - unfold bind. destruct (runStep s params l w) as [[l'|r] w'|e w']; [apply IH | reflexivity..].
Qed.

(** The workflow is the steps before a step, the step, and the rest. *)
Lemma steps_split s : steps = (before s ++ s :: skipn (S (List.length (before s))) steps)%list.
Proof. destruct s; reflexivity. Qed.

Lemma returnFailure_run lbl r msg w :
  Js.toStr (errorOf r) = Js.Normal msg ->
  returnFailure lbl r w = Returns (Return (failure (lbl ++ msg))) w.
Proof.
  intros H. unfold returnFailure. rewrite (bind_returns _ _ _ _ _ (failWith_run lbl r msg w H)).
  reflexivity.
Qed.

Lemma failedOrNoId_failure r : success r = false -> failedOrNoId r = true.
Proof. intros H. unfold failedOrNoId. now rewrite H. Qed.

(** A template that cannot print the error throws what the conversion
    threw. *)
Lemma returnFailure_throws lbl r e w :
  Js.toStr (errorOf r) = Js.Abrupt e ->
  returnFailure lbl r w = Throws e w.
Proof.
  intros H. unfold returnFailure, failWith, bind. rewrite H. reflexivity.
Qed.

(** A step whose client call reports a failure goes on to build the
    labelled envelope in the world the call left. *)
Lemma step_failure_labelled s params l call w r w' :
  clientCall s params l = Some call ->
  call w = Returns r w' ->
  success r = false ->
  runStep s params l w = returnFailure (label s) r w'.
Proof.
  intros Hcall Hrun Hfail.
  destruct s; cbn [runStep clientCall label] in *.
  - inversion Hcall; subst call. unfold createAccountStep.
    now rewrite (bind_returns _ _ _ _ _ Hrun), (failedOrNoId_failure _ Hfail).
  - unfold inviteUserStep. destruct (given (userEmail params)) as [email|]; [|discriminate Hcall].
    inversion Hcall; subst call.
    now rewrite (bind_returns _ _ _ _ _ Hrun), Hfail.
  - inversion Hcall; subst call. unfold createDatabaseStep.
    now rewrite (bind_returns _ _ _ _ _ Hrun), (failedOrNoId_failure _ Hfail).
  - unfold moveToGroupStep. destruct (given (groupName params)) as [name|]; [|discriminate Hcall].
    inversion Hcall; subst call.
    now rewrite (bind_returns _ _ _ _ _ Hrun), Hfail.
  - inversion Hcall; subst call. unfold addVaultEntryStep.
    apply bind_inv in Hrun. destruct Hrun as (t & w1 & Ht & Hrun).
    now rewrite (bind_returns _ _ _ _ _ Ht), (bind_returns _ _ _ _ _ Hrun), Hfail.
  - inversion Hcall; subst call. unfold createImportStep.
    apply bind_inv in Hrun. destruct Hrun as (url & w1 & Hurl & Hrun).
    now rewrite (bind_returns _ _ _ _ _ Hurl), (bind_returns _ _ _ _ _ Hrun),
      (failedOrNoId_failure _ Hfail).
  - unfold setScheduleStep. destruct (importSchedule params) as [sch|]; [|discriminate Hcall].
    inversion Hcall; subst call.
    now rewrite (bind_returns _ _ _ _ _ Hrun), Hfail.
  - unfold applyTemplateStep.
    destruct (given (buildTemplate params)) as [template|]; [|discriminate Hcall].
    inversion Hcall; subst call.
    now rewrite (bind_returns _ _ _ _ _ Hrun), Hfail.
Qed.

(** A step whose client call reports a failure returns the labelled
    envelope in the world the call left. *)
Lemma step_failure s params l call w r w' msg :
  clientCall s params l = Some call ->
  call w = Returns r w' ->
  success r = false ->
  Js.toStr (errorOf r) = Js.Normal msg ->
  runStep s params l w = Returns (Return (failure (label s ++ msg))) w'.
Proof.
  intros Hcall Hrun Hfail Hmsg.
  rewrite (step_failure_labelled _ _ _ _ _ _ _ Hcall Hrun Hfail).
  apply returnFailure_run, Hmsg.
Qed.

(** C6, as the code has it.  Let the steps before [s] go through, leaving
    the identifiers [l] and the world [w1], and let the client call of [s]
    return a failure envelope [r], leaving the world [w2].  Then the
    workflow returns a failure envelope in the world [w2]: nothing was sent
    after the failing call.  Its message is the label of [s] followed by
    the text of the error of [r] when that error can be printed; when it
    cannot, building the message throws inside the [try] block and the
    message is ['BigCommerce setup failed: '] followed by the message of
    what was thrown, without the label of [s]. *)
Theorem failing_step_short_circuits params s l w w1 call r w2 :
  runSteps (before s) params start w = Returns (Continue l) w1 ->
  clientCall s params l = Some call ->
  call w1 = Returns r w2 ->
  success r = false ->
  setupBigCommerceIntegration params w =
  Returns (failure match Js.toStr (errorOf r) with
                   | Js.Normal msg => label s ++ msg
                   | Js.Abrupt e => "BigCommerce setup failed: " ++ Js.message e
                   end) w2.
Proof.
  intros Hbefore Hcall Hrun Hfail.
  unfold setupBigCommerceIntegration, tryCatch, setupBody, bind.
  rewrite (steps_split s), runSteps_app, Hbefore.
  cbn [runSteps]. unfold bind.
  rewrite (step_failure_labelled _ _ _ _ _ _ _ Hcall Hrun Hfail).
  destruct (Js.toStr (errorOf r)) as [msg|e] eqn:Hmsg.
  - rewrite (returnFailure_run _ _ _ _ Hmsg). reflexivity.
  - rewrite (returnFailure_throws _ _ _ _ Hmsg). reflexivity.
Qed.

(** C7.  The workflow always returns an envelope, and when its [try] block
    throws, the envelope is the failure whose message is
    ['BigCommerce setup failed: '] followed by the exception's message. *)
Theorem setup_catches_exceptions params w :
  (exists r w', setupBigCommerceIntegration params w = Returns r w') /\
  (forall e w', setupBody params w = Throws e w' ->
     setupBigCommerceIntegration params w =
     Returns (failure ("BigCommerce setup failed: " ++ Js.message e)) w').
Proof.
  unfold setupBigCommerceIntegration, tryCatch. split.
  - destruct (setupBody params w) as [r w'|e w']; eauto.
  - intros e w' H. rewrite H. reflexivity.
Qed.

End WorkflowFacts.

Lemma failing_step_short_circuits_witness :
  FdxService.setupBigCommerceIntegration (rt := Fixtures.inviteRefused)
    Fixtures.storeParams (Fixtures.fresh None) =
  Effects.Returns (Types.failure "Failed to invite user: User invitation failed")
    (Effects.worldOf
       (FdxClient.invitePrimaryUser (rt := Fixtures.inviteRefused)
          (Js.Str "1234") "test@example.com"
          (Effects.worldOf
             (FdxClient.createBigCommerceAccount (rt := Fixtures.inviteRefused)
                "Test Store" (Fixtures.fresh None))))).
Proof.
  eapply (failing_step_short_circuits (rt := Fixtures.inviteRefused)
            Fixtures.storeParams FdxService.InviteUser _ _ _ _
            {| Types.success := false; Types.data := None;
               Types.error := Some (Js.Str "User invitation failed");
               Types.status := Some 403 |}).
  - vm_compute. reflexivity.
  - reflexivity.
  - vm_compute. reflexivity.
  - reflexivity.
Defined.

(** C6 as it is stated fails: when the server refuses the account with a
    message that cannot be printed (a JSON object with a [toString]
    property of its own), the call of the first step returns a failure
    envelope and the workflow returns a failure whose message does not
    start with the label of the step. *)
Lemma failing_step_label_counterexample :
  exists r w1 message,
    FdxClient.createBigCommerceAccount (rt := Fixtures.accountRefusedUnprintably)
      "Test Store" (Fixtures.fresh None) = Effects.Returns r w1 /\
    Types.success r = false /\
    FdxService.setupBigCommerceIntegration (rt := Fixtures.accountRefusedUnprintably)
      Fixtures.storeParams (Fixtures.fresh None) =
      Effects.Returns (Types.failure message) w1 /\
    message = "BigCommerce setup failed: Cannot convert object to primitive value" /\
    String.prefix (FdxService.label FdxService.CreateAccount) message = false.
Proof.
  eexists. eexists. eexists.
  split; [vm_compute; reflexivity|].
  split; [reflexivity|].
  split; [vm_compute; reflexivity|].
  split; reflexivity.
Qed.

Lemma setup_catches_exceptions_witness :
  exists w',
    FdxService.setupBody (rt := Fixtures.unprintableDatabaseId)
      Fixtures.storeParams (Fixtures.fresh None) =
      Effects.Throws (Js.TypeError "dbId.toString is not a function") w' /\
    FdxService.setupBigCommerceIntegration (rt := Fixtures.unprintableDatabaseId)
      Fixtures.storeParams (Fixtures.fresh None) =
      Effects.Returns
        (Types.failure "BigCommerce setup failed: dbId.toString is not a function") w'.
Proof.
  eexists. split.
  - vm_compute. reflexivity.
  - apply (proj2 (setup_catches_exceptions (rt := Fixtures.unprintableDatabaseId)
                    Fixtures.storeParams (Fixtures.fresh None))
             (Js.TypeError "dbId.toString is not a function")).
    vm_compute. reflexivity.
Defined.

(* ===================================================================== *)
(** ** Moving a database to a group *)
(* ===================================================================== *)

Section GroupFacts.

Import Types Effects Spec FdxService.
Context {rt : Runtime}.

Lemma findIn_none items :
  Forall (fun group =>
            exists name,
              Js.get group "name" = Js.Normal (Js.Str name) /\
              String.prefix ACCOUNT_PREFIX name = false) items ->
  Js.findIn hasAccountPrefix items = Js.Normal Js.Undefined.
Proof.
  induction 1 as [|g items (name & Hname & Hpre) _ IH]; [reflexivity|].
  cbn. unfold hasAccountPrefix at 1. rewrite Hname. cbn. rewrite Hpre. exact IH.
Qed.

Lemma optFind_none data :
  noPrefixedGroup data ->
  Js.optFind "result.data" data hasAccountPrefix = Js.Normal Js.Undefined.
Proof.
  destruct data; cbn; intros H; try contradiction; try reflexivity.
  apply findIn_none, H.
Qed.

Lemma createGroup_run name w :
  exists r,
    FdxClient.createGroup name w =
    Returns r (sent w "/groups"
                 (FdxClient.requestConfig "POST" "/groups" (Js.Obj [("name", Js.Str name)]) [])).
Proof. unfold FdxClient.createGroup. rewrite request_run. eauto. Qed.

Lemma groups_returns accountId w r w' :
  FdxClient.groups accountId w = Returns r w' ->
  exists a, Js.toStr accountId = Js.Normal a /\
    requests w' =
    (requests w ++
     [FdxClient.requestConfig "GET" ("/accounts/" ++ a ++ "/groups") Js.Undefined []])%list.
Proof.
  unfold FdxClient.groups, bind. intros H.
  destruct (Js.toStr accountId) as [a|e]; cbn in H; [|discriminate H].
  rewrite request_run in H. inversion H; subst.
  exists a. split; [reflexivity | apply requests_sent].
Qed.

(** C9.  When the group lookup succeeds and no group's name starts with
    [BC-], the requests [moveDbToGroup] issues are the lookup and one
    [POST /groups], nothing else (no request that places a database in a
    group); and when that call succeeds the operation returns its payload
    as a success. *)
Theorem missing_group_is_created_not_joined accountId accountName w groupsResult w1 :
  FdxClient.groups accountId w = Returns groupsResult w1 ->
  success groupsResult = true ->
  noPrefixedGroup (payload groupsResult) ->
  exists a created w2,
    Js.toStr accountId = Js.Normal a /\
    FdxClient.createGroup accountName w1 = Returns created w2 /\
    requests (worldOf (moveDbToGroup accountId accountName w)) =
      (requests w ++
       [FdxClient.requestConfig "GET" ("/accounts/" ++ a ++ "/groups") Js.Undefined [];
        FdxClient.requestConfig "POST" "/groups" (Js.Obj [("name", Js.Str accountName)]) []])%list /\
    (success created = true ->
     moveDbToGroup accountId accountName w = Returns (ok (payload created)) w2).
Proof.
  intros Hgroups Hok Hnone.
  destruct (groups_returns _ _ _ _ Hgroups) as (a & Ha & Hlog).
  destruct (createGroup_run accountName w1) as (created & Hcreate).
  exists a, created. eexists. split; [exact Ha|]. split; [exact Hcreate|].
  assert (Hfind : findGroup accountId w = Returns (ok Js.Undefined) w1).
  { unfold findGroup. rewrite (bind_returns _ _ _ _ _ Hgroups), Hok. cbn [negb].
    unfold bind. rewrite (optFind_none _ Hnone). reflexivity. }
  assert (Hmove : moveDbToGroup accountId accountName w =
                  (if negb (success created)
                   then failWith "Error moving db to group: " created
                   else ret (ok (payload created)))
                    (sent w1 "/groups"
                       (FdxClient.requestConfig "POST" "/groups"
                          (Js.Obj [("name", Js.Str accountName)]) []))).
  { unfold moveDbToGroup. rewrite (bind_returns _ _ _ _ _ Hfind).
    cbn [success ok negb payload data Js.truthy].
    rewrite (bind_returns _ _ _ _ _ Hcreate). reflexivity. }
  split.
  - rewrite Hmove.
    replace (worldOf _) with (sent w1 "/groups"
                       (FdxClient.requestConfig "POST" "/groups"
                          (Js.Obj [("name", Js.Str accountName)]) [])).
    + rewrite requests_sent, Hlog, <- app_assoc. reflexivity.
    + destruct (negb (success created)); [symmetry; apply failWith_world | reflexivity].
  - intros Hs. rewrite Hmove, Hs. reflexivity.
Qed.

End GroupFacts.

Lemma missing_group_is_created_not_joined_witness :
  exists a created w2,
    Js.toStr (Js.Num 1) = Js.Normal a /\
    FdxClient.createGroup (rt := Fixtures.noAccountGroup) "BC-12345"
      (Effects.worldOf (FdxClient.groups (rt := Fixtures.noAccountGroup) (Js.Num 1)
                          (Fixtures.fresh (Some "db1")))) = Effects.Returns created w2 /\
    Effects.requests
      (Effects.worldOf (FdxService.moveDbToGroup (rt := Fixtures.noAccountGroup)
                          (Js.Num 1) "BC-12345" (Fixtures.fresh (Some "db1")))) =
      (Effects.requests (Fixtures.fresh (Some "db1")) ++
       [FdxClient.requestConfig "GET" ("/accounts/" ++ a ++ "/groups") Js.Undefined [];
        FdxClient.requestConfig "POST" "/groups" (Js.Obj [("name", Js.Str "BC-12345")]) []])%list /\
    (Types.success created = true ->
     FdxService.moveDbToGroup (rt := Fixtures.noAccountGroup) (Js.Num 1) "BC-12345"
       (Fixtures.fresh (Some "db1")) = Effects.Returns (Types.ok (Types.payload created)) w2).
Proof.
  eapply (missing_group_is_created_not_joined (rt := Fixtures.noAccountGroup)
            (Js.Num 1) "BC-12345" (Fixtures.fresh (Some "db1"))).
  - vm_compute. reflexivity.
  - reflexivity.
  - cbn. repeat constructor. exists "Other". split; reflexivity.
Defined.

(** In that run the group is created and the operation succeeds with the
    new group as its payload; the database was placed nowhere. *)
Example group_created_database_not_moved :
  exists w2,
    FdxService.moveDbToGroup (rt := Fixtures.noAccountGroup) (Js.Num 1) "BC-12345"
      (Fixtures.fresh (Some "db1")) =
    Effects.Returns
      (Types.ok (Js.Obj [("id", Js.Num 2); ("name", Js.Str "BC-12345")])) w2 /\
    map Spec.route (Effects.requests w2) =
      [(Js.Str "GET", Js.Str "/accounts/1/groups"); (Js.Str "POST", Js.Str "/groups")].
Proof. eexists. split; vm_compute; reflexivity. Qed.

(* ===================================================================== *)
(** ** What the workflow does to the session *)
(* ===================================================================== *)

Section FrameRules.

Import Types Effects Spec.
Context {A B : Type} (R : Client -> Client -> Prop).
Hypothesis R_refl : forall c, R c c.
Hypothesis R_trans : forall a b c, R a b -> R b c -> R a c.

Lemma frames_ret (a : A) : Frames R (ret a).
Proof. intros w. apply R_refl. Qed.

Lemma frames_throw e : Frames R (@throw A e).
Proof. intros w. apply R_refl. Qed.

Lemma frames_lift (c : Js.Completion A) : Frames R (lift c).
Proof. destruct c; [apply frames_ret | apply frames_throw]. Qed.

Lemma frames_bind (m : M A) (k : A -> M B) :
  Frames R m -> (forall a, Frames R (k a)) -> Frames R (bind m k).
Proof.
  intros Hm Hk w. unfold bind. specialize (Hm w).
  destruct (m w) as [a w'|e w']; cbn in *; [|exact Hm].
  eapply R_trans; [exact Hm | apply Hk].
Qed.

End FrameRules.

Section FrameFacts.

Import Types Effects Spec FdxService FdxService.Setup.
Context {rt : Runtime}.

Lemma sameSettings_refl c : sameSettings c c.
Proof. repeat split. Qed.

Lemma sameSettings_trans a b c : sameSettings a b -> sameSettings b c -> sameSettings a c.
Proof.
  unfold sameSettings. intros (H1 & H2 & H3 & H4 & H5) (K1 & K2 & K3 & K4 & K5).
  repeat split; congruence.
Qed.

Lemma frames_request method url data config :
  Frames eq (FdxClient.request method url data config).
Proof. intros w. rewrite request_run. cbn [worldOf]. now rewrite this_sent. Qed.

Lemma frames_self : Frames eq self.
Proof. intros w. reflexivity. Qed.

Lemma frames_now : Frames eq now.
Proof. intros w. reflexivity. Qed.

Lemma frames_eq_ret {A} (a : A) : Frames eq (ret a).
Proof. apply frames_ret. reflexivity. Qed.

Lemma frames_eq_lift {A} (c : Js.Completion A) : Frames eq (lift c).
Proof. apply frames_lift. reflexivity. Qed.

Lemma frames_eq_bind {A B} (m : M A) (k : A -> M B) :
  Frames eq m -> (forall a, Frames eq (k a)) -> Frames eq (bind m k).
Proof. apply frames_bind. intros; congruence. Qed.

Ltac frame_step :=
  first
    [ apply frames_request
    | apply frames_self
    | apply frames_now
    | apply frames_eq_ret
    | apply frames_eq_lift
    | match goal with
      | |- Frames _ (if ?b then _ else _) => destruct b
      | |- Frames _ (match ?o with Some _ => _ | None => _ end) => destruct o
      end
    | apply frames_eq_bind; [|intros] ].

(** No operation of the client that returns an envelope changes the
    client object. *)
Lemma frames_client op : Frames eq (FdxClient.run op).
Proof.
  destruct op; cbn [FdxClient.run];
    unfold FdxClient.invitePrimaryUser, FdxClient.applyAutomateBuildTemplate,
      FdxClient.feedBuild, FdxClient.cancelBuild, FdxClient.accounts, FdxClient.dbs,
      FdxClient.createDb, FdxClient.deleteDb, FdxClient.vault, FdxClient.createVault,
      FdxClient.updateVault, FdxClient.deleteVault, FdxClient.ftpAccounts,
      FdxClient.createFtpAccounts, FdxClient.imports, FdxClient.createImport,
      FdxClient.updateImport, FdxClient.updateImportSchedule, FdxClient.exports,
      FdxClient.createExport, FdxClient.updateExport, FdxClient.scheduleExport,
      FdxClient.transformers, FdxClient.createTransformer, FdxClient.updateTransformer,
      FdxClient.updateDbFields, FdxClient.createJoinImport, FdxClient.joinImports,
      FdxClient.groups, FdxClient.createGroup, FdxClient.moveDbToGroup, FdxClient.login,
      FdxClient.createBigCommerceAccount, FdxClient.moveDbintoNewDbGroup,
      FdxClient.moveDbFromSourceToTargetDbGroup, FdxClient.addDbVaultEntry,
      FdxClient.dbFields, FdxClient.deleteDbField;
    repeat frame_step.
Qed.

Lemma frames_failWith label r : Frames eq (failWith label r).
Proof. unfold failWith. repeat frame_step. Qed.

Lemma frames_returnFailure label r : Frames eq (returnFailure label r).
Proof.
  unfold returnFailure. apply frames_eq_bind; [apply frames_failWith|].
  intros. apply frames_eq_ret.
Qed.

Ltac step_frame :=
  first
    [ apply frames_returnFailure
    | apply (frames_client (FdxClient.CreateBigCommerceAccount _))
    | apply (frames_client (FdxClient.InvitePrimaryUser _ _))
    | apply (frames_client (FdxClient.MoveDbintoNewDbGroup _ _))
    | apply (frames_client (FdxClient.AddDbVaultEntry _ _))
    | apply (frames_client (FdxClient.CreateImport _))
    | apply (frames_client (FdxClient.UpdateImportSchedule _ _))
    | apply (frames_client (FdxClient.ApplyAutomateBuildTemplate _ _))
    | frame_step ].

(** Every step but the creation of the database leaves the client object
    as it is. *)
Lemma frames_runStep_eq s params l :
  s <> CreateDatabase -> Frames eq (runStep s params l).
Proof.
  intros Hs. destruct s; try congruence; cbn [runStep];
    unfold createAccountStep, inviteUserStep, moveToGroupStep, addVaultEntryStep,
      createImportStep, setScheduleStep, applyTemplateStep;
    repeat step_frame.
Qed.

Lemma frames_setDbId id : Frames sameSettings (FdxClient.setDbId id).
Proof. intros w. cbn. repeat split. Qed.

Lemma frames_weaken {A} (m : M A) : Frames eq m -> Frames sameSettings m.
Proof. intros H w. rewrite <- (H w). apply sameSettings_refl. Qed.

Lemma frames_runStep s params l : Frames sameSettings (runStep s params l).
Proof.
  destruct s;
    try (apply frames_weaken, frames_runStep_eq; discriminate).
  cbn [runStep]. unfold createDatabaseStep.
  apply frames_bind; [exact sameSettings_trans | |].
  { apply frames_weaken, (frames_client (FdxClient.CreateDb _ _)). }
  intros dbResult. destruct (failedOrNoId dbResult).
  { apply frames_weaken, frames_returnFailure. }
  apply frames_bind; [exact sameSettings_trans | apply frames_weaken, frames_eq_lift |].
  intros id.
  apply frames_bind; [exact sameSettings_trans | apply frames_weaken, frames_eq_lift |].
  intros text.
  apply frames_bind; [exact sameSettings_trans | apply frames_setDbId |].
  intros _. apply frames_weaken, frames_eq_ret.
Qed.

Lemma frames_runSteps (R : Client -> Client -> Prop) ss params l :
  (forall c, R c c) -> (forall a b c, R a b -> R b c -> R a c) ->
  (forall s l', In s ss -> Frames R (runStep s params l')) ->
  Frames R (runSteps ss params l).
Proof.
  intros Hrefl Htrans. revert l. induction ss as [|s ss IH]; intros l Hss; cbn [runSteps].
  - apply frames_ret, Hrefl.
  - apply frames_bind; [exact Htrans | apply Hss; now left |].
    intros [l'|r]; [apply IH; intros; apply Hss; now right | apply frames_ret, Hrefl].
Qed.

(** The world the workflow leaves is the world its steps leave. *)
Lemma setup_world params w :
  worldOf (setupBigCommerceIntegration params w) = worldOf (runSteps steps params start w).
Proof.
  unfold setupBigCommerceIntegration, tryCatch, setupBody, bind.
  destruct (runSteps steps params start w) as [[l|r] w'|e w']; reflexivity.
Qed.

(** When the database step goes on, it has made the new database the
    active one. *)
Lemma createDatabaseStep_continue params l0 w l w' :
  createDatabaseStep params l0 w = Returns (Continue l) w' ->
  exists text,
    Js.callToString "dbId" (Setup.dbId l) = Js.Normal text /\
    Effects.dbId (this w') = Some text.
Proof.
  unfold createDatabaseStep. intros H.
  apply bind_inv in H. destruct H as (dbResult & w1 & _ & H).
  destruct (failedOrNoId dbResult).
  { unfold returnFailure in H. apply bind_inv in H. destruct H as (r & w2 & _ & H).
    inversion H. }
  apply bind_inv in H. destruct H as (id & w2 & Hid & H).
  apply bind_inv in H. destruct H as (text & w3 & Htext & H).
  apply bind_inv in H. destruct H as ([] & w4 & Hset & H).
  apply lift_inv in Htext. destruct Htext as [Htext _].
  inversion H; subst. exists text. split; [exact Htext|].
  unfold FdxClient.setDbId, bind, self, setThis in Hset. inversion Hset. reflexivity.
Qed.

(** C10.  However the workflow ends, every session field other than the
    active database is what it was.  And once the first three steps went
    through, the active database is the text of the new database's
    identifier from then on: it is so in the world the database step
    leaves and in the world the workflow leaves, whether the later steps
    succeed, report a failure or throw. *)
Theorem created_database_stays_active params w :
  sameSettings (this w) (this (worldOf (setupBigCommerceIntegration params w))) /\
  (forall l w3,
      runSteps (before MoveToGroup) params start w = Returns (Continue l) w3 ->
      exists text,
        Js.callToString "dbId" (Setup.dbId l) = Js.Normal text /\
        Effects.dbId (this w3) = Some text /\
        Effects.dbId (this (worldOf (setupBigCommerceIntegration params w))) = Some text).
Proof.
  rewrite setup_world. split.
  - apply (frames_runSteps sameSettings);
      [exact sameSettings_refl | exact sameSettings_trans | intros; apply frames_runStep].
  - intros l w3 Hdb.
    assert (Hstep : exists l2 w2, createDatabaseStep params l2 w2 = Returns (Continue l) w3).
    { change (before MoveToGroup) with (before CreateDatabase ++ [CreateDatabase])%list in Hdb.
      rewrite runSteps_app in Hdb.
      destruct (runSteps (before CreateDatabase) params start w) as [[l2|r] w2|e w2];
        try discriminate Hdb.
      exists l2, w2. cbn [runSteps runStep] in Hdb. unfold bind in Hdb.
      destruct (createDatabaseStep params l2 w2) as [[l'|r] w'|e w']; cbn in Hdb;
        inversion Hdb; subst; reflexivity. }
    destruct Hstep as (l2 & w2 & Hstep).
    destruct (createDatabaseStep_continue _ _ _ _ _ Hstep) as (text & Htext & Hactive).
    exists text. split; [exact Htext|]. split; [exact Hactive|].
    rewrite (steps_split MoveToGroup), runSteps_app, Hdb.
    assert (Hrest : Frames eq
              (runSteps (MoveToGroup :: skipn (S (List.length (before MoveToGroup))) steps)
                 params l)).
    { apply frames_runSteps; [reflexivity | intros; congruence |].
      intros s l' Hin. apply frames_runStep_eq. intros ->.
      cbn in Hin. repeat (destruct Hin as [Hin|Hin]; [discriminate Hin|]). exact Hin. }
    rewrite <- (Hrest w3). exact Hactive.
Qed.

End FrameFacts.

Lemma created_database_stays_active_witness :
  Effects.dbId (Effects.this (Fixtures.fresh (Some "previous-db"))) = Some "previous-db" /\
  FdxService.setupBigCommerceIntegration (rt := Fixtures.groupMoveRefused) Fixtures.storeParams
    (Fixtures.fresh (Some "previous-db")) =
    Effects.Returns (Types.failure "Failed to move database to group: API error")
      (Effects.worldOf
         (FdxService.setupBigCommerceIntegration (rt := Fixtures.groupMoveRefused)
            Fixtures.storeParams (Fixtures.fresh (Some "previous-db")))) /\
  exists text,
    Js.callToString "dbId" (Js.Str "5678") = Js.Normal text /\
    Effects.dbId
      (Effects.this
         (Effects.worldOf
            (FdxService.runSteps (rt := Fixtures.groupMoveRefused)
               (FdxService.before FdxService.MoveToGroup) Fixtures.storeParams
               FdxService.Setup.start (Fixtures.fresh (Some "previous-db"))))) = Some text /\
    Effects.dbId
      (Effects.this
         (Effects.worldOf
            (FdxService.setupBigCommerceIntegration (rt := Fixtures.groupMoveRefused)
               Fixtures.storeParams (Fixtures.fresh (Some "previous-db"))))) = Some text.
Proof.
  split; [reflexivity|]. split; [vm_compute; reflexivity|].
  apply (proj2 (created_database_stays_active (rt := Fixtures.groupMoveRefused)
                  Fixtures.storeParams (Fixtures.fresh (Some "previous-db")))
           {| FdxService.Setup.accountId := Js.Str "1234";
              FdxService.Setup.dbId := Js.Str "5678";
              FdxService.Setup.vaultId := Js.Undefined;
              FdxService.Setup.importId := Js.Undefined |}).
  vm_compute. reflexivity.
Defined.

(* ===================================================================== *)
(** ** Failures inside the get-or-create operations *)
(* ===================================================================== *)

Section ShortCircuit.

Import Types Effects Spec FdxService.
Context {rt : Runtime}.

Lemma retrieveAccounts_failure r msg w w1 :
  FdxClient.accounts w = Returns r w1 -> success r = false ->
  Js.toStr (errorOf r) = Js.Normal msg ->
  retrieveAccounts w = Returns (failure ("Error getting accounts: " ++ msg)) w1.
Proof.
  intros Hfetch Hfail Hmsg. unfold retrieveAccounts, bind at 1. rewrite Hfetch, Hfail.
  cbn [negb]. now apply failWith_run.
Qed.

Lemma findGroup_failure accountId r msg w w1 :
  FdxClient.groups accountId w = Returns r w1 -> success r = false ->
  Js.toStr (errorOf r) = Js.Normal msg ->
  findGroup accountId w = Returns (failure ("Error getting db groups: " ++ msg)) w1.
Proof.
  intros Hfetch Hfail Hmsg. unfold findGroup, bind at 1. rewrite Hfetch, Hfail.
  cbn [negb]. now apply failWith_run.
Qed.

Lemma getExistingExport_failure r msg w w1 :
  FdxClient.exports w = Returns r w1 -> success r = false ->
  Js.toStr (errorOf r) = Js.Normal msg ->
  getExistingExport w = Returns (failure ("Error getting exports: " ++ msg)) w1.
Proof.
  intros Hfetch Hfail Hmsg. unfold getExistingExport, bind at 1. rewrite Hfetch, Hfail.
  cbn [negb]. now apply failWith_run.
Qed.

Lemma retrieveImport_failure r msg w w1 :
  FdxClient.imports w = Returns r w1 -> success r = false ->
  Js.toStr (errorOf r) = Js.Normal msg ->
  retrieveImport w = Returns (failure ("Error getting imports: " ++ msg)) w1.
Proof.
  intros Hfetch Hfail Hmsg. unfold retrieveImport, bind at 1. rewrite Hfetch, Hfail.
  cbn [negb]. now apply failWith_run.
Qed.

(** For accounts, groups, exports and vault entries, a failed listing ends
    the operation: it returns the failure under the label of the listing
    (the export operation adds its own in front), in the world the listing
    left, so that nothing is requested after it. *)
Theorem sibling_fetch_failure_short_circuits r msg w w1 :
  success r = false ->
  Js.toStr (errorOf r) = Js.Normal msg ->
  (forall storeId name,
      getAccountName storeId = Js.Normal name ->
      FdxClient.accounts w = Returns r w1 ->
      getOrCreateAccount storeId w =
      Returns (failure ("Error getting accounts: " ++ msg)) w1) /\
  (forall accountId name,
      FdxClient.groups accountId w = Returns r w1 ->
      moveDbToGroup accountId name w =
      Returns (failure ("Error getting db groups: " ++ msg)) w1) /\
  (forall ftp filename slot,
      FdxClient.exports w = Returns r w1 ->
      createOrUpdateExport ftp filename slot w =
      Returns (failure ("Getting existing export: " ++ "Error getting exports: " ++ msg)) w1) /\
  (forall token,
      FdxClient.vault w = Returns r w1 ->
      updateVaultEntries token w =
      Returns (failure ("Error getting vaults: " ++ msg)) w1).
Proof.
  intros Hfail Hmsg. split; [|split; [|split]].
  - intros storeId name Hname Hfetch. unfold getOrCreateAccount.
    rewrite Hname. unfold bind at 1. cbn [lift ret]. unfold bind at 1.
    now rewrite (retrieveAccounts_failure _ _ _ _ Hfetch Hfail Hmsg).
  - intros accountId name Hfetch. unfold moveDbToGroup, bind at 1.
    now rewrite (findGroup_failure _ _ _ _ _ Hfetch Hfail Hmsg).
  - intros ftp filename slot Hfetch. unfold createOrUpdateExport, bind at 1.
    rewrite (getExistingExport_failure _ _ _ _ Hfetch Hfail Hmsg).
    cbn [success failure negb]. now apply failWith_run.
  - intros token Hfetch. unfold updateVaultEntries, bind at 1.
    rewrite Hfetch, Hfail. cbn [negb]. now apply failWith_run.
Qed.

(** For imports the failed listing is reported by [retrieveImport], but
    [createOrUpdateImport] tests [success && data] only to choose the
    update: on a failed listing it goes on exactly as the creation of a
    new import does, from the world the listing left. *)
Theorem import_fetch_failure_falls_through user channelId isCreate cfg r msg w w1 :
  buildImportConfig user channelId isCreate = Js.Normal cfg ->
  FdxClient.imports w = Returns r w1 ->
  success r = false ->
  Js.toStr (errorOf r) = Js.Normal msg ->
  retrieveImport w = Returns (failure ("Error getting imports: " ++ msg)) w1 /\
  createOrUpdateImport user channelId isCreate w =
  (result <- FdxClient.createImport cfg ;;
   if negb (success result) then failWith "Error creating import: " result
   else ret (ok (payload result))) w1.
Proof.
  intros Hcfg Hfetch Hfail Hmsg.
  pose proof (retrieveImport_failure _ _ _ _ Hfetch Hfail Hmsg) as Hret.
  split; [exact Hret|].
  unfold createOrUpdateImport. rewrite Hcfg. unfold bind at 1. cbn [lift ret].
  unfold bind at 1. rewrite Hret. reflexivity.
Qed.

(** Once the listing of the imports succeeded, a failed update and a
    failed creation end [createOrUpdateImport] with the failure under the
    label of the stage, in the world the failed call left. *)
Theorem import_write_failure_short_circuits user channelId isCreate cfg found r msg w w1 w2 :
  buildImportConfig user channelId isCreate = Js.Normal cfg ->
  retrieveImport w = Returns found w1 ->
  success found = true ->
  success r = false ->
  Js.toStr (errorOf r) = Js.Normal msg ->
  (forall importId,
      Js.truthy (payload found) = true ->
      Js.get (payload found) "id" = Js.Normal importId ->
      FdxClient.updateImport importId cfg w1 = Returns r w2 ->
      createOrUpdateImport user channelId isCreate w =
      Returns (failure ("Error updating import: " ++ msg)) w2) /\
  (Js.truthy (payload found) = false ->
   FdxClient.createImport cfg w1 = Returns r w2 ->
   createOrUpdateImport user channelId isCreate w =
   Returns (failure ("Error creating import: " ++ msg)) w2).
Proof.
  intros Hcfg Hfound Hok Hfail Hmsg. split.
  - intros importId Htruthy Hid Hupdate.
    unfold createOrUpdateImport. rewrite Hcfg. unfold bind at 1. cbn [lift ret].
    unfold bind at 1. rewrite Hfound, Hok, Htruthy. cbn [andb].
    rewrite Hid. unfold bind at 1. cbn [lift ret]. unfold bind at 1.
    rewrite Hupdate, Hfail. cbn [negb]. now apply failWith_run.
  - intros Hfalsy Hcreate.
    unfold createOrUpdateImport. rewrite Hcfg. unfold bind at 1. cbn [lift ret].
    unfold bind at 1. rewrite Hfound, Hok, Hfalsy. cbn [andb].
    unfold bind at 1. rewrite Hcreate, Hfail. cbn [negb]. now apply failWith_run.
Qed.

End ShortCircuit.

(** C4.  The claim fails for imports.  The listing of the imports is
    refused, and [retrieveImport] reports it under its label after one
    request; [createOrUpdateImport], run from the same world, does not
    return that failure: it sends the creation as a second request and
    returns the new import as a success.  The operations for accounts,
    groups, exports and vault entries stop at the failed listing. *)
Theorem import_fetch_failure_still_creates :
  exists w1 w2,
    FdxService.retrieveImport (rt := Fixtures.importsLookupRefused)
      (Fixtures.fresh (Some "db1")) =
      Effects.Returns (Types.failure "Error getting imports: API error") w1 /\
    map Spec.route (Effects.requests w1) = [(Js.Str "GET", Js.Str "/dbs/db1/imports")] /\
    FdxService.createOrUpdateImport (rt := Fixtures.importsLookupRefused) Fixtures.someUser
      (Js.Num 1) true (Fixtures.fresh (Some "db1")) =
      Effects.Returns (Types.ok (Js.Obj [("id", Js.Num 9)])) w2 /\
    map Spec.route (Effects.requests w2) =
      [(Js.Str "GET", Js.Str "/dbs/db1/imports"); (Js.Str "POST", Js.Str "/dbs/db1/imports")].
Proof.
  eexists. eexists. split; [vm_compute; reflexivity|].
  split; [vm_compute; reflexivity|].
  split; vm_compute; reflexivity.
Qed.

Lemma sibling_fetch_failure_short_circuits_witness :
  FdxService.getOrCreateAccount (rt := Fixtures.lookupRefused) (Js.Str "abc123")
    (Fixtures.fresh None) =
  Effects.Returns (Types.failure "Error getting accounts: API error")
    (Effects.worldOf (FdxClient.accounts (rt := Fixtures.lookupRefused) (Fixtures.fresh None))).
Proof.
  refine (proj1 (sibling_fetch_failure_short_circuits (rt := Fixtures.lookupRefused)
                   {| Types.success := false; Types.data := None;
                      Types.error := Some (Js.Str "API error"); Types.status := Some 500 |}
                   "API error" (Fixtures.fresh None) _ eq_refl eq_refl)
            (Js.Str "abc123") "BC-abc123" eq_refl _).
  vm_compute. reflexivity.
Defined.

Lemma import_fetch_failure_falls_through_witness :
  FdxService.retrieveImport (rt := Fixtures.importsLookupRefused) (Fixtures.fresh (Some "db1")) =
    Effects.Returns (Types.failure "Error getting imports: API error")
      (Effects.worldOf
         (FdxClient.imports (rt := Fixtures.importsLookupRefused) (Fixtures.fresh (Some "db1")))) /\
  exists cfg,
    FdxService.buildImportConfig Fixtures.someUser (Js.Num 1) true = Js.Normal cfg /\
    FdxService.createOrUpdateImport (rt := Fixtures.importsLookupRefused) Fixtures.someUser
      (Js.Num 1) true (Fixtures.fresh (Some "db1")) =
    Effects.bind (FdxClient.createImport (rt := Fixtures.importsLookupRefused) cfg)
      (fun result =>
         if negb (Types.success result)
         then FdxService.failWith "Error creating import: " result
         else Effects.ret (Types.ok (Types.payload result)))
      (Effects.worldOf
         (FdxClient.imports (rt := Fixtures.importsLookupRefused) (Fixtures.fresh (Some "db1")))).
Proof.
  assert (Hcfg : { cfg | FdxService.buildImportConfig Fixtures.someUser (Js.Num 1) true
                         = Js.Normal cfg }).
  { eexists. vm_compute. reflexivity. }
  destruct Hcfg as [cfg Hcfg].
  pose proof (import_fetch_failure_falls_through (rt := Fixtures.importsLookupRefused)
                Fixtures.someUser (Js.Num 1) true cfg
                {| Types.success := false; Types.data := None;
                   Types.error := Some (Js.Str "API error"); Types.status := Some 500 |}
                "API error" (Fixtures.fresh (Some "db1")) _ Hcfg eq_refl eq_refl eq_refl)
    as [H1 H2].
  split; [exact H1|]. exists cfg. split; [exact Hcfg | exact H2].
Defined.

Lemma import_write_failure_short_circuits_witness :
  FdxService.createOrUpdateImport (rt := Fixtures.updateRefused Fixtures.existingImport)
    Fixtures.someUser (Js.Num 1) true (Fixtures.fresh (Some "db1")) =
  Effects.Returns (Types.failure "Error updating import: Invalid import")
    (Effects.worldOf
       (FdxService.createOrUpdateImport (rt := Fixtures.updateRefused Fixtures.existingImport)
          Fixtures.someUser (Js.Num 1) true (Fixtures.fresh (Some "db1")))).
Proof.
  refine (proj1 (import_write_failure_short_circuits
                   (rt := Fixtures.updateRefused Fixtures.existingImport)
                   Fixtures.someUser (Js.Num 1) true _ (Types.ok Fixtures.existingImport)
                   {| Types.success := false; Types.data := None;
                      Types.error := Some (Js.Str "Invalid import"); Types.status := Some 422 |}
                   "Invalid import" (Fixtures.fresh (Some "db1")) _ _ _ _ eq_refl eq_refl eq_refl)
            (Js.Num 7) eq_refl eq_refl _);
    vm_compute; reflexivity.
Defined.

Lemma request_envelope_default_validateStatus_witness :
  FdxClient.request (rt := Fixtures.notFound) "GET" "/user/accounts" Js.Undefined []
    (Fixtures.fresh None) =
  Effects.Returns
    {| Types.success := false; Types.data := None;
       Types.error := Some (Js.Str "No such account"); Types.status := Some 404 |}
    (Spec.sent (Fixtures.fresh None) "/user/accounts"
       (FdxClient.requestConfig "GET" "/user/accounts" Js.Undefined [])).
Proof.
  apply (request_envelope_default_validateStatus (rt := Fixtures.notFound)
           "GET" "/user/accounts" Js.Undefined [] (Fixtures.fresh None)
           {| Axios.status := 404;
              Axios.data := Js.Obj [("message", Js.Str "No such account")] |}).
  - intros r H. vm_compute in H. discriminate H.
  - right. eexists. split; vm_compute; reflexivity.
  - unfold Spec.in2xx. cbn. lia.
Defined.

(* ===================================================================== *)
(** ** The traffic of the client *)
(* ===================================================================== *)

Section ClientTraffic.

Import Types Effects Spec.
Context {rt : Runtime}.

Lemma atMostOnce_request scoped method url data config :
  AtMostOnce scoped (FdxClient.request method url data config).
Proof.
  intros w. rewrite request_run. split; [apply this_sent|].
  right. eexists. apply requests_sent.
Qed.

Lemma atMostOnce_lift {A} scoped (c : Js.Completion A) k :
  (forall a, AtMostOnce scoped (k a)) -> AtMostOnce scoped (bind (lift c) k).
Proof.
  intros Hk w. destruct c as [a|e]; cbn; [apply Hk | reflexivity].
Qed.

Lemma atMostOnce_guard (k : Client -> M ServiceResponse) :
  (forall c, AtMostOnce true (k c)) ->
  AtMostOnce true
    (c <- self ;; if FdxClient.noDbId c then ret FdxClient.dbIdRequired else k c).
Proof.
  intros Hk w. unfold bind, self.
  destruct (FdxClient.noDbId (this w)) eqn:Hno.
  - cbn. split; [reflexivity|]. left. auto.
  - specialize (Hk (this w) w). rewrite Hno in Hk. exact Hk.
Qed.

Ltac traffic :=
  repeat first
    [ apply atMostOnce_request
    | apply atMostOnce_guard; intros
    | apply atMostOnce_lift; intros ].

(** Every operation of the client that returns an envelope hands at most
    one request to axios and leaves the client object as it is.  It sends
    nothing in two cases only: when an identifier that goes into the path
    cannot be printed, and the call throws before anything happened; and
    when the operation is database-scoped and the active database is
    unset, and the call returns the guard's envelope. *)
Theorem client_operation_sends_at_most_one_request op w :
  match FdxClient.run op w with
  | Throws _ w' => w' = w
  | Returns r w' =>
      this w' = this w /\
      ((FdxClient.dbScoped op = true /\ FdxClient.noDbId (this w) = true /\
        r = FdxClient.dbIdRequired /\ w' = w) \/
       exists req, requests w' = (requests w ++ [req])%list)
  end.
Proof.
  revert w. change (AtMostOnce (FdxClient.dbScoped op) (FdxClient.run op)).
  destruct op; cbn [FdxClient.run FdxClient.dbScoped];
    unfold FdxClient.invitePrimaryUser, FdxClient.applyAutomateBuildTemplate,
      FdxClient.feedBuild, FdxClient.cancelBuild, FdxClient.accounts, FdxClient.dbs,
      FdxClient.createDb, FdxClient.deleteDb, FdxClient.vault, FdxClient.createVault,
      FdxClient.updateVault, FdxClient.deleteVault, FdxClient.ftpAccounts,
      FdxClient.createFtpAccounts, FdxClient.imports, FdxClient.createImport,
      FdxClient.updateImport, FdxClient.updateImportSchedule, FdxClient.exports,
      FdxClient.createExport, FdxClient.updateExport, FdxClient.scheduleExport,
      FdxClient.transformers, FdxClient.createTransformer, FdxClient.updateTransformer,
      FdxClient.updateDbFields, FdxClient.createJoinImport, FdxClient.joinImports,
      FdxClient.groups, FdxClient.createGroup, FdxClient.moveDbToGroup, FdxClient.login,
      FdxClient.createBigCommerceAccount, FdxClient.moveDbintoNewDbGroup,
      FdxClient.moveDbFromSourceToTargetDbGroup, FdxClient.addDbVaultEntry,
      FdxClient.dbFields, FdxClient.deleteDbField;
    traffic.
Qed.

Lemma noDbId_some id c : id <> "" -> dbId c = Some id -> FdxClient.noDbId c = false.
Proof.
  intros Hid Hc. unfold FdxClient.noDbId. rewrite Hc. cbn.
  destruct (String.eqb_spec id ""); [contradiction | reflexivity].
Qed.

(** A guarded operation, called with the database [id] selected, is its
    request. *)
Lemma guarded_request_route id (k : Client -> M ServiceResponse) w r w' :
  id <> "" -> dbId (this w) = Some id ->
  (forall w1 r1 w2,
      dbId (this w1) = Some id -> k (this w1) w1 = Returns r1 w2 ->
      exists req rest,
        requests w2 = (requests w1 ++ [req])%list /\
        Js.prop req "url" = Js.Str ("/dbs/" ++ id ++ "/" ++ rest) /\ this w2 = this w1) ->
  (c <- self ;; if FdxClient.noDbId c then ret FdxClient.dbIdRequired else k c) w = Returns r w' ->
  exists req rest,
    requests w' = (requests w ++ [req])%list /\
    Js.prop req "url" = Js.Str ("/dbs/" ++ id ++ "/" ++ rest) /\ this w' = this w.
Proof.
  intros Hid Hdb Hk H. unfold bind, self in H.
  rewrite (noDbId_some id _ Hid Hdb) in H. eapply Hk; eauto.
Qed.

Ltac printed H :=
  match type of H with
  | bind (lift ?c) _ _ = Returns _ _ =>
      let Hl := fresh "Hprinted" in
      apply bind_inv in H; destruct H as (? & ? & Hl & H);
      apply lift_inv in Hl; destruct Hl as [_ ->]
  end.

(** [setDbId] and the database-scoped operations compose: an operation
    called after [setDbId(id)], for a text [id] that is not empty, passes
    its guard and sends its one request to a path under [/dbs/id/],
    whatever database was active before; [id] is still the active
    database afterwards and no other session field has changed. *)
Theorem database_scoped_operation_targets_active_database op id w r w' :
  FdxClient.dbScoped op = true ->
  id <> "" ->
  (FdxClient.setDbId id ;;; FdxClient.run op) w = Returns r w' ->
  dbId (this w') = Some id /\
  sameSettings (this w) (this w') /\
  exists req rest,
    requests w' = (requests w ++ [req])%list /\
    Js.prop req "url" = Js.Str ("/dbs/" ++ id ++ "/" ++ rest).
Proof.
  intros Hop Hid H.
  apply bind_inv in H. destruct H as ([] & w1 & Hset & H).
  unfold FdxClient.setDbId, bind, self, setThis in Hset. inversion Hset as [Hw1]. clear Hset.
  assert (Hdb : dbId (this w1) = Some id) by (subst w1; reflexivity).
  assert (Hreq : requests w1 = requests w) by (subst w1; reflexivity).
  assert (Hsame : sameSettings (this w) (this w1)) by (subst w1; repeat split).
  clear Hw1.
  assert (Hgoal : exists req rest,
             requests w' = (requests w1 ++ [req])%list /\
             Js.prop req "url" = Js.Str ("/dbs/" ++ id ++ "/" ++ rest) /\ this w' = this w1).
  { destruct op; cbn in Hop; try discriminate Hop; cbn [FdxClient.run] in H;
      unfold FdxClient.applyAutomateBuildTemplate, FdxClient.feedBuild, FdxClient.cancelBuild,
        FdxClient.ftpAccounts, FdxClient.createFtpAccounts, FdxClient.imports,
        FdxClient.createImport, FdxClient.updateImport, FdxClient.updateImportSchedule,
        FdxClient.exports, FdxClient.createExport, FdxClient.updateExport,
        FdxClient.scheduleExport, FdxClient.transformers, FdxClient.createTransformer,
        FdxClient.updateTransformer, FdxClient.updateDbFields, FdxClient.createJoinImport,
        FdxClient.joinImports in H;
      (eapply (guarded_request_route id); [exact Hid | exact Hdb | | exact H]);
      intros w2 r2 w3 Hc Hk; unfold FdxClient.dbIdText in Hk; rewrite Hc in Hk;
      cbn [text] in Hk; repeat printed Hk;
      rewrite request_run in Hk; inversion Hk; subst;
      eexists; eexists; (split; [apply requests_sent|]);
      (split; [reflexivity | apply this_sent]). }
  destruct Hgoal as (req & rest & Hlog & Hurl & Hthis).
  split; [rewrite Hthis; exact Hdb|].
  split; [rewrite Hthis; exact Hsame|].
  exists req, rest. split; [rewrite Hlog, Hreq; reflexivity | exact Hurl].
Qed.

(** When axios rejects a request without a response (the network is down,
    the request timed out), [request] returns a failure envelope without
    status code whose error is the message of the rejection, or
    ['Network error'] when the rejection has none. *)
Theorem request_without_response method url data config w failure :
  axios (client (this w)) (requests w) (FdxClient.requestConfig method url data config) =
    Axios.Rejected failure ->
  Axios.response failure = None ->
  FdxClient.request method url data config w =
  Returns {| success := false; Types.data := None;
             error := Some (Js.Str (if (Axios.message failure =? "")%string
                                    then "Network error" else Axios.message failure));
             status := None |}
          (sent w url (FdxClient.requestConfig method url data config)).
Proof.
  intros Hanswer Hnone. rewrite request_run, Hanswer.
  unfold FdxClient.rejected. rewrite Hnone. reflexivity.
Qed.

End ClientTraffic.

Lemma database_scoped_operation_targets_active_database_witness :
  let w' :=
    Effects.worldOf
      (Effects.bind (FdxClient.setDbId "db42")
         (fun _ => FdxClient.run (rt := Fixtures.emptyListing) FdxClient.Imports)
         (Fixtures.fresh (Some "previous-db"))) in
  Effects.dbId (Effects.this w') = Some "db42" /\
  Spec.sameSettings (Effects.this (Fixtures.fresh (Some "previous-db"))) (Effects.this w') /\
  exists req rest,
    Effects.requests w' = [req] /\ Js.prop req "url" = Js.Str ("/dbs/db42/" ++ rest).
Proof.
  cbn zeta.
  eapply (database_scoped_operation_targets_active_database (rt := Fixtures.emptyListing)
            FdxClient.Imports "db42" (Fixtures.fresh (Some "previous-db")));
    [reflexivity | discriminate | vm_compute; reflexivity].
Defined.

Lemma request_without_response_witness :
  FdxClient.request (rt := Fixtures.scripted []) "GET" "/user/accounts" Js.Undefined []
    (Fixtures.fresh None) =
  Effects.Returns (Types.failure "Network Error")
    (Spec.sent (Fixtures.fresh None) "/user/accounts"
       (FdxClient.requestConfig "GET" "/user/accounts" Js.Undefined [])).
Proof.
  apply (request_without_response (rt := Fixtures.scripted [])
           "GET" "/user/accounts" Js.Undefined [] (Fixtures.fresh None)
           {| Axios.response := None; Axios.message := "Network Error" |});
    reflexivity.
Defined.

(* ===================================================================== *)
(** ** The constructor *)
(* ===================================================================== *)

(** The constructor throws for an absent configuration and for an empty
    token, with a message for each, and nothing else makes it throw.  The
    client it returns has the configured token, not empty, which is what
    the [x-api-key] header of its axios instance carries.  Its base URL,
    which is also the one of its axios instance, is the configured one
    whenever one is configured and not empty, and the default when none is
    configured or the configured one is empty.  The timeout of its axios
    instance is the configured one whenever one is configured and not
    zero, and 60000 when none is configured or the configured one is zero:
    a timeout of zero cannot be configured.  It is verbose exactly when
    the configuration says so. *)
Theorem constructor_outcomes cfg :
  match FdxClient.new cfg with
  | Js.Abrupt e =>
      (cfg = None /\ e = Js.Error "Config is required") \/
      (exists config, cfg = Some config /\ Types.cfgApiToken config = "" /\
                      e = Js.Error "API key is required")
  | Js.Normal c =>
      exists config,
        cfg = Some config /\
        Effects.apiToken c = Types.cfgApiToken config /\ Effects.apiToken c <> "" /\
        Effects.dbId c = Types.cfgDbId config /\
        Axios.headers (Effects.client c) =
          [("Content-Type", "application/json"); ("Accept", "application/json");
           ("x-api-key", Effects.apiToken c)] /\
        Axios.baseURL (Effects.client c) = Effects.baseUrl c /\ Effects.baseUrl c <> "" /\
        (forall url, Types.cfgBaseUrl config = Some url -> url <> "" ->
                     Effects.baseUrl c = url) /\
        (Types.cfgBaseUrl config = None \/ Types.cfgBaseUrl config = Some "" ->
         Effects.baseUrl c = "https://meta.feedonomics.com/api.php") /\
        Axios.timeout (Effects.client c) <> 0 /\
        (forall t, Types.cfgTimeout config = Some t -> t <> 0 ->
                   Axios.timeout (Effects.client c) = t) /\
        (Types.cfgTimeout config = None \/ Types.cfgTimeout config = Some 0 ->
         Axios.timeout (Effects.client c) = 60000) /\
        (Effects.verbose c = true <-> Types.cfgVerbose config = Some true)
  end.
Proof.
  destruct cfg as [config|]; cbn; [|left; auto].
  destruct (String.eqb_spec (Types.cfgApiToken config) "") as [Htoken|Htoken].
  - right. exists config. auto.
  - exists config. cbn. repeat split; auto.
    + unfold Types.orElse. destruct (Types.cfgBaseUrl config) as [b|]; [|discriminate].
      destruct (String.eqb_spec b ""); [discriminate | assumption].
    + intros url Hurl Hne. unfold Types.orElse. rewrite Hurl.
      destruct (String.eqb_spec url ""); [contradiction | reflexivity].
    + intros [H|H]; unfold Types.orElse; rewrite H; reflexivity.
    + destruct (Types.cfgTimeout config) as [t|]; [|discriminate].
      destruct (Z.eqb_spec t 0); [discriminate | assumption].
    + intros t Ht Hne. rewrite Ht.
      destruct (Z.eqb_spec t 0); [contradiction | reflexivity].
    + intros [H|H]; rewrite H; reflexivity.
    + destruct (Types.cfgVerbose config) as [[]|]; intros H; (reflexivity || discriminate H).
    + destruct (Types.cfgVerbose config) as [[]|]; intros H; (reflexivity || discriminate H).
Qed.

(* ===================================================================== *)
(** ** The envelopes of the service *)
(* ===================================================================== *)

Section ServiceEnvelopes.

Import Types Effects Spec FdxService.
Context {rt : Runtime}.

Lemma builtHere_ok v : builtHere (ok v).
Proof. left. eauto. Qed.

Lemma builtHere_failure msg : builtHere (failure msg).
Proof. right. eauto. Qed.

Lemma built_failWith label r : Ensures builtHere (failWith label r).
Proof.
  unfold failWith. apply ensures_any. intros msg. apply ensures_ret, builtHere_failure.
Qed.

Ltac built_step :=
  first
    [ apply built_failWith
    | apply ensures_ret; solve [apply builtHere_ok | apply builtHere_failure | exact I]
    | apply ensures_throw
    | match goal with
      | |- Ensures _ (if ?b then _ else _) => destruct b
      | |- Ensures _ (match ?o with Some _ => _ | None => _ end) => destruct o
      | |- Ensures _ (lift ?c) => destruct c
      end
    | apply ensures_any; intros ].

Ltac built := repeat built_step.

Lemma built_retrieveAccounts : Ensures builtHere retrieveAccounts.
Proof. unfold retrieveAccounts. built. Qed.

Lemma built_createAccount name : Ensures builtHere (createAccount name).
Proof. unfold createAccount. built. Qed.

Lemma built_getOrCreateAccount storeId : Ensures builtHere (getOrCreateAccount storeId).
Proof.
  unfold getOrCreateAccount. apply ensures_any. intros accountName.
  apply (ensures_bind builtHere); [apply built_retrieveAccounts|].
  intros accountsResult Hb.
  destruct (negb (success accountsResult)); [apply ensures_ret, Hb|].
  destruct (Js.truthy _); [built | apply built_createAccount].
Qed.

Lemma built_findGroup accountId : Ensures builtHere (findGroup accountId).
Proof. unfold findGroup. built. Qed.

Lemma built_moveDbToGroup accountId accountName :
  Ensures builtHere (moveDbToGroup accountId accountName).
Proof.
  unfold moveDbToGroup.
  apply (ensures_bind builtHere); [apply built_findGroup|].
  intros existing Hb.
  destruct (negb (success existing)); [apply ensures_ret, Hb|].
  built.
Qed.

Lemma built_deleteOldEntry entries : Ensures optionBuiltHere (deleteOldEntry entries).
Proof.
  unfold deleteOldEntry. apply ensures_any. intros oldEntry.
  destruct (negb (Js.truthy oldEntry)); [apply ensures_ret; exact I|].
  apply ensures_any. intros oldId. apply ensures_any. intros result.
  destruct (negb (success result)).
  - apply (ensures_bind builtHere); [apply built_failWith|].
    intros r Hr. apply ensures_ret. exact Hr.
  - apply ensures_ret. apply builtHere_ok.
Qed.

Lemma built_createOrUpdateVaultEntry entries token :
  Ensures builtHere (createOrUpdateVaultEntry entries token).
Proof. unfold createOrUpdateVaultEntry. built. Qed.

Lemma built_updateVaultEntries token : Ensures builtHere (updateVaultEntries token).
Proof.
  unfold updateVaultEntries. apply ensures_any. intros vaultResult.
  destruct (negb (success vaultResult)); [apply built_failWith|].
  apply (ensures_bind optionBuiltHere); [apply built_deleteOldEntry|].
  intros [r|] Hr; [|apply built_createOrUpdateVaultEntry].
  destruct (negb (success r)); [apply ensures_ret, Hr | apply built_createOrUpdateVaultEntry].
Qed.

Lemma built_handleExistingExport existing ftp filename :
  Ensures builtHere (handleExistingExport existing ftp filename).
Proof. unfold handleExistingExport. built. Qed.

Lemma built_runExportSchedule export_ slot : Ensures builtHere (runExportSchedule export_ slot).
Proof. unfold runExportSchedule. built. Qed.

Lemma built_createOrUpdateExport ftp filename slot :
  Ensures builtHere (createOrUpdateExport ftp filename slot).
Proof.
  unfold createOrUpdateExport. apply ensures_any. intros current.
  destruct (negb (success current)); [apply built_failWith|].
  apply (ensures_bind builtHere); [apply built_handleExistingExport|].
  intros export_ Hb.
  destruct (negb (success export_)); [apply built_failWith|].
  destruct slot; [apply built_runExportSchedule | apply ensures_ret, Hb].
Qed.

Lemma built_createTransformersFrom ts results :
  Ensures builtHere (createTransformersFrom ts results).
Proof.
  revert results. induction ts as [|t ts IH]; intros results; cbn.
  - built.
  - apply ensures_any. intros result.
    destruct (negb (success result)); [apply built_failWith | apply IH].
Qed.

Lemma built_updateDbFieldsFrom fields results :
  Ensures builtHere (updateDbFieldsFrom fields results).
Proof.
  revert results. induction fields as [|f fields IH]; intros results; cbn.
  - built.
  - apply ensures_any. intros result.
    destruct (negb (success result)); [apply built_failWith | apply IH].
Qed.

Lemma built_returnFailure label r : Ensures flowBuiltHere (returnFailure label r).
Proof.
  unfold returnFailure. apply (ensures_bind builtHere); [apply built_failWith|].
  intros r' Hr. apply ensures_ret. exact Hr.
Qed.

Ltac built_flow_step :=
  first
    [ apply built_returnFailure
    | apply ensures_ret; exact I
    | match goal with
      | |- Ensures _ (if ?b then _ else _) => destruct b
      | |- Ensures _ (match ?o with Some _ => _ | None => _ end) => destruct o
      end
    | apply ensures_any; intros ].

Lemma built_runStep s params l : Ensures flowBuiltHere (runStep s params l).
Proof.
  destruct s; cbn [runStep];
    unfold createAccountStep, inviteUserStep, createDatabaseStep, moveToGroupStep,
      addVaultEntryStep, createImportStep, setScheduleStep, applyTemplateStep;
    repeat built_flow_step.
Qed.

Lemma built_runSteps ss params l : Ensures flowBuiltHere (runSteps ss params l).
Proof.
  revert l. induction ss as [|s ss IH]; intros l; cbn [runSteps].
  - apply ensures_ret. exact I.
  - apply (ensures_bind flowBuiltHere); [apply built_runStep|].
    intros [l'|r] Hf; [apply IH | apply ensures_ret, Hf].
Qed.

Lemma built_setup params : Ensures builtHere (setupBigCommerceIntegration params).
Proof.
  unfold setupBigCommerceIntegration. apply ensures_tryCatch.
  - unfold setupBody. apply (ensures_bind flowBuiltHere); [apply built_runSteps|].
    intros [l|r] Hf; apply ensures_ret; [apply builtHere_ok | exact Hf].
  - intros e. apply ensures_ret, builtHere_failure.
Qed.

(** Whatever envelope a public operation of the service returns, it was
    built by the service: it carries no status code, a success carries a
    payload, and the error of a failure is a text (the label of the stage
    followed by what the client reported), where the client's own
    envelopes carry the status code and hand on whatever value the server
    sent as its message. *)
Theorem service_envelopes_are_built_by_the_service op w :
  match FdxService.run op w with
  | Returns r _ =>
      status r = None /\
      (success r = true -> exists v, data r = Some v) /\
      (success r = false -> exists msg, error r = Some (Js.Str msg))
  | Throws _ _ => True
  end.
Proof.
  assert (H : Ensures builtHere (FdxService.run op)).
  { destruct op; cbn [FdxService.run];
      first
        [ apply built_retrieveAccounts | apply built_getOrCreateAccount
        | apply built_createAccount | apply built_moveDbToGroup
        | apply built_updateVaultEntries | apply built_createOrUpdateExport
        | apply built_createTransformersFrom | apply built_updateDbFieldsFrom
        | apply built_setup
        | unfold getFtpCredentials, deleteDb, createDb, retrieveImport, createOrUpdateImport,
            updateImportSchedule, getExistingExport, createJoinImport, runImport, runExport;
          built ]. }
  specialize (H w). destruct (FdxService.run op w) as [r w'|e w']; [|exact I].
  destruct H as [[v ->]|[msg ->]]; cbn; repeat split; eauto; discriminate.
Qed.

End ServiceEnvelopes.

(* ===================================================================== *)
(** ** The session under the service *)
(* ===================================================================== *)

Section ServiceSession.

Import Types Effects Spec FdxService.
Context {rt : Runtime}.

Lemma frames_getDbId : Frames eq FdxClient.getDbId.
Proof. intros w. reflexivity. Qed.

Ltac session_step :=
  first
    [ apply frames_failWith
    | apply frames_request
    | apply frames_getDbId
    | apply frames_self
    | apply frames_now
    | apply frames_eq_ret
    | apply frames_eq_lift
    | apply (frames_client FdxClient.Accounts)
    | apply (frames_client (FdxClient.CreateBigCommerceAccount _))
    | apply (frames_client (FdxClient.Groups _))
    | apply (frames_client (FdxClient.CreateGroup _))
    | apply (frames_client (FdxClient.MoveDbToGroup _))
    | apply (frames_client FdxClient.Vault)
    | apply (frames_client (FdxClient.CreateVault _))
    | apply (frames_client (FdxClient.UpdateVault _ _))
    | apply (frames_client (FdxClient.DeleteVault _))
    | apply (frames_client FdxClient.FtpAccounts)
    | apply (frames_client (FdxClient.CreateFtpAccounts _))
    | apply (frames_client (FdxClient.DeleteDb _))
    | apply (frames_client (FdxClient.CreateDb _ _))
    | apply (frames_client FdxClient.Imports)
    | apply (frames_client (FdxClient.CreateImport _))
    | apply (frames_client (FdxClient.UpdateImport _ _))
    | apply (frames_client (FdxClient.UpdateImportSchedule _ _))
    | apply (frames_client FdxClient.Exports)
    | apply (frames_client (FdxClient.CreateExport _))
    | apply (frames_client (FdxClient.UpdateExport _ _))
    | apply (frames_client (FdxClient.ScheduleExport _ _))
    | apply (frames_client (FdxClient.CreateTransformer _))
    | apply (frames_client (FdxClient.UpdateDbFields _))
    | apply (frames_client (FdxClient.CreateJoinImport _))
    | match goal with
      | |- Frames _ (if ?b then _ else _) => destruct b
      | |- Frames _ (match ?o with Some _ => _ | None => _ end) => destruct o
      end
    | apply frames_eq_bind; [|intros] ].

Ltac session := repeat session_step.

Lemma session_createTransformersFrom ts results :
  Frames eq (createTransformersFrom ts results).
Proof.
  revert results. induction ts as [|t ts IH]; intros results; cbn; [session|].
  apply frames_eq_bind; [apply (frames_client (FdxClient.CreateTransformer _))|].
  intros result. destruct (negb (success result)); [apply frames_failWith | apply IH].
Qed.

Lemma session_updateDbFieldsFrom fields results :
  Frames eq (updateDbFieldsFrom fields results).
Proof.
  revert results. induction fields as [|f fields IH]; intros results; cbn; [session|].
  apply frames_eq_bind; [apply (frames_client (FdxClient.UpdateDbFields _))|].
  intros result. destruct (negb (success result)); [apply frames_failWith | apply IH].
Qed.

Lemma session_setup params : Frames sameSettings (setupBigCommerceIntegration params).
Proof.
  intros w. rewrite setup_world.
  apply (frames_runSteps sameSettings);
    [exact sameSettings_refl | exact sameSettings_trans | intros; apply frames_runStep].
Qed.

(** No operation of the service changes the token, the base URL, the
    axios instance, the configuration or the verbosity of the client it
    was given, whether it returns or throws; and every operation but
    [setupBigCommerceIntegration] leaves the active database as it is
    too. *)
Theorem service_operations_keep_the_session op w :
  let c := this w in
  let c' := this (worldOf (FdxService.run op w)) in
  sameSettings c c' /\
  ((forall params, op <> SetupBigCommerceIntegration params) -> c' = c).
Proof.
  cbn zeta.
  assert (H : (forall params, op <> SetupBigCommerceIntegration params) ->
              Frames eq (FdxService.run op)).
  { intros Hop. destruct op; cbn [FdxService.run];
      try (exfalso; eapply Hop; reflexivity);
      first
        [ apply session_createTransformersFrom | apply session_updateDbFieldsFrom
        | unfold retrieveAccounts, getOrCreateAccount, createAccount, moveDbToGroup, findGroup,
            updateVaultEntries, deleteOldEntry, createOrUpdateVaultEntry, getFtpCredentials,
            deleteDb, createDb, retrieveImport, createOrUpdateImport, updateImportSchedule,
            createOrUpdateExport, getExistingExport, handleExistingExport, runExportSchedule,
            createJoinImport, runImport, runExport, retrieveAccounts, retrieveImport;
          session ]. }
  split.
  - destruct op; try (rewrite <- (H ltac:(discriminate) w); apply sameSettings_refl).
    apply session_setup.
  - intros Hop. symmetry. apply (H Hop w).
Qed.

End ServiceSession.

(* ===================================================================== *)
(** ** The workflow that goes through *)
(* ===================================================================== *)

Section SetupTrace.

Import Types Effects Spec FdxService FdxService.Setup.
Context {rt : Runtime}.

Lemma request_returns method url data w r w' :
  FdxClient.request method url data [] w = Returns r w' ->
  this w' = this w /\ routes w' = (routes w ++ [(Js.Str method, Js.Str url)])%list.
Proof.
  rewrite request_run. intros H. inversion H; subst. split; [apply this_sent|].
  unfold routes. rewrite requests_sent, map_app. reflexivity.
Qed.

(** A request that reports success was resolved by axios with a code in
    [200,300), and the payload is the body of the response. *)
Lemma request_answered method url data w r w' :
  FdxClient.request method url data [] w = Returns r w' ->
  success r = true ->
  exists req response,
    requests w' = (requests w ++ [req])%list /\
    route req = (Js.Str method, Js.Str url) /\
    axios (client (this w)) (requests w) req = Axios.Resolved response /\
    in2xx (Axios.status response) /\
    payload r = Axios.data response.
Proof.
  rewrite request_run. intros H Hs. inversion H as [[Hr Hw]]. clear H.
  exists (FdxClient.requestConfig method url data []).
  destruct (axios _ _ _) as [response|e] eqn:Hanswer.
  - exists response. split; [apply requests_sent|]. split; [reflexivity|].
    split; [reflexivity|]. subst r. unfold FdxClient.processResponse in *.
    destruct ((200 <=? Axios.status response) && (Axios.status response <? 300)) eqn:Hcode;
      [|discriminate Hs].
    apply andb_prop in Hcode. destruct Hcode as [Hlo Hhi].
    split; [split; lia | reflexivity].
  - subst r. unfold FdxClient.rejected in Hs. destruct (Axios.response e); discriminate Hs.
Qed.

Lemma request_added method url data w r w' :
  FdxClient.request method url data [] w = Returns r w' ->
  exists req, requests w' = (requests w ++ [req])%list.
Proof.
  rewrite request_run. intros H. inversion H; subst. eexists. apply requests_sent.
Qed.

Lemma guarded_returns (k : Client -> M ServiceResponse) w r w' :
  (c <- self ;; if FdxClient.noDbId c then ret FdxClient.dbIdRequired else k c) w = Returns r w' ->
  success r = true ->
  exists t, Effects.dbId (this w) = Some t /\ t <> "" /\ k (this w) w = Returns r w'.
Proof.
  unfold bind, self. intros H Hs.
  destruct (FdxClient.noDbId (this w)) eqn:Hno.
  - inversion H; subst. discriminate Hs.
  - unfold FdxClient.noDbId in Hno. destruct (Effects.dbId (this w)) as [t|]; [|discriminate Hno].
    exists t. split; [reflexivity|]. split; [|exact H].
    intros ->. discriminate Hno.
Qed.

Lemma returnFailure_not_continue lbl r w l w' :
  returnFailure lbl r w = Returns (Continue l) w' -> False.
Proof.
  unfold returnFailure. intros H. apply bind_inv in H. destruct H as (x & w1 & _ & H).
  inversion H.
Qed.

Lemma failedOrNoId_false r :
  failedOrNoId r = false ->
  success r = true /\ Js.truthy (Js.prop (payload r) "id") = true /\
  Js.get (payload r) "id" = Js.Normal (Js.prop (payload r) "id").
Proof.
  unfold failedOrNoId. intros H. apply orb_false_elim in H. destruct H as [Hs Hid].
  apply negb_false_iff in Hs, Hid. split; [exact Hs|].
  destruct (payload r); cbn in Hid |- *; try discriminate Hid; auto.
Qed.

Lemma callToString_toStr what v t :
  Js.truthy v = true -> Js.callToString what v = Js.Normal t -> Js.toStr v = Js.Normal t.
Proof.
  destruct v; cbn; intros Hv H; try discriminate Hv; try exact H.
  destruct (Js.hasOwn "toString" fields); [discriminate H | exact H].
Qed.

Tactic Notation "inv_bind" hyp(H) "as" ident(a) ident(w) ident(H1) :=
  apply bind_inv in H; destruct H as (a & w & H1 & H).

Tactic Notation "inv_lift" hyp(H) "as" ident(a) ident(H1) :=
  let w := fresh "w" in
  apply bind_inv in H; destruct H as (a & w & H1 & H);
  apply lift_inv in H1; destruct H1 as [H1 ->].

Lemma createAccountStep_continue params l w l' w' :
  createAccountStep params l w = Returns (Continue l') w' ->
  this w' = this w /\
  routes w' = (routes w ++ [post "/bigcommerce/account"])%list /\
  Js.truthy (accountId l') = true /\
  dbId l' = dbId l /\ vaultId l' = vaultId l /\ importId l' = importId l /\
  exists req response,
    requests w' = (requests w ++ [req])%list /\
    route req = post "/bigcommerce/account" /\
    axios (client (this w)) (requests w) req = Axios.Resolved response /\
    in2xx (Axios.status response) /\
    accountId l' = Js.prop (Axios.data response) "id".
Proof.
  unfold createAccountStep. intros H. inv_bind H as r w1 Hcall.
  destruct (failedOrNoId r) eqn:Hf; [now apply returnFailure_not_continue in H|].
  apply failedOrNoId_false in Hf. destruct Hf as (Hs & Hid & Hget).
  rewrite Hget in H. cbn in H. inversion H; subst. cbn.
  unfold FdxClient.createBigCommerceAccount in Hcall.
  destruct (request_answered _ _ _ _ _ _ Hcall Hs) as (req & response & Q1 & Q2 & Q3 & Q4 & Q5).
  apply request_returns in Hcall. destruct Hcall as [Hthis Hroutes].
  repeat split; auto. exists req, response. rewrite <- Q5. auto.
Qed.

Lemma inviteUserStep_continue params l w l' w' :
  inviteUserStep params l w = Returns (Continue l') w' ->
  l' = l /\ this w' = this w /\
  exists a,
    (given (userEmail params) <> None -> Js.toStr (accountId l) = Js.Normal a) /\
    routes w' =
      (routes w ++ whenGiven (given (userEmail params))
                     (post ("/accounts/" ++ a ++ "/user_account_permissions")))%list /\
    exists added,
      requests w' = (requests w ++ added)%list /\
      List.length added = List.length (whenGiven (given (userEmail params)) tt).
Proof.
  unfold inviteUserStep. intros H.
  destruct (given (userEmail params)) as [email|].
  - inv_bind H as r w1 Hcall.
    destruct (negb (success r)); [now apply returnFailure_not_continue in H|].
    inversion H; subst. unfold FdxClient.invitePrimaryUser in Hcall.
    inv_lift Hcall as a Ha.
    destruct (request_added _ _ _ _ _ _ Hcall) as [req Hreq].
    apply request_returns in Hcall. destruct Hcall as [Hthis Hroutes].
    split; [reflexivity|]. split; [exact Hthis|]. exists a. split; [intros _; exact Ha|].
    split; [exact Hroutes|]. exists [req]. auto.
  - inversion H; subst. split; [reflexivity|]. split; [reflexivity|].
    exists "". split; [congruence|]. cbn. rewrite app_nil_r. split; [reflexivity|].
    exists []. now rewrite app_nil_r.
Qed.

Lemma createDatabaseStep_trace params l w l' w' :
  createDatabaseStep params l w = Returns (Continue l') w' ->
  exists a d,
    Js.toStr (accountId l) = Js.Normal a /\
    Js.toStr (dbId l') = Js.Normal d /\
    Js.truthy (dbId l') = true /\
    Effects.dbId (this w') = Some d /\
    sameSettings (this w) (this w') /\
    routes w' = (routes w ++ [post ("/accounts/" ++ a ++ "/dbs")])%list /\
    accountId l' = accountId l /\ vaultId l' = vaultId l /\ importId l' = importId l /\
    exists req response,
      requests w' = (requests w ++ [req])%list /\
      route req = post ("/accounts/" ++ a ++ "/dbs") /\
      axios (client (this w)) (requests w) req = Axios.Resolved response /\
      in2xx (Axios.status response) /\
      dbId l' = Js.prop (Axios.data response) "id".
Proof.
  unfold createDatabaseStep. intros H. inv_bind H as r w1 Hcall.
  destruct (failedOrNoId r) eqn:Hf; [now apply returnFailure_not_continue in H|].
  apply failedOrNoId_false in Hf. destruct Hf as (Hs & Hid & Hget).
  rewrite Hget in H. cbn [lift] in H.
  rewrite (bind_returns _ _ w1 (Js.prop (payload r) "id") w1) in H by reflexivity.
  inv_lift H as d Hd. inv_bind H as u w2 Hset. inversion H; subst. cbn.
  unfold FdxClient.createDb in Hcall. inv_lift Hcall as a Ha.
  destruct (request_answered _ _ _ _ _ _ Hcall Hs) as (req & response & Q1 & Q2 & Q3 & Q4 & Q5).
  apply request_returns in Hcall. destruct Hcall as [Hthis Hroutes].
  unfold FdxClient.setDbId, bind, self, setThis in Hset. inversion Hset; subst. cbn.
  exists a, d. rewrite Hthis. repeat split; auto.
  - eapply callToString_toStr; eauto.
  - exists req, response. rewrite <- Q5. auto.
Qed.

Lemma moveToGroupStep_continue params l w l' w' :
  moveToGroupStep params l w = Returns (Continue l') w' ->
  l' = l /\ this w' = this w /\
  exists d,
    (given (groupName params) <> None -> Js.toStr (dbId l) = Js.Normal d) /\
    routes w' =
      (routes w ++ whenGiven (given (groupName params))
                     (post ("/dbs/" ++ d ++ "/move_db_to_db_group")))%list /\
    exists added,
      requests w' = (requests w ++ added)%list /\
      List.length added = List.length (whenGiven (given (groupName params)) tt).
Proof.
  unfold moveToGroupStep. intros H.
  destruct (given (groupName params)) as [name|].
  - inv_bind H as r w1 Hcall.
    destruct (negb (success r)); [now apply returnFailure_not_continue in H|].
    inversion H; subst. unfold FdxClient.moveDbintoNewDbGroup in Hcall.
    inv_lift Hcall as d Hd.
    destruct (request_added _ _ _ _ _ _ Hcall) as [req Hreq].
    apply request_returns in Hcall. destruct Hcall as [Hthis Hroutes].
    split; [reflexivity|]. split; [exact Hthis|]. exists d. split; [intros _; exact Hd|].
    split; [exact Hroutes|]. exists [req]. auto.
  - inversion H; subst. split; [reflexivity|]. split; [reflexivity|].
    exists "". split; [congruence|]. cbn. rewrite app_nil_r. split; [reflexivity|].
    exists []. now rewrite app_nil_r.
Qed.

Lemma addVaultEntryStep_continue params l w l' w' :
  addVaultEntryStep params l w = Returns (Continue l') w' ->
  this w' = this w /\
  accountId l' = accountId l /\ dbId l' = dbId l /\ importId l' = importId l /\
  exists d,
    Js.toStr (dbId l) = Js.Normal d /\
    routes w' = (routes w ++ [post ("/dbs/" ++ d ++ "/vault")])%list /\
    exists req response,
      requests w' = (requests w ++ [req])%list /\
      route req = post ("/dbs/" ++ d ++ "/vault") /\
      axios (client (this w)) (requests w) req = Axios.Resolved response /\
      in2xx (Axios.status response) /\
      vaultId l' = Js.optGet (Js.optGet (Axios.data response) "data") "new_row_id".
Proof.
  unfold addVaultEntryStep. intros H. inv_bind H as t w1 Hnow.
  unfold now in Hnow. inversion Hnow; subst.
  inv_bind H as r w2 Hcall.
  destruct (success r) eqn:Hs; cbn [negb] in H; [|now apply returnFailure_not_continue in H].
  inversion H; subst. cbn. unfold FdxClient.addDbVaultEntry in Hcall.
  inv_lift Hcall as d Hd.
  destruct (request_answered _ _ _ _ _ _ Hcall Hs) as (req & response & Q1 & Q2 & Q3 & Q4 & Q5).
  apply request_returns in Hcall. destruct Hcall as [Hthis Hroutes].
  repeat split; auto. exists d. split; [exact Hd|]. split; [exact Hroutes|].
  exists req, response. rewrite <- Q5. auto.
Qed.

Lemma createImportStep_continue params l w l' w' :
  createImportStep params l w = Returns (Continue l') w' ->
  this w' = this w /\
  accountId l' = accountId l /\ dbId l' = dbId l /\ vaultId l' = vaultId l /\
  Js.truthy (importId l') = true /\
  exists t,
    Effects.dbId (this w) = Some t /\ t <> "" /\
    routes w' = (routes w ++ [post ("/dbs/" ++ t ++ "/imports")])%list /\
    exists req response,
      requests w' = (requests w ++ [req])%list /\
      route req = post ("/dbs/" ++ t ++ "/imports") /\
      axios (client (this w)) (requests w) req = Axios.Resolved response /\
      in2xx (Axios.status response) /\
      importId l' = Js.prop (Axios.data response) "id".
Proof.
  unfold createImportStep. intros H. inv_lift H as url Hurl. inv_bind H as r w1 Hcall.
  destruct (failedOrNoId r) eqn:Hf; [now apply returnFailure_not_continue in H|].
  apply failedOrNoId_false in Hf. destruct Hf as (Hs & Hid & Hget).
  rewrite Hget in H. cbn in H. inversion H; subst. cbn.
  unfold FdxClient.createImport in Hcall.
  apply guarded_returns in Hcall; [|exact Hs]. destruct Hcall as (t & Hdb & Ht & Hcall).
  unfold FdxClient.dbIdText in Hcall. rewrite Hdb in Hcall. cbn [text] in Hcall.
  destruct (request_answered _ _ _ _ _ _ Hcall Hs) as (req & response & Q1 & Q2 & Q3 & Q4 & Q5).
  apply request_returns in Hcall. destruct Hcall as [Hthis Hroutes].
  repeat split; auto. exists t. split; [exact Hdb|]. split; [exact Ht|].
  split; [exact Hroutes|]. exists req, response. rewrite <- Q5. auto.
Qed.

Lemma setScheduleStep_continue params l w l' w' :
  setScheduleStep params l w = Returns (Continue l') w' ->
  l' = l /\ this w' = this w /\
  exists i,
    (importSchedule params <> None -> Js.toStr (importId l) = Js.Normal i) /\
    (forall t, Effects.dbId (this w) = Some t ->
      routes w' =
        (routes w ++ whenGiven (importSchedule params)
                       (Js.Str "PUT", Js.Str ("/dbs/" ++ t ++ "/imports/" ++ i ++ "/schedule")))%list) /\
    exists added, requests w' = (requests w ++ added)%list.
Proof.
  unfold setScheduleStep. intros H.
  destruct (importSchedule params) as [s|].
  - inv_bind H as r w1 Hcall. destruct (success r) eqn:Hs; cbn [negb] in H;
      [|now apply returnFailure_not_continue in H].
    inversion H; subst. unfold FdxClient.updateImportSchedule in Hcall.
    apply guarded_returns in Hcall; [|exact Hs]. destruct Hcall as (t & Hdb & Ht & Hcall).
    inv_lift Hcall as i Hi.
    unfold FdxClient.dbIdText in Hcall. rewrite Hdb in Hcall. cbn [text] in Hcall.
    destruct (request_added _ _ _ _ _ _ Hcall) as [req Hreq].
    apply request_returns in Hcall. destruct Hcall as [Hthis Hroutes].
    split; [reflexivity|]. split; [exact Hthis|]. exists i. split; [intros _; exact Hi|].
    split; [|exists [req]; exact Hreq].
    intros t' Ht'. rewrite Hdb in Ht'. inversion Ht'; subst. exact Hroutes.
  - inversion H; subst. split; [reflexivity|]. split; [reflexivity|].
    exists "". split; [congruence|]. split; [|exists []; now rewrite app_nil_r].
    intros t _. cbn. now rewrite app_nil_r.
Qed.

Lemma applyTemplateStep_continue params l w l' w' :
  applyTemplateStep params l w = Returns (Continue l') w' ->
  l' = l /\ this w' = this w /\
  (forall t, Effects.dbId (this w) = Some t ->
    routes w' =
      (routes w ++ whenGiven (given (buildTemplate params))
                     (post ("/dbs/" ++ t ++ "/apply_automate_build_template")))%list) /\
  exists added, requests w' = (requests w ++ added)%list.
Proof.
  unfold applyTemplateStep. intros H.
  destruct (given (buildTemplate params)) as [template|].
  - inv_bind H as r w1 Hcall. destruct (success r) eqn:Hs; cbn [negb] in H;
      [|now apply returnFailure_not_continue in H].
    inversion H; subst. unfold FdxClient.applyAutomateBuildTemplate in Hcall.
    apply guarded_returns in Hcall; [|exact Hs]. destruct Hcall as (t & Hdb & Ht & Hcall).
    unfold FdxClient.dbIdText in Hcall. rewrite Hdb in Hcall. cbn [text] in Hcall.
    destruct (request_added _ _ _ _ _ _ Hcall) as [req Hreq].
    apply request_returns in Hcall. destruct Hcall as [Hthis Hroutes].
    split; [reflexivity|]. split; [exact Hthis|].
    split; [|exists [req]; exact Hreq].
    intros t' Ht'. rewrite Hdb in Ht'. inversion Ht'; subst. exact Hroutes.
  - inversion H; subst. split; [reflexivity|]. split; [reflexivity|].
    split; [|exists []; now rewrite app_nil_r].
    intros t _. cbn. now rewrite app_nil_r.
Qed.

(** A step that ends the workflow ends it with a failure. *)
Lemma runStep_return s params l w r w' :
  runStep s params l w = Returns (Return r) w' -> success r = false.
Proof.
  assert (H : Ensures (fun f => match f with Return r => success r = false | Continue _ => True end)
                (runStep s params l)).
  { assert (Hfail : forall lbl x,
               Ensures (fun f => match f with Return r => success r = false | Continue _ => True end)
                 (returnFailure lbl x)).
    { intros lbl x. unfold returnFailure.
      apply (ensures_bind (fun r0 => success r0 = false)).
      - unfold failWith. apply ensures_any. intros msg. apply ensures_ret. reflexivity.
      - intros r0 Hr0. apply ensures_ret. exact Hr0. }
    destruct s; cbn [runStep];
      unfold createAccountStep, inviteUserStep, createDatabaseStep, moveToGroupStep,
        addVaultEntryStep, createImportStep, setScheduleStep, applyTemplateStep;
      repeat first
        [ apply Hfail
        | apply ensures_ret; exact I
        | match goal with
          | |- Ensures _ (if ?b then _ else _) => destruct b
          | |- Ensures _ (match ?o with Some _ => _ | None => _ end) => destruct o
          end
        | apply ensures_any; intros ]. }
  intros Hrun. specialize (H w). rewrite Hrun in H. exact H.
Qed.

(** When [setupBigCommerceIntegration] returns a success, it has sent
    exactly the calls of its steps, in order, and nothing else: the four
    optional ones (invitation, group, schedule, template) only when their
    parameter was given and not empty.  The identifiers in the payload are
    the ones the server answered with: the account, database and import
    identifiers are the truthy [id] of the body axios resolved the
    creation of the account, of the database and of the import with, and
    the vault entry identifier is the [data.new_row_id] of the body it
    resolved the vault call with.  The import, its schedule and the
    template were sent to the database the workflow created, whatever
    database was active before, and that database, whose text is not
    empty, is the active one afterwards. *)
Theorem successful_setup_trace params w r w' :
  setupBigCommerceIntegration params w = Returns r w' ->
  success r = true ->
  exists l a d i account database vault import_,
    r = ok (setupResult params l) /\
    Js.truthy (accountId l) = true /\ Js.toStr (accountId l) = Js.Normal a /\
    Js.truthy (dbId l) = true /\ Js.toStr (dbId l) = Js.Normal d /\ d <> "" /\
    Js.truthy (importId l) = true /\
    (importSchedule params <> None -> Js.toStr (importId l) = Js.Normal i) /\
    routes w' = (routes w ++ setupRoutes params a d i)%list /\
    answered w w' (sentBefore params CreateAccount) (post "/bigcommerce/account") account /\
    accountId l = Js.prop account "id" /\
    answered w w' (sentBefore params CreateDatabase) (post ("/accounts/" ++ a ++ "/dbs"))
      database /\
    dbId l = Js.prop database "id" /\
    answered w w' (sentBefore params AddVaultEntry) (post ("/dbs/" ++ d ++ "/vault")) vault /\
    vaultId l = Js.optGet (Js.optGet vault "data") "new_row_id" /\
    answered w w' (sentBefore params CreateImport) (post ("/dbs/" ++ d ++ "/imports"))
      import_ /\
    importId l = Js.prop import_ "id" /\
    Effects.dbId (this w') = Some d /\
    sameSettings (this w) (this w').
Proof.
  intros Hrun Hok.
  unfold setupBigCommerceIntegration, tryCatch in Hrun.
  destruct (setupBody params w) as [r0 w0|e w0] eqn:Hbody;
    [|inversion Hrun; subst; discriminate Hok].
  inversion Hrun; subst r0 w0. clear Hrun.
  unfold setupBody in Hbody. inv_bind Hbody as flow w8 Hsteps.
  destruct flow as [l8|r8].
  2:{ inversion Hbody; subst. exfalso.
      assert (Hret : forall ss l0 w0,
                 runSteps ss params l0 w0 = Returns (Return r) w' -> success r = false).
      { induction ss as [|s ss IH]; intros l0 w0 H0; cbn [runSteps] in H0; [inversion H0|].
        inv_bind H0 as f w1 Hs. destruct f as [l1|r1].
        - eapply IH; eauto.
        - inversion H0; subst. eapply runStep_return; eauto. }
      rewrite (Hret _ _ _ Hsteps) in Hok. discriminate Hok. }
  inversion Hbody; subst. clear Hbody Hok.
  unfold steps in Hsteps. cbn [runSteps] in Hsteps.
  inv_bind Hsteps as f1 w1 H1. destruct f1 as [l1|]; [|inversion Hsteps].
  inv_bind Hsteps as f2 w2 H2. destruct f2 as [l2|]; [|inversion Hsteps].
  inv_bind Hsteps as f3 w3 H3. destruct f3 as [l3|]; [|inversion Hsteps].
  inv_bind Hsteps as f4 w4 H4. destruct f4 as [l4|]; [|inversion Hsteps].
  inv_bind Hsteps as f5 w5 H5. destruct f5 as [l5|]; [|inversion Hsteps].
  inv_bind Hsteps as f6 w6 H6. destruct f6 as [l6|]; [|inversion Hsteps].
  inv_bind Hsteps as f7 w7 H7. destruct f7 as [l7|]; [|inversion Hsteps].
  inv_bind Hsteps as f8 w9 H8. destruct f8 as [l9|]; [|inversion Hsteps].
  inversion Hsteps; subst l9 w9. clear Hsteps. rename l8 into l.
  cbn [runStep] in *.
  apply createAccountStep_continue in H1.
  destruct H1 as (T1 & R1 & A1 & D1 & V1 & I1 & q1 & p1 & Q1 & To1 & Ans1 & Code1 & Id1).
  apply inviteUserStep_continue in H2.
  destruct H2 as (L2 & T2 & a2 & A2 & R2 & add2 & Q2 & Len2).
  apply createDatabaseStep_trace in H3.
  destruct H3 as (a & d & A3 & D3 & Dt3 & Db3 & S3 & R3 & Ac3 & V3 & I3 &
                  q3 & p3 & Q3 & To3 & Ans3 & Code3 & Id3).
  apply moveToGroupStep_continue in H4.
  destruct H4 as (L4 & T4 & d4 & D4 & R4 & add4 & Q4 & Len4).
  apply addVaultEntryStep_continue in H5.
  destruct H5 as (T5 & A5 & D5 & I5 & d5 & Dd5 & R5 & q5 & p5 & Q5 & To5 & Ans5 & Code5 & Id5).
  apply createImportStep_continue in H6.
  destruct H6 as (T6 & A6 & D6 & V6 & It6 & t & Db6 & Ht & R6 &
                  q6 & p6 & Q6 & To6 & Ans6 & Code6 & Id6).
  apply setScheduleStep_continue in H7.
  destruct H7 as (L7 & T7 & i & I7 & R7 & add7 & Q7).
  apply applyTemplateStep_continue in H8.
  destruct H8 as (L8 & T8 & R8 & add8 & Q8).
  assert (Hdb5 : Effects.dbId (this w5) = Some d) by (rewrite T5, T4; exact Db3).
  assert (t = d) by congruence. subst t.
  assert (d5 = d) by congruence. subst d5.
  assert (Hdb6 : Effects.dbId (this w6) = Some d) by (rewrite T6; exact Hdb5).
  assert (Hdb7 : Effects.dbId (this w7) = Some d) by (rewrite T7; exact Hdb6).
  specialize (R7 d Hdb6). specialize (R8 d Hdb7).
  assert (C2 : client (this w2) = client (this w)) by (rewrite T2, T1; reflexivity).
  assert (C4 : client (this w4) = client (this w)).
  { rewrite T4. destruct S3 as [S3 _]. rewrite S3. exact C2. }
  assert (C5 : client (this w5) = client (this w)) by (rewrite T5; exact C4).
  assert (Hlog : requests w' =
                 (requests w ++ [q1] ++ add2 ++ [q3] ++ add4 ++ [q5] ++ [q6] ++ add7 ++ add8)%list).
  { rewrite Q8, Q7, Q6, Q5, Q4, Q3, Q2, Q1. rewrite <- !app_assoc. reflexivity. }
  subst l l7 l4 l2.
  exists l6, a, d, i, (Axios.data p1), (Axios.data p3), (Axios.data p5), (Axios.data p6).
  split; [reflexivity|].
  split; [congruence|]. split; [congruence|].
  split; [congruence|]. split; [congruence|]. split; [exact Ht|].
  split; [exact It6|]. split; [exact I7|].
  split.
  { assert (R2' : routes w2 =
                   (routes w1 ++ whenGiven (given (userEmail params))
                      (post ("/accounts/" ++ a ++ "/user_account_permissions")))%list).
    { rewrite R2. destruct (given (userEmail params)); [|reflexivity].
      specialize (A2 ltac:(discriminate)). assert (a2 = a) by congruence. now subst. }
    assert (R4' : routes w4 =
                   (routes w3 ++ whenGiven (given (groupName params))
                      (post ("/dbs/" ++ d ++ "/move_db_to_db_group")))%list).
    { rewrite R4. destruct (given (groupName params)); [|reflexivity].
      specialize (D4 ltac:(discriminate)). assert (d4 = d) by congruence. now subst. }
    rewrite R8, R7, R6, R5, R4', R3, R2', R1.
    unfold setupRoutes. rewrite <- !app_assoc. reflexivity. }
  assert (N2 : List.length add2 =
               List.length (filter (sends params) [InviteUser])).
  { rewrite Len2. cbn. destruct (given (userEmail params)); reflexivity. }
  assert (N4 : List.length add4 =
               List.length (filter (sends params) [MoveToGroup])).
  { rewrite Len4. cbn. destruct (given (groupName params)); reflexivity. }
  split.
  { exists [], q1, (add2 ++ [q3] ++ add4 ++ [q5] ++ [q6] ++ add7 ++ add8)%list, p1.
    rewrite app_nil_r. repeat split; try apply Code1; auto. }
  split; [congruence|].
  split.
  { exists ([q1] ++ add2)%list, q3, (add4 ++ [q5] ++ [q6] ++ add7 ++ add8)%list, p3.
    split; [rewrite Hlog, <- !app_assoc; reflexivity|].
    split; [rewrite length_app, N2; unfold sentBefore; cbn;
            destruct (given (userEmail params)); reflexivity|].
    split; [exact To3|].
    split; [rewrite <- C2, app_assoc, <- Q1, <- Q2; exact Ans3|].
    repeat split; apply Code3. }
  split; [congruence|].
  split.
  { exists ([q1] ++ add2 ++ [q3] ++ add4)%list, q5, ([q6] ++ add7 ++ add8)%list, p5.
    split; [rewrite Hlog, <- !app_assoc; reflexivity|].
    split; [rewrite !length_app, N2, N4; unfold sentBefore; cbn;
            destruct (given (userEmail params)), (given (groupName params)); reflexivity|].
    split; [exact To5|].
    split; [rewrite <- C4; replace (requests w ++ [q1] ++ add2 ++ [q3] ++ add4)%list
                             with (requests w4)
              by (rewrite Q4, Q3, Q2, Q1, <- !app_assoc; reflexivity); exact Ans5|].
    repeat split; apply Code5. }
  split; [congruence|].
  split.
  { exists ([q1] ++ add2 ++ [q3] ++ add4 ++ [q5])%list, q6, (add7 ++ add8)%list, p6.
    split; [rewrite Hlog, <- !app_assoc; reflexivity|].
    split; [rewrite !length_app, N2, N4; unfold sentBefore; cbn;
            destruct (given (userEmail params)), (given (groupName params)); reflexivity|].
    split; [exact To6|].
    split; [rewrite <- C5; replace (requests w ++ [q1] ++ add2 ++ [q3] ++ add4 ++ [q5])%list
                             with (requests w5)
              by (rewrite Q5, Q4, Q3, Q2, Q1, <- !app_assoc; reflexivity); exact Ans6|].
    repeat split; apply Code6. }
  split; [exact Id6|].
  split; [rewrite T8; exact Hdb7|].
  rewrite T8, T7, T6, T5, T4. rewrite T2, T1 in S3. exact S3.
Qed.

(** The envelope of the client call a step makes is well formed. *)
Lemma clientCall_wellFormed s params l call w r w' :
  clientCall s params l = Some call -> call w = Returns r w' -> wellFormed r.
Proof.
  intros Hcall Hrun.
  assert (H : Ensures wellFormed call).
  { destruct s; cbn [clientCall] in Hcall;
      repeat match type of Hcall with
             | option_map _ ?o = Some _ => destruct o; cbn [option_map] in Hcall
             end;
      inversion Hcall; subst call;
      first
        [ apply (ensures_client_run (FdxClient.CreateBigCommerceAccount _))
        | apply (ensures_client_run (FdxClient.InvitePrimaryUser _ _))
        | apply (ensures_client_run (FdxClient.CreateDb _ _))
        | apply (ensures_client_run (FdxClient.MoveDbintoNewDbGroup _ _))
        | apply (ensures_client_run (FdxClient.UpdateImportSchedule _ _))
        | apply (ensures_client_run (FdxClient.ApplyAutomateBuildTemplate _ _))
        | apply ensures_any; intros;
          first [ apply (ensures_client_run (FdxClient.AddDbVaultEntry _ _))
                | apply (ensures_client_run (FdxClient.CreateImport _)) ] ]. }
  specialize (H w). rewrite Hrun in H. exact H.
Qed.

(** The account, the database and the import are taken to exist only
    when the call's payload has a truthy [id].  When the steps before one
    of these three went through and its call reports a success whose
    payload has no [id] (or a falsy one), the workflow stops there with a
    failure: the envelope of the call has no error to quote, so the
    message is the label of the step followed by [undefined]; nothing is
    sent afterwards, and the record the server did create is left
    behind. *)
Theorem success_without_id_is_a_failure params s l w w1 call r w2 :
  needsId s = true ->
  runSteps (before s) params start w = Returns (Continue l) w1 ->
  clientCall s params l = Some call ->
  call w1 = Returns r w2 ->
  success r = true ->
  Js.truthy (Js.optGet (payload r) "id") = false ->
  setupBigCommerceIntegration params w =
  Returns (failure (label s ++ "undefined")) w2.
Proof.
  intros Hs Hbefore Hcall Hrun Hok Hid.
  assert (Herr : errorOf r = Js.Undefined).
  { destruct (clientCall_wellFormed _ _ _ _ _ _ _ Hcall Hrun) as [Hwf _].
    unfold errorOf. now rewrite (Hwf Hok). }
  assert (Hno : failedOrNoId r = true).
  { unfold failedOrNoId. rewrite Hid. apply orb_true_r. }
  assert (Hstep : runStep s params l w1 = Returns (Return (failure (label s ++ "undefined"))) w2).
  { destruct s; try discriminate Hs; cbn [runStep clientCall label] in *;
      inversion Hcall; subst call.
    - unfold createAccountStep. rewrite (bind_returns _ _ _ _ _ Hrun), Hno.
      apply returnFailure_run. now rewrite Herr.
    - unfold createDatabaseStep. rewrite (bind_returns _ _ _ _ _ Hrun), Hno.
      apply returnFailure_run. now rewrite Herr.
    - unfold createImportStep.
      apply bind_inv in Hrun. destruct Hrun as (url & w0 & Hurl & Hrun).
      rewrite (bind_returns _ _ _ _ _ Hurl), (bind_returns _ _ _ _ _ Hrun), Hno.
      apply returnFailure_run. now rewrite Herr. }
  unfold setupBigCommerceIntegration, tryCatch, setupBody, bind.
  rewrite (steps_split s), runSteps_app, Hbefore.
  cbn [runSteps]. unfold bind. rewrite Hstep. reflexivity.
Qed.

End SetupTrace.

Lemma successful_setup_trace_witness :
  exists w',
    FdxService.setupBigCommerceIntegration (rt := Fixtures.everythingAccepted)
      Fixtures.storeParams (Fixtures.fresh (Some "previous-db")) =
    Effects.Returns
      (Types.ok (Js.Obj [("success", Js.Bool true);
                         ("accountId", Js.Str "1234");
                         ("dbId", Js.Num 5678);
                         ("importId", Js.Num 9);
                         ("vaultEntryId", Js.Num 42);
                         ("primaryUserEmail", Js.Str "test@example.com")])) w' /\
    Spec.routes w' =
      [(Js.Str "POST", Js.Str "/bigcommerce/account");
       (Js.Str "POST", Js.Str "/accounts/1234/user_account_permissions");
       (Js.Str "POST", Js.Str "/accounts/1234/dbs");
       (Js.Str "POST", Js.Str "/dbs/5678/move_db_to_db_group");
       (Js.Str "POST", Js.Str "/dbs/5678/vault");
       (Js.Str "POST", Js.Str "/dbs/5678/imports");
       (Js.Str "PUT", Js.Str "/dbs/5678/imports/9/schedule");
       (Js.Str "POST", Js.Str "/dbs/5678/apply_automate_build_template")] /\
    Effects.dbId (Effects.this w') = Some "5678".
Proof.
  eexists. split; [vm_compute; reflexivity|].
  match goal with
  | |- Spec.routes ?w' = _ /\ _ =>
      assert (Hrun : FdxService.setupBigCommerceIntegration (rt := Fixtures.everythingAccepted)
                       Fixtures.storeParams (Fixtures.fresh (Some "previous-db")) =
                     Effects.Returns
                       (Types.ok (Js.Obj [("success", Js.Bool true);
                                          ("accountId", Js.Str "1234");
                                          ("dbId", Js.Num 5678);
                                          ("importId", Js.Num 9);
                                          ("vaultEntryId", Js.Num 42);
                                          ("primaryUserEmail", Js.Str "test@example.com")])) w')
        by (vm_compute; reflexivity)
  end.
  destruct (successful_setup_trace (rt := Fixtures.everythingAccepted) _ _ _ _ Hrun eq_refl)
    as (l & a & d & i & account & database & vault & import_ &
        Hr & _ & Ha & _ & Hd & _ & _ & Hi & Hroutes & _ & _ & _ & _ & _ & _ & _ & _ & Hdb & _).
  clear Hrun.
  assert (Hl : l = {| FdxService.Setup.accountId := Js.Str "1234";
                      FdxService.Setup.dbId := Js.Num 5678;
                      FdxService.Setup.vaultId := Js.Num 42;
                      FdxService.Setup.importId := Js.Num 9 |}).
  { destruct l. unfold Spec.setupResult, Types.ok in Hr. cbn in Hr. congruence. }
  subst l. cbn [FdxService.Setup.accountId FdxService.Setup.dbId FdxService.Setup.importId]
    in Ha, Hd, Hi.
  specialize (Hi ltac:(discriminate)).
  assert (a = "1234") by (vm_compute in Ha; congruence).
  assert (d = "5678") by (vm_compute in Hd; congruence).
  assert (i = "9") by (vm_compute in Hi; congruence). subst a d i.
  split; [|exact Hdb].
  rewrite Hroutes. vm_compute. reflexivity.
Defined.

Lemma success_without_id_is_a_failure_witness :
  FdxService.setupBigCommerceIntegration (rt := Fixtures.accountWithoutId)
    Fixtures.storeParams (Fixtures.fresh None) =
  Effects.Returns (Types.failure "Failed to create account: undefined")
    (Effects.worldOf
       (FdxClient.createBigCommerceAccount (rt := Fixtures.accountWithoutId)
          "Test Store" (Fixtures.fresh None))).
Proof.
  eapply (success_without_id_is_a_failure (rt := Fixtures.accountWithoutId)
            Fixtures.storeParams FdxService.CreateAccount);
    [reflexivity | reflexivity | reflexivity | vm_compute; reflexivity
    | reflexivity | reflexivity].
Defined.

(* ===================================================================== *)
(** ** Accounts and groups that exist already *)
(* ===================================================================== *)

Section ExistingRecords.

Import Types Effects Spec FdxService.
Context {rt : Runtime}.

Lemma lookup_setField k k' v fs :
  Js.lookup k (Js.setField k' v fs) = if (k' =? k)%string then Some v else Js.lookup k fs.
Proof.
  induction fs as [|[k0 v0] fs IH]; cbn.
  - reflexivity.
  - destruct (String.eqb_spec k0 k') as [->|Hne]; cbn.
    + destruct (k' =? k)%string; reflexivity.
    + rewrite IH. destruct (String.eqb_spec k0 k) as [->|Hk]; [|reflexivity].
      destruct (String.eqb_spec k' k) as [->|]; [contradiction | reflexivity].
Qed.

(** What the [reduce] of [retrieveAccounts] leaves under a key: the last
    account filed under it. *)
Lemma reduce_indexByName key items :
  Forall filable items ->
  forall acc, exists acc',
    Js.reduceIn indexByName items acc = Js.Normal acc' /\
    Js.lookup key acc' =
      match lastFiled key items with
      | Some account => Some account
      | None => Js.lookup key acc
      end.
Proof.
  induction 1 as [|account items (k & Hk & _) _ IH]; intros acc; cbn [Js.reduceIn lastFiled].
  - eauto.
  - unfold accountKey in Hk.
    assert (Hstep : indexByName acc account = Js.Normal (Js.setField k account acc)).
    { unfold indexByName. destruct (Js.get account "account_name") as [name|e]; cbn in *;
        [|discriminate Hk]. rewrite Hk. reflexivity. }
    rewrite Hstep. cbn [Js.cbind].
    destruct (IH (Js.setField k account acc)) as (acc' & Hred & Hlook).
    exists acc'. split; [exact Hred|]. rewrite Hlook.
    destruct (lastFiled key items); [reflexivity|].
    unfold accountKey. destruct (Js.get account "account_name") as [name|e]; cbn in *;
      [|discriminate Hk].
    rewrite Hk, lookup_setField. destruct (k =? key)%string; reflexivity.
Qed.

(** An account filed under a key other than [undefined] is an object. *)
Lemma filed_truthy key account items :
  key <> "undefined" -> lastFiled key items = Some account -> Js.truthy account = true.
Proof.
  intros Hkey. induction items as [|x items IH]; cbn [lastFiled]; [discriminate|].
  destruct (lastFiled key items); [exact IH|].
  destruct (accountKey x) as [k|e] eqn:Hk; [|discriminate].
  destruct (String.eqb_spec k key) as [->|]; [|discriminate].
  intros H. inversion H; subst x. unfold accountKey in Hk.
  destruct account; cbn in Hk; try discriminate Hk; try (inversion Hk; congruence).
  reflexivity.
Qed.

Lemma getAccountName_not_undefined storeId name :
  getAccountName storeId = Js.Normal name -> name <> "undefined".
Proof.
  unfold getAccountName. destruct (Js.toStr storeId); cbn; [|discriminate].
  intros H; inversion H. discriminate.
Qed.

(** [getOrCreateAccount] creates an account only when none is listed under
    the store's account name.  When the listing succeeds with accounts
    that can be filed by name and one of them has the name, the operation
    returns that account after the one listing request, the last one
    listed when several have the name; when none has it, the operation
    goes on as [createAccount] does. *)
Theorem listed_account_is_not_created_again storeId name w r w1 items :
  getAccountName storeId = Js.Normal name ->
  FdxClient.accounts w = Returns r w1 ->
  success r = true ->
  payload r = Js.Arr items ->
  Forall filable items ->
  getOrCreateAccount storeId w =
  match lastFiled name items with
  | Some account => Returns (ok account) w1
  | None => createAccount name w1
  end.
Proof.
  intros Hname Hlist Hok Hdata Hkeys.
  destruct (reduce_indexByName name items Hkeys []) as (acc & Hred & Hlook).
  assert (Hret : retrieveAccounts w = Returns (ok (Js.Obj acc)) w1).
  { unfold retrieveAccounts. rewrite (bind_returns _ _ _ _ _ Hlist), Hok. cbn [negb].
    unfold accountsByName. rewrite Hdata, Hred. reflexivity. }
  unfold getOrCreateAccount. rewrite Hname. cbn [lift].
  rewrite (bind_returns _ _ w name w) by reflexivity.
  rewrite (bind_returns _ _ _ _ _ Hret). cbn [success ok negb payload data Js.optGet Js.prop].
  rewrite Hlook. cbn [Js.lookup].
  destruct (lastFiled name items) as [account|] eqn:Hlast; [|reflexivity].
  rewrite (filed_truthy name account items); auto.
  eapply getAccountName_not_undefined; eauto.
Qed.

(** When the account has a group whose name starts with [BC-],
    [moveDbToGroup] sends one request after the lookup: a [POST] to
    [/groups/<id of the first such group>/dbs] whose body names the group
    and has [db_id: 0].  The operation is not told which database to move
    and names none.  When the call succeeds its payload is returned. *)
Theorem existing_group_move_names_no_database accountId accountName w r w1 items group g :
  FdxClient.groups accountId w = Returns r w1 ->
  success r = true ->
  payload r = Js.Arr items ->
  Js.findIn hasAccountPrefix items = Js.Normal group ->
  Js.truthy group = true ->
  Js.toStr (Js.prop group "id") = Js.Normal g ->
  let body := Js.Obj [("db_id", Js.Num 0);
                      ("group_id", Js.prop group "id");
                      ("group_name", Js.Str accountName)] in
  exists moved w2,
    FdxClient.moveDbToGroup body w1 = Returns moved w2 /\
    requests w2 =
      (requests w1 ++ [FdxClient.requestConfig "POST" ("/groups/" ++ g ++ "/dbs") body []])%list /\
    requests (worldOf (moveDbToGroup accountId accountName w)) = requests w2 /\
    (success moved = true ->
     moveDbToGroup accountId accountName w = Returns (ok (payload moved)) w2).
Proof.
  intros Hgroups Hok Hdata Hfind Hgroup Hg body.
  assert (Hfound : findGroup accountId w = Returns (ok group) w1).
  { unfold findGroup. rewrite (bind_returns _ _ _ _ _ Hgroups), Hok. cbn [negb].
    rewrite Hdata. cbn [Js.optFind Js.find]. rewrite Hfind. reflexivity. }
  assert (Hclient : FdxClient.moveDbToGroup body w1 =
                    FdxClient.request "POST" ("/groups/" ++ g ++ "/dbs") body [] w1).
  { unfold FdxClient.moveDbToGroup, body. cbn [Js.get Js.prop Js.lookup String.eqb Ascii.eqb
      Bool.eqb lift andb]. cbn [lift]. unfold bind at 1. cbn [ret].
    rewrite Hg. reflexivity. }
  rewrite request_run in Hclient.
  eexists. eexists. split; [exact Hclient|]. split; [apply requests_sent|].
  assert (Hmove : moveDbToGroup accountId accountName w =
                  (result <- FdxClient.moveDbToGroup body ;;
                   if negb (success result) then failWith "Error moving db to group: " result
                   else ret (ok (payload result))) w1).
  { unfold moveDbToGroup. rewrite (bind_returns _ _ _ _ _ Hfound).
    cbn [success ok negb payload data]. rewrite Hgroup.
    rewrite (get_truthy _ _ Hgroup). cbn [lift].
    unfold bind, ret, body. reflexivity. }
  rewrite Hmove. unfold bind at 1. unfold bind at 1. rewrite Hclient. split.
  - destruct (negb (success _)); [rewrite failWith_world | cbn [ret worldOf]]; reflexivity.
  - intros Hmoved. rewrite Hmoved. reflexivity.
Qed.

End ExistingRecords.

Lemma listed_account_is_not_created_again_witness :
  FdxService.getOrCreateAccount (rt := Fixtures.listedTwice) (Js.Num 42) (Fixtures.fresh None) =
  Effects.Returns
    (Types.ok (Js.Obj [("id", Js.Num 3); ("account_name", Js.Str "BC-42")]))
    (Effects.worldOf (FdxClient.accounts (rt := Fixtures.listedTwice) (Fixtures.fresh None))).
Proof.
  refine (listed_account_is_not_created_again (rt := Fixtures.listedTwice)
            (Js.Num 42) "BC-42" (Fixtures.fresh None) _ _
            [Js.Obj [("id", Js.Num 1); ("account_name", Js.Str "BC-42")];
             Js.Obj [("id", Js.Num 2); ("account_name", Js.Str "BC-7")];
             Js.Obj [("id", Js.Num 3); ("account_name", Js.Str "BC-42")]]
            eq_refl _ _ _ _);
    try (vm_compute; reflexivity).
  repeat constructor; eexists; (split; [reflexivity | discriminate]).
Defined.

Lemma existing_group_move_names_no_database_witness :
  exists moved w2,
    FdxClient.moveDbToGroup (rt := Fixtures.accountGroupListed)
      (Js.Obj [("db_id", Js.Num 0); ("group_id", Js.Num 6); ("group_name", Js.Str "BC-42")])
      (Effects.worldOf
         (FdxClient.groups (rt := Fixtures.accountGroupListed) (Js.Num 7)
            (Fixtures.fresh (Some "db1")))) = Effects.Returns moved w2 /\
    Effects.requests w2 =
      (Effects.requests
         (Effects.worldOf
            (FdxClient.groups (rt := Fixtures.accountGroupListed) (Js.Num 7)
               (Fixtures.fresh (Some "db1")))) ++
       [FdxClient.requestConfig "POST" "/groups/6/dbs"
          (Js.Obj [("db_id", Js.Num 0); ("group_id", Js.Num 6);
                   ("group_name", Js.Str "BC-42")]) []])%list /\
    Effects.requests
      (Effects.worldOf
         (FdxService.moveDbToGroup (rt := Fixtures.accountGroupListed) (Js.Num 7) "BC-42"
            (Fixtures.fresh (Some "db1")))) = Effects.requests w2 /\
    (Types.success moved = true ->
     FdxService.moveDbToGroup (rt := Fixtures.accountGroupListed) (Js.Num 7) "BC-42"
       (Fixtures.fresh (Some "db1")) = Effects.Returns (Types.ok (Types.payload moved)) w2).
Proof.
  refine (existing_group_move_names_no_database (rt := Fixtures.accountGroupListed)
            (Js.Num 7) "BC-42" (Fixtures.fresh (Some "db1")) _ _
            [Js.Obj [("id", Js.Num 5); ("name", Js.Str "Other")];
             Js.Obj [("id", Js.Num 6); ("name", Js.Str "BC-42")]]
            (Js.Obj [("id", Js.Num 6); ("name", Js.Str "BC-42")]) "6" _ _ _ _ _ _);
    vm_compute; reflexivity.
Defined.

(* ===================================================================== *)
(** ** Transformers and fields, one request each *)
(* ===================================================================== *)

(** The two loops have one shape: [loop] calls [call] on each item in
    turn, returns the labelled failure of the first call that fails and
    collects the payloads of the others; while the session is [selected],
    [call] is one [method] request to [path]. *)
Section Loop.

Import Types Effects Spec FdxService.
Context {rt : Runtime}.

Variables (label method path : string).
Variable call : Js.Value -> M ServiceResponse.
Variable loop : list Js.Value -> list Js.Value -> M ServiceResponse.

Hypothesis loop_nil : forall results, loop [] results = ret (ok (Js.Arr results)).
Hypothesis loop_cons : forall item rest results,
  loop (item :: rest) results =
  (result <- call item ;;
   if negb (success result) then failWith label result
   else loop rest (results ++ [payload result])).
Variable selected : Client -> Prop.
Hypothesis call_run : forall item w,
  selected (this w) -> call item w = FdxClient.request method path item [] w.

Lemma batchReply_first item rest w :
  batchReply method path (item :: rest) w 0 =
  envelopeOf (axios (client (this w)) (requests w)
                (FdxClient.requestConfig method path item [])).
Proof. unfold batchReply. cbn. now rewrite app_nil_r. Qed.

Lemma batchReply_later item rest w k :
  batchReply method path (item :: rest) w (S k) =
  batchReply method path rest
    (sent w path (FdxClient.requestConfig method path item [])) k.
Proof.
  unfold batchReply. rewrite this_sent, requests_sent. cbn [firstn nth batchRequests map].
  now rewrite <- app_assoc.
Qed.

Lemma loop_outcome items :
  forall results w,
    selected (this w) ->
    let o := loop items results w in
    let reply := batchReply method path items w in
    this (worldOf o) = this w /\
    (((forall k, (k < List.length items)%nat -> success (reply k) = true) /\
      requests (worldOf o) = (requests w ++ batchRequests method path items)%list /\
      o = Returns (ok (Js.Arr (results ++
                                 map (fun k => payload (reply k)) (seq 0 (List.length items)))))
            (worldOf o)) \/
     (exists k,
        (k < List.length items)%nat /\
        (forall j, (j < k)%nat -> success (reply j) = true) /\
        success (reply k) = false /\
        requests (worldOf o) =
          (requests w ++ batchRequests method path (firstn (S k) items))%list /\
        o = match Js.toStr (errorOf (reply k)) with
            | Js.Normal msg => Returns (failure (label ++ msg)) (worldOf o)
            | Js.Abrupt e => Throws e (worldOf o)
            end)).
Proof.
  induction items as [|item rest IH]; intros results w Hdb; cbv zeta.
  - rewrite loop_nil. cbn. split; [reflexivity|]. left.
    split; [intros k Hk; lia|]. rewrite !app_nil_r. auto.
  - set (w1 := sent w path (FdxClient.requestConfig method path item [])).
    assert (Hstep : loop (item :: rest) results w =
                    if success (batchReply method path (item :: rest) w 0)
                    then loop rest
                           (results ++ [payload (batchReply method path (item :: rest) w 0)]) w1
                    else failWith label (batchReply method path (item :: rest) w 0) w1).
    { rewrite loop_cons. unfold bind at 1. rewrite (call_run _ _ Hdb), request_run.
      rewrite batchReply_first. unfold envelopeOf.
      destruct (success _); reflexivity. }
    rewrite Hstep. clear Hstep.
    destruct (success (batchReply method path (item :: rest) w 0)) eqn:Hs.
    + specialize (IH (results ++ [payload (batchReply method path (item :: rest) w 0)])%list w1).
      specialize (IH ltac:(unfold w1; rewrite this_sent; exact Hdb)).
      cbv zeta in IH. destruct IH as [Hthis IH].
      split; [rewrite Hthis; apply this_sent|].
      destruct IH as [(Hall & Hreq & Ho)|(k & Hk & Hbefore & Hfail & Hreq & Ho)].
      * left. split; [|split].
        -- intros [|k] Hk; [exact Hs|]. rewrite batchReply_later. apply Hall. cbn in Hk. lia.
        -- rewrite Hreq. unfold w1. rewrite requests_sent, <- app_assoc. reflexivity.
        -- rewrite Ho at 1. f_equal. f_equal. f_equal.
           rewrite <- app_assoc. cbn [List.length seq map app]. f_equal. f_equal.
           rewrite <- seq_shift, map_map. apply map_ext. intros k.
           now rewrite batchReply_later.
      * right. exists (S k). split; [cbn; lia|]. split; [|split; [|split]].
        -- intros [|j] Hj; [exact Hs|]. rewrite batchReply_later. apply Hbefore. lia.
        -- rewrite batchReply_later. exact Hfail.
        -- rewrite Hreq. unfold w1. rewrite requests_sent, <- app_assoc. reflexivity.
        -- rewrite batchReply_later. exact Ho.
    + split.
      * rewrite failWith_world. apply this_sent.
      * right. exists 0%nat. split; [cbn; lia|]. split; [intros j Hj; lia|].
        split; [exact Hs|]. split.
        -- rewrite failWith_world. unfold w1. rewrite requests_sent. cbn. reflexivity.
        -- unfold failWith, bind.
           destruct (Js.toStr (errorOf (batchReply method path (item :: rest) w 0)));
             reflexivity.
Qed.

End Loop.

Section Batches.

Import Types Effects Spec FdxService.
Context {rt : Runtime}.

(** A guarded request with the database [id] selected is the request. *)
Lemma guarded_request_run id method (path : string -> string) data w :
  dbId (this w) = Some id -> id <> "" ->
  (c <- self ;;
   if FdxClient.noDbId c then ret FdxClient.dbIdRequired
   else FdxClient.request method (path (FdxClient.dbIdText c)) data []) w =
  FdxClient.request method (path id) data [] w.
Proof.
  intros Hdb Hid. unfold bind, self. rewrite (noDbId_some id _ Hid Hdb).
  unfold FdxClient.dbIdText. rewrite Hdb. reflexivity.
Qed.

(** With a database selected, [createTransformers] and [updateDbFields]
    send one request per item, in the order of the list, and stop at the
    first one the client reports as failed.  Either every call went
    through: then one request per item was sent and the operation returns
    the payloads of the calls, in order.  Or the call for some item is the
    first that failed: then the requests for the items up to that one were
    sent and none for the items after it, and the operation returns the
    failure labelled with the error of that call, without the payloads of
    the calls before it; when that error cannot be printed the operation
    throws instead.  Which call fails is read from what axios answers to
    each request with the requests before it in the log. *)
Theorem batches_stop_at_the_first_failure id w :
  dbId (this w) = Some id ->
  id <> "" ->
  (forall transformers,
      batchOutcome "Error creating transformer: " "POST" ("/dbs/" ++ id ++ "/transformers")
        transformers w (createTransformers transformers w)) /\
  (forall fields,
      batchOutcome "Error updating db fields: " "PUT" ("/dbs/" ++ id ++ "/fields")
        fields w (updateDbFields fields w)).
Proof.
  intros Hdb Hid. split.
  - intros ts. unfold batchOutcome, createTransformers.
    pose proof (loop_outcome "Error creating transformer: " "POST"
                  ("/dbs/" ++ id ++ "/transformers")
                  FdxClient.createTransformer createTransformersFrom
                  (fun _ => eq_refl) (fun _ _ _ => eq_refl)
                  (fun c => dbId c = Some id)
                  (fun item w0 H =>
                     guarded_request_run id "POST" (fun d => "/dbs/" ++ d ++ "/transformers")
                       item w0 H Hid)
                  ts [] w Hdb) as H.
    exact H.
  - intros fields. unfold batchOutcome, updateDbFields.
    pose proof (loop_outcome "Error updating db fields: " "PUT"
                  ("/dbs/" ++ id ++ "/fields")
                  FdxClient.updateDbFields updateDbFieldsFrom
                  (fun _ => eq_refl) (fun _ _ _ => eq_refl)
                  (fun c => dbId c = Some id)
                  (fun item w0 H =>
                     guarded_request_run id "PUT" (fun d => "/dbs/" ++ d ++ "/fields")
                       item w0 H Hid)
                  fields [] w Hdb) as H.
    exact H.
Qed.

End Batches.

Lemma batches_stop_at_the_first_failure_witness :
  Spec.batchOutcome (rt := Fixtures.secondRefused)
    "Error creating transformer: " "POST" "/dbs/db1/transformers"
    [Js.Obj [("name", Js.Str "first")]; Js.Obj [("name", Js.Str "second")];
     Js.Obj [("name", Js.Str "third")]]
    (Fixtures.fresh (Some "db1"))
    (FdxService.createTransformers (rt := Fixtures.secondRefused)
       [Js.Obj [("name", Js.Str "first")]; Js.Obj [("name", Js.Str "second")];
        Js.Obj [("name", Js.Str "third")]]
       (Fixtures.fresh (Some "db1"))).
Proof.
  apply (proj1 (batches_stop_at_the_first_failure (rt := Fixtures.secondRefused)
                  "db1" (Fixtures.fresh (Some "db1")) eq_refl ltac:(discriminate))).
Defined.

(* ===================================================================== *)
(** ** The vault entry under the old name *)
(* ===================================================================== *)

Section LegacyEntry.

Import Types Effects Spec FdxService.
Context {rt : Runtime}.

(** When the vault listing holds an entry named [BigCommerce Credentials],
    [updateVaultEntries] deletes it before it writes anything: the request
    after the listing is a [DELETE] of that entry.  When the deletion
    fails, the operation returns the failure under the label of the
    deletion and writes nothing; when it succeeds, the operation goes on
    to create or update [bc_credentials], reading the rows of the listing
    it made before the deletion. *)
Theorem legacy_vault_entry_is_deleted_first token w r w1 items old deleted w2 :
  FdxClient.vault w = Returns r w1 ->
  success r = true ->
  Js.or (Js.optGet (Js.optGet (payload r) "data") "vault_rows") (Js.Arr []) = Js.Arr items ->
  Js.findIn (named "BigCommerce Credentials") items = Js.Normal old ->
  Js.truthy old = true ->
  FdxClient.deleteVault (Js.prop old "id") w1 = Returns deleted w2 ->
  (exists i,
      Js.toStr (Js.prop old "id") = Js.Normal i /\
      requests w2 =
        (requests w1 ++ [FdxClient.requestConfig "DELETE" ("/vault/" ++ i) Js.Undefined []])%list) /\
  (forall msg,
      success deleted = false -> Js.toStr (errorOf deleted) = Js.Normal msg ->
      updateVaultEntries token w = Returns (failure ("Error deleting vault: " ++ msg)) w2) /\
  (success deleted = true ->
   updateVaultEntries token w = createOrUpdateVaultEntry (Js.Arr items) token w2).
Proof.
  intros Hvault Hok Hrows Hfind Hold Hdelete.
  assert (Hentry : forall k : option ServiceResponse -> M ServiceResponse,
             bind (deleteOldEntry (Js.Arr items)) k w1 =
             (if negb (success deleted)
              then r0 <- failWith "Error deleting vault: " deleted ;; k (Some r0)
              else k (Some (ok (payload deleted)))) w2).
  { intros k. unfold deleteOldEntry. cbn [Js.find]. rewrite Hfind. cbn [lift].
    unfold bind at 1. unfold bind at 1. cbn [ret]. rewrite Hold. cbn [negb].
    rewrite (get_truthy _ _ Hold). cbn [lift]. unfold bind at 1. cbn [ret].
    unfold bind at 1. rewrite Hdelete.
    destruct (negb (success deleted)); [|reflexivity].
    unfold bind. destruct (failWith _ _ w2); reflexivity. }
  assert (Hrun : updateVaultEntries token w =
                 (if negb (success deleted)
                  then r0 <- failWith "Error deleting vault: " deleted ;;
                       if negb (success r0) then ret r0
                       else createOrUpdateVaultEntry (Js.Arr items) token
                  else createOrUpdateVaultEntry (Js.Arr items) token) w2).
  { unfold updateVaultEntries. rewrite (bind_returns _ _ _ _ _ Hvault), Hok. cbn [negb].
    rewrite Hrows, Hentry. destruct (negb (success deleted)); reflexivity. }
  split; [|split].
  - unfold FdxClient.deleteVault in Hdelete.
    apply bind_inv in Hdelete. destruct Hdelete as (i & w0 & Hi & Hdelete).
    apply lift_inv in Hi. destruct Hi as [Hi ->].
    rewrite request_run in Hdelete. inversion Hdelete; subst.
    exists i. split; [exact Hi | apply requests_sent].
  - intros msg Hfail Hmsg. rewrite Hrun, Hfail. cbn [negb].
    rewrite (bind_returns _ _ _ _ _ (failWith_run _ _ _ _ Hmsg)). reflexivity.
  - intros Hdeleted. rewrite Hrun, Hdeleted. reflexivity.
Qed.

End LegacyEntry.

Lemma legacy_vault_entry_is_deleted_first_witness :
  FdxService.updateVaultEntries (rt := Fixtures.legacyEntryKept) "token"
    (Fixtures.fresh None) =
  Effects.Returns (Types.failure "Error deleting vault: Forbidden")
    (Effects.worldOf
       (FdxClient.deleteVault (rt := Fixtures.legacyEntryKept) (Js.Num 4)
          (Effects.worldOf
             (FdxClient.vault (rt := Fixtures.legacyEntryKept) (Fixtures.fresh None))))).
Proof.
  refine (proj1 (proj2
            (legacy_vault_entry_is_deleted_first (rt := Fixtures.legacyEntryKept) "token"
               (Fixtures.fresh None) _ _
               [Js.Obj [("id", Js.Num 4); ("name", Js.Str "BigCommerce Credentials")]]
               (Js.Obj [("id", Js.Num 4); ("name", Js.Str "BigCommerce Credentials")])
               _ _ _ _ _ _ _ _)) "Forbidden" _ _);
    vm_compute; reflexivity.
Defined.

(* ===================================================================== *)
(** ** Running an import or an export at once *)
(* ===================================================================== *)

Section RunNow.

Import Types Effects Spec FdxService.
Context {rt : Runtime}.

(** [runImport] and [runExport] check the active database themselves.
    Without one (unset, or the empty text) they return the failure
    ['No database selected'], which is not the message of the client's
    guard, and send nothing.  With the database [db] selected each sends
    one request and nothing else: a [POST] of an empty object to
    [/dbs/db/imports/<id>/run], or to [/dbs/db/exports/<id>/run]. *)
Theorem run_now_needs_a_selected_database id w :
  (FdxClient.noDbId (this w) = true ->
   runImport id w = Returns (failure "No database selected") w /\
   runExport id w = Returns (failure "No database selected") w) /\
  (forall db,
      dbId (this w) = Some db -> db <> "" ->
      requests (worldOf (runImport id w)) =
        (requests w ++
         [FdxClient.requestConfig "POST" ("/dbs/" ++ db ++ "/imports/" ++ id ++ "/run")
            (Js.Obj []) []])%list /\
      requests (worldOf (runExport id w)) =
        (requests w ++
         [FdxClient.requestConfig "POST" ("/dbs/" ++ db ++ "/exports/" ++ id ++ "/run")
            (Js.Obj []) []])%list).
Proof.
  split.
  - intros Hno. unfold FdxClient.noDbId in Hno.
    unfold runImport, runExport, FdxClient.getDbId, bind, self, ret.
    rewrite Hno. split; reflexivity.
  - intros db Hdb Hne.
    unfold runImport, runExport, FdxClient.getDbId, bind, self, ret.
    rewrite Hdb. cbn [optStr Js.truthy text].
    destruct (String.eqb_spec db ""); [contradiction|]. cbn [negb].
    rewrite !request_run.
    split;
      match goal with
      | |- context [negb (success ?r)] => destruct (negb (success r))
      end;
      try rewrite failWith_world; apply requests_sent.
Qed.

End RunNow.

Lemma run_now_needs_a_selected_database_witness :
  (FdxService.runImport (rt := Fixtures.emptyListing) "7" (Fixtures.fresh None) =
     Effects.Returns (Types.failure "No database selected") (Fixtures.fresh None) /\
   FdxService.runExport (rt := Fixtures.emptyListing) "7" (Fixtures.fresh None) =
     Effects.Returns (Types.failure "No database selected") (Fixtures.fresh None)) /\
  Effects.requests
    (Effects.worldOf
       (FdxService.runImport (rt := Fixtures.emptyListing) "7" (Fixtures.fresh (Some "db1")))) =
    [FdxClient.requestConfig "POST" "/dbs/db1/imports/7/run" (Js.Obj []) []].
Proof.
  split.
  - apply (proj1 (run_now_needs_a_selected_database (rt := Fixtures.emptyListing) "7"
                    (Fixtures.fresh None))). reflexivity.
  - apply (proj1 (proj2 (run_now_needs_a_selected_database (rt := Fixtures.emptyListing) "7"
                           (Fixtures.fresh (Some "db1"))) "db1" eq_refl ltac:(discriminate))).
Defined.

(* ===================================================================== *)
(** ** The preprocessor URL: names, alphabet, values that do not print *)
(* ===================================================================== *)

Module UrlShape.

Import FdxClient Spec.

Lemma has_set name n v ps :
  Uri.has name (Uri.set n v ps) = (n =? name)%string || Uri.has name ps.
Proof.
  unfold Uri.has. destruct (String.eqb_spec n name) as [->|Hne].
  - now rewrite UriFacts.get_set_same.
  - now rewrite UriFacts.get_set_other.
Qed.

Lemma existsb_name name names :
  existsb (fun n => (n =? name)%string) names = true <-> In name names.
Proof.
  rewrite existsb_exists. split.
  - intros (n & Hin & Hn). apply String.eqb_eq in Hn. now subst.
  - intros Hin. exists name. split; [exact Hin | apply String.eqb_refl].
Qed.

(** A run of [set] calls adds the names it sets and no other. *)
Lemma setParams_has name params :
  forall sp sp', forOf setParam params sp = Js.Normal sp' ->
  Uri.has name sp' = existsb (fun n => (n =? name)%string) (map fst params) || Uri.has name sp.
Proof.
  induction params as [|[n v] rest IH]; intros sp sp' H; cbn in H.
  - inversion H. reflexivity.
  - unfold setParam in H at 1. cbn in H.
    destruct (Js.toStr v) as [s|]; cbn in H; [|discriminate].
    rewrite (IH _ _ H), has_set. cbn [map fst existsb].
    destruct (n =? name)%string, (existsb _ _); reflexivity.
Qed.

Lemma percent_querySafe c : Uri.allChars querySafe (Uri.percent c) = true.
Proof. destruct c as [[] [] [] [] [] [] [] []]; vm_compute; reflexivity. Qed.

Lemma formEncode_querySafe s : Uri.allChars querySafe (Uri.formEncode s) = true.
Proof.
  induction s as [|c s IH]; [reflexivity|].
  cbn [Uri.formEncode]. rewrite UriFacts.allChars_app, IH, andb_true_r.
  destruct (Ascii.eqb c " "); [reflexivity|].
  destruct (Uri.formUnreserved c) eqn:Hc; [|apply percent_querySafe].
  cbn. unfold querySafe. now rewrite Hc.
Qed.

Lemma toString_querySafe ps : Uri.allChars querySafe (Uri.toString ps) = true.
Proof.
  induction ps as [|[n v] rest IH]; [reflexivity|].
  cbn [Uri.toString]. rewrite !UriFacts.allChars_app, !formEncode_querySafe.
  destruct rest; [reflexivity|].
  rewrite UriFacts.allChars_app, IH. reflexivity.
Qed.

Lemma set_nonempty n v ps : Uri.set n v ps <> [].
Proof.
  destruct ps as [|[n0 v0] ps]; cbn; [discriminate|].
  destruct (n0 =? n)%string; discriminate.
Qed.

(** A run of [set] calls never leaves the parameters empty. *)
Lemma setParams_nonempty params :
  forall sp sp', sp <> [] -> forOf setParam params sp = Js.Normal sp' -> sp' <> [].
Proof.
  induction params as [|[n v] rest IH]; intros sp sp' Hsp H; cbn in H.
  - inversion H. now subst.
  - unfold setParam in H at 1. cbn in H.
    destruct (Js.toStr v) as [s|]; cbn in H; [|discriminate].
    apply (IH _ _ (set_nonempty _ _ _) H).
Qed.

Lemma toString_nonempty ps : ps <> [] -> Uri.toString ps <> "".
Proof.
  destruct ps as [|[n v] rest]; [congruence|]. intros _ H. cbn [Uri.toString] in H.
  destruct (Uri.formEncode n); cbn in H; discriminate H.
Qed.

End UrlShape.

(** The query string of the URL holds the two fixed parameters and one
    parameter for each defined field of the parameter object (for each
    defined property of an object or array among them), and no other: a
    field that is [undefined] or [null] names no parameter, whatever text
    a value has cannot add one. *)
Theorem preprocessor_url_parameter_names connection_info file_info url name :
  FdxClient.generateBigCommercePreprocessorUrl connection_info file_info = Js.Normal url ->
  Uri.has name (Uri.parse (Uri.search url)) = true <->
  name = "connection_info[client]" \/ name = "connection_info[protocol]" \/
  In name (Spec.parameterNames connection_info file_info).
Proof.
  intros Hurl. rewrite UrlFacts.generate_params in Hurl.
  destruct (FdxClient.forOf Spec.setParam (Spec.fieldParams connection_info file_info)
              Spec.fixedParams) as [sp|] eqn:Hsp;
    cbn [Js.cbind] in Hurl; [|discriminate].
  replace url with (FdxClient.preprocessorBaseUrl ++ "?" ++ Uri.toString sp) by congruence.
  rewrite UriFacts.parse_search_toString, (UrlShape.setParams_has name _ _ _ Hsp).
  fold (Spec.parameterNames connection_info file_info).
  rewrite orb_true_iff, UrlShape.existsb_name.
  unfold Uri.has, Spec.fixedParams. cbn [Uri.get].
  destruct (String.eqb_spec "connection_info[client]" name);
    destruct (String.eqb_spec "connection_info[protocol]" name);
    intuition congruence.
Qed.

(** Whatever the keys and the values of the parameter object are, the URL
    is the base URL, a question mark and a query string that is not empty
    and is made of the unreserved characters, [%], [+], [&] and [=] only:
    no space, quote, [#], [?] or byte above 127 of a key or a value
    reaches the URL as it is. *)
Theorem preprocessor_url_is_query_safe connection_info file_info url :
  FdxClient.generateBigCommercePreprocessorUrl connection_info file_info = Js.Normal url ->
  exists query,
    url = FdxClient.preprocessorBaseUrl ++ "?" ++ query /\
    query <> "" /\
    Uri.allChars Spec.querySafe query = true.
Proof.
  intros Hurl. rewrite UrlFacts.generate_params in Hurl.
  destruct (FdxClient.forOf Spec.setParam (Spec.fieldParams connection_info file_info)
              Spec.fixedParams) as [sp|] eqn:Hsp;
    cbn [Js.cbind] in Hurl; [|discriminate].
  exists (Uri.toString sp). split; [congruence|]. split.
  - apply UrlShape.toString_nonempty.
    assert (Hfixed : Spec.fixedParams <> []) by (unfold Spec.fixedParams; discriminate).
    apply (UrlShape.setParams_nonempty _ _ _ Hfixed Hsp).
  - apply UrlShape.toString_querySafe.
Qed.

(** The builder prints every value that becomes a parameter with
    [String].  When one of them cannot be printed, as a JSON object that
    has a [toString] property of its own cannot, the builder throws and no
    URL is returned: the value is not left out and nothing stands in for
    it.  (An object directly under [connection_info] is not printed
    itself: its properties are.) *)
Theorem unprintable_value_stops_the_url_builder connection_info file_info name value e :
  In (name, value) (Spec.fieldParams connection_info file_info) ->
  Js.toStr value = Js.Abrupt e ->
  exists e',
    FdxClient.generateBigCommercePreprocessorUrl connection_info file_info = Js.Abrupt e'.
Proof.
  intros Hin Hvalue. rewrite UrlFacts.generate_params.
  assert (H : forall sp, exists e',
             FdxClient.forOf Spec.setParam (Spec.fieldParams connection_info file_info) sp
             = Js.Abrupt e').
  { induction (Spec.fieldParams connection_info file_info) as [|[n v] rest IH]; intros sp;
      [contradiction Hin|].
    cbn [FdxClient.forOf]. unfold Spec.setParam at 1. cbn [fst snd].
    destruct (Js.toStr v) as [s|e0] eqn:Hv; cbn [Js.cbind]; [|eauto].
    destruct Hin as [Heq|Hin]; [|apply (IH Hin)].
    inversion Heq; subst. congruence. }
  destruct (H Spec.fixedParams) as [e' ->]. cbn [Js.cbind]. eauto.
Qed.

Lemma preprocessor_url_parameter_names_witness :
  Uri.has "connection_info[store_hash]"
    (Uri.parse (Uri.search Fixtures.specialCharactersUrl)) = true <->
  "connection_info[store_hash]" = "connection_info[client]" \/
  "connection_info[store_hash]" = "connection_info[protocol]" \/
  In "connection_info[store_hash]" (Spec.parameterNames Fixtures.specialCharacters None).
Proof.
  apply (preprocessor_url_parameter_names Fixtures.specialCharacters None
           Fixtures.specialCharactersUrl "connection_info[store_hash]").
  vm_compute. reflexivity.
Defined.

Lemma preprocessor_url_is_query_safe_witness :
  exists query,
    Fixtures.specialCharactersUrl = FdxClient.preprocessorBaseUrl ++ "?" ++ query /\
    query <> "" /\
    Uri.allChars Spec.querySafe query = true.
Proof.
  apply (preprocessor_url_is_query_safe Fixtures.specialCharacters None
           Fixtures.specialCharactersUrl).
  vm_compute. reflexivity.
Defined.

Lemma unprintable_value_stops_the_url_builder_witness :
  exists e',
    FdxClient.generateBigCommercePreprocessorUrl Fixtures.unprintableFilter None
    = Js.Abrupt e'.
Proof.
  apply (unprintable_value_stops_the_url_builder Fixtures.unprintableFilter None
           "connection_info[filters][is_visible]" (Js.Obj [("toString", Js.Num 1)])
           (Js.TypeError "Cannot convert object to primitive value")).
  - vm_compute. auto.
  - reflexivity.
Defined.

(* ===================================================================== *)
(** ** The URLs of the imports *)
(* ===================================================================== *)

Section ImportUrls.

Import Types Effects Spec FdxService.

(** The URL of the import the workflow creates (step 6), whenever it is
    built, carries in its query string the store's access token itself,
    encoded twice like the store hash, the client identifier and the store
    URL (the given one, or the one made from the store hash), next to the
    vault entry the step before created for that token; the empty
    [filters] object adds no parameter. *)
Theorem workflow_import_url_carries_the_access_token params url :
  FdxClient.generateBigCommercePreprocessorUrl (connectionInfo params) (Some fileInfo)
    = Js.Normal url ->
  let query := Uri.parse (Uri.search url) in
  Uri.get "connection_info[access_token]" query
    = Some (FdxClient.doubleEncode (accessToken params)) /\
  Uri.get "connection_info[store_hash]" query
    = Some (FdxClient.doubleEncode (Types.storeHash params)) /\
  Uri.get "connection_info[client_id]" query
    = Some (FdxClient.doubleEncode (orElse (clientId params) "")) /\
  Uri.get "connection_info[store_url]" query
    = Some (FdxClient.doubleEncode
              (orElse (storeUrl params)
                 ("https://store-" ++ Types.storeHash params ++ ".mybigcommerce.com/"))) /\
  Uri.get "file_info[output_compressed]" query = Some "true" /\
  Uri.has "connection_info[filters]" query = false.
Proof.
  intros Hurl. rewrite UrlFacts.generate_params in Hurl.
  unfold connectionInfo, fileInfo, fieldParams in Hurl.
  cbn [flat_map connectionFieldParams fileFieldParams Js.defined Js.isObject Js.entries
         fst snd app] in Hurl.
  unfold fixedParams in Hurl.
  cbn [FdxClient.forOf setParam Js.toStr Js.cbind fst snd] in Hurl.
  cbv beta iota delta [Uri.set Uri.removeName filter String.eqb Ascii.eqb Bool.eqb negb fst snd]
    in Hurl.
  match type of Hurl with Js.Normal ?u = _ => replace url with u by congruence end.
  clear Hurl.
  cbv zeta. rewrite UriFacts.parse_search_toString.
  unfold Uri.has.
  cbv beta iota delta [Uri.get String.eqb Ascii.eqb Bool.eqb].
  repeat split; reflexivity.
Qed.

(** The import [createOrUpdateImport] sends is built the other way: its
    URL never holds a token, the [access_token] parameter is the reference
    to the vault entry [bc_credentials].  The URL carries the user's store
    hash and asks for a sample exactly when the import is being created;
    the configuration has [do_import: false] exactly when it is not. *)
Theorem service_import_url_carries_the_vault_reference user channelId isCreate cfg :
  scalar (id user) = true ->
  buildImportConfig user channelId isCreate = Js.Normal cfg ->
  exists url,
    Js.prop cfg "url" = Js.Str url /\
    Js.prop cfg "do_import" = (if isCreate then Js.Undefined else Js.Bool false) /\
    let query := Uri.parse (Uri.search url) in
    Uri.get "connection_info[access_token]" query
      = Some (FdxClient.doubleEncode "{{feedonomics::vault::bc_credentials::access_token}}") /\
    Uri.get "connection_info[store_hash]" query
      = Some (FdxClient.doubleEncode (storeHash user)) /\
    Uri.get "connection_info[pull_sample]" query = Some (if isCreate then "1" else "0") /\
    Uri.get "file_info[request_type]" query = Some "get".
Proof.
  intros Hid Hcfg.
  unfold buildImportConfig, buildImportUrl in Hcfg.
  rewrite UrlFacts.generate_params in Hcfg.
  unfold buildConnectionInfo in Hcfg.
  destruct isCreate;
  cbv beta iota delta [Js.setField String.eqb Ascii.eqb Bool.eqb negb] in Hcfg.
  all: unfold fieldParams in Hcfg.
  all: cbn [flat_map connectionFieldParams fileFieldParams Js.defined Js.isObject Js.entries
         Js.indexed fst snd app] in Hcfg.
  all: unfold fixedParams in Hcfg.
  all: destruct (id user) as [| |[]|n|t| |] eqn:Huser; try discriminate Hid;
    cbn [connectionFieldParams Js.defined Js.isObject app flat_map] in Hcfg;
    (destruct (Js.defined channelId);
     cbn [app flat_map FdxClient.forOf] in Hcfg;
     unfold setParam in Hcfg;
     cbn [Js.toStr Js.cbind fst snd] in Hcfg;
     try (destruct (Js.toStr channelId) as [c|e]; cbn [Js.cbind] in Hcfg;
          [|discriminate Hcfg]);
     cbv beta iota delta [Uri.set Uri.removeName filter String.eqb Ascii.eqb Bool.eqb negb
                            fst snd Js.cbind] in Hcfg;
     match type of Hcfg with Js.Normal ?c = _ => replace cfg with c by congruence end;
     clear Hcfg;
     eexists; (split; [reflexivity|]); (split; [reflexivity|]);
     cbv zeta; rewrite UriFacts.parse_search_toString;
     cbv beta iota delta [Uri.get String.eqb Ascii.eqb Bool.eqb];
     repeat split; reflexivity).
Qed.

End ImportUrls.

Lemma workflow_import_url_carries_the_access_token_witness :
  exists url,
    FdxClient.generateBigCommercePreprocessorUrl
      (FdxService.connectionInfo Fixtures.storeParams) (Some FdxService.fileInfo)
      = Js.Normal url /\
    Uri.get "connection_info[access_token]" (Uri.parse (Uri.search url)) = Some "test_token" /\
    Uri.get "connection_info[store_hash]" (Uri.parse (Uri.search url)) = Some "abc123".
Proof.
  assert (Hurl : { url | FdxClient.generateBigCommercePreprocessorUrl
                           (FdxService.connectionInfo Fixtures.storeParams)
                           (Some FdxService.fileInfo) = Js.Normal url }).
  { eexists. vm_compute. reflexivity. }
  destruct Hurl as [url Hurl].
  destruct (workflow_import_url_carries_the_access_token Fixtures.storeParams url Hurl)
    as (Htoken & Hhash & _).
  exists url. split; [exact Hurl|]. split; [exact Htoken | exact Hhash].
Defined.

Lemma service_import_url_carries_the_vault_reference_witness :
  exists cfg url,
    FdxService.buildImportConfig Fixtures.someUser (Js.Num 1) false = Js.Normal cfg /\
    Js.prop cfg "url" = Js.Str url /\
    Js.prop cfg "do_import" = Js.Bool false /\
    Uri.get "connection_info[access_token]" (Uri.parse (Uri.search url))
      = Some (FdxClient.doubleEncode "{{feedonomics::vault::bc_credentials::access_token}}") /\
    Uri.get "connection_info[store_hash]" (Uri.parse (Uri.search url))
      = Some (FdxClient.doubleEncode "abc123") /\
    Uri.get "connection_info[pull_sample]" (Uri.parse (Uri.search url)) = Some "0" /\
    Uri.get "file_info[request_type]" (Uri.parse (Uri.search url)) = Some "get".
Proof.
  assert (Hcfg : { cfg | FdxService.buildImportConfig Fixtures.someUser (Js.Num 1) false
                         = Js.Normal cfg }).
  { eexists. vm_compute. reflexivity. }
  destruct Hcfg as [cfg Hcfg].
  destruct (service_import_url_carries_the_vault_reference Fixtures.someUser (Js.Num 1) false
              cfg eq_refl Hcfg) as (url & H).
  exists cfg, url. split; [exact Hcfg | exact H].
Defined.

(* ===================================================================== *)
(** ** How many requests an operation sends *)
(* ===================================================================== *)

Section Budgets.

Import Types Effects Spec FdxService FdxService.Setup.
Context {rt : Runtime}.

Lemma adds_weaken {A} n n' (P : Js.Value -> Prop) (m : M A) :
  (n <= n')%nat -> Adds n P m -> Adds n' P m.
Proof.
  intros Hn Hm w. destruct (Hm w) as (added & Hlog & Hlen & HP).
  exists added. repeat split; auto. lia.
Qed.

Lemma adds_ret {A} P (a : A) : Adds 0 P (ret a).
Proof. intros w. exists []. cbn. rewrite app_nil_r. auto. Qed.

Lemma adds_lift {A} P (c : Js.Completion A) : Adds 0 P (lift c).
Proof. intros w. exists []. destruct c; cbn; rewrite app_nil_r; auto. Qed.

Lemma adds_self P : Adds 0 P self.
Proof. intros w. exists []. cbn. rewrite app_nil_r. auto. Qed.

Lemma adds_now P : Adds 0 P now.
Proof. intros w. exists []. cbn. rewrite app_nil_r. auto. Qed.

Lemma adds_getDbId P : Adds 0 P FdxClient.getDbId.
Proof. intros w. exists []. cbn. rewrite app_nil_r. auto. Qed.

Lemma adds_setDbId P id : Adds 0 P (FdxClient.setDbId id).
Proof. intros w. exists []. cbn. rewrite app_nil_r. auto. Qed.

Lemma adds_bind {A B} n1 n2 P (m : M A) (k : A -> M B) :
  Adds n1 P m -> (forall a, Adds n2 P (k a)) -> Adds (n1 + n2) P (bind m k).
Proof.
  intros Hm Hk w. unfold bind. destruct (Hm w) as (added & Hlog & Hlen & HP).
  destruct (m w) as [a w1|e w1]; cbn [worldOf] in *.
  - destruct (Hk a w1) as (more & Hlog' & Hlen' & HP').
    exists (added ++ more)%list. rewrite Hlog', Hlog, app_assoc, length_app.
    repeat split; [lia | apply Forall_app; auto].
  - exists added. repeat split; auto. lia.
Qed.

Lemma adds_request (P : Js.Value -> Prop) method url data config :
  P (FdxClient.requestConfig method url data config) ->
  Adds 1 P (FdxClient.request method url data config).
Proof.
  intros HP w. rewrite request_run. cbn [worldOf]. rewrite requests_sent.
  eexists. split; [reflexivity|]. split; [reflexivity | auto].
Qed.

Lemma adds_failWith P lbl r : Adds 0 P (failWith lbl r).
Proof. intros w. exists []. rewrite failWith_world, app_nil_r. auto. Qed.

Lemma adds_tryCatch {A} n P (body : M A) handler :
  Adds n P body -> (forall e, Adds 0 P (handler e)) -> Adds n P (tryCatch body handler).
Proof.
  intros Hb Hh w. unfold tryCatch. destruct (Hb w) as (added & Hlog & Hlen & HP).
  destruct (body w) as [a w1|e w1]; cbn [worldOf] in *; [eauto|].
  destruct (Hh e w1) as (more & Hlog' & Hlen' & HP').
  destruct more; [|cbn in Hlen'; lia]. rewrite app_nil_r in Hlog'.
  exists added. rewrite Hlog', Hlog. auto.
Qed.

Lemma adds_if {A} n1 n2 P (c : bool) (a b : M A) :
  Adds n1 P a -> Adds n2 P b -> Adds (Nat.max n1 n2) P (if c then a else b).
Proof.
  intros Ha Hb. destruct c; [apply (adds_weaken n1) | apply (adds_weaken n2)]; auto; lia.
Qed.

Lemma adds_option {A B} n1 n2 P (o : option B) (a : B -> M A) (b : M A) :
  (forall x, Adds n1 P (a x)) -> Adds n2 P b ->
  Adds (Nat.max n1 n2) P (match o with Some x => a x | None => b end).
Proof.
  intros Ha Hb. destruct o; [apply (adds_weaken n1) | apply (adds_weaken n2)]; auto; lia.
Qed.

Lemma adds_flow {A} n1 n2 P (f : Flow) (a : Locals -> M A) (b : ServiceResponse -> M A) :
  (forall l, Adds n1 P (a l)) -> (forall r, Adds n2 P (b r)) ->
  Adds (Nat.max n1 n2) P (match f with Continue l => a l | Return r => b r end).
Proof.
  intros Ha Hb. destruct f; [apply (adds_weaken n1) | apply (adds_weaken n2)]; auto; lia.
Qed.

Lemma adds_any {A} n P (m : M A) : Adds n P m -> Adds n (fun _ => True) m.
Proof.
  intros Hm w. destruct (Hm w) as (added & Hlog & Hlen & _).
  exists added. repeat split; auto. apply Forall_forall. auto.
Qed.

(** Counting: each leaf costs what it sends, a sequence the sum, a branch
    the larger of its arms. *)
Ltac count_step :=
  first
    [ apply adds_failWith
    | apply adds_ret
    | apply adds_lift
    | apply adds_self
    | apply adds_now
    | apply adds_getDbId
    | apply adds_setDbId
    | apply adds_request;
      first [exact I | left; reflexivity | right; reflexivity]
    | eapply adds_if
    | eapply adds_option; [intros|]
    | eapply adds_flow; intros
    | eapply adds_bind; [|intros] ].

Ltac count := repeat count_step.

Ltac within_budget := eapply adds_weaken; cycle 1; [count | cbn; lia].

Ltac unfold_client :=
  unfold FdxClient.invitePrimaryUser, FdxClient.applyAutomateBuildTemplate,
    FdxClient.feedBuild, FdxClient.cancelBuild, FdxClient.accounts, FdxClient.dbs,
    FdxClient.createDb, FdxClient.deleteDb, FdxClient.vault, FdxClient.createVault,
    FdxClient.updateVault, FdxClient.deleteVault, FdxClient.ftpAccounts,
    FdxClient.createFtpAccounts, FdxClient.imports, FdxClient.createImport,
    FdxClient.updateImport, FdxClient.updateImportSchedule, FdxClient.exports,
    FdxClient.createExport, FdxClient.updateExport, FdxClient.scheduleExport,
    FdxClient.transformers, FdxClient.createTransformer, FdxClient.updateTransformer,
    FdxClient.updateDbFields, FdxClient.createJoinImport, FdxClient.joinImports,
    FdxClient.groups, FdxClient.createGroup, FdxClient.moveDbToGroup, FdxClient.login,
    FdxClient.createBigCommerceAccount, FdxClient.moveDbintoNewDbGroup,
    FdxClient.moveDbFromSourceToTargetDbGroup, FdxClient.addDbVaultEntry,
    FdxClient.dbFields, FdxClient.deleteDbField.

Lemma adds_createTransformersFrom ts results :
  Adds (List.length ts) (fun _ => True) (createTransformersFrom ts results).
Proof.
  revert results. induction ts as [|t ts IH]; intros results; cbn [createTransformersFrom].
  - apply adds_ret.
  - change (List.length (t :: ts)) with (1 + List.length ts)%nat.
    apply adds_bind.
    + unfold_client. within_budget.
    + intros result. eapply adds_weaken; cycle 1.
      * eapply adds_if; [apply adds_failWith | apply IH].
      * lia.
Qed.

Lemma adds_updateDbFieldsFrom fields results :
  Adds (List.length fields) (fun _ => True) (updateDbFieldsFrom fields results).
Proof.
  revert results. induction fields as [|f fields IH]; intros results;
    cbn [updateDbFieldsFrom].
  - apply adds_ret.
  - change (List.length (f :: fields)) with (1 + List.length fields)%nat.
    apply adds_bind.
    + unfold_client. within_budget.
    + intros result. eapply adds_weaken; cycle 1.
      * eapply adds_if; [apply adds_failWith | apply IH].
      * lia.
Qed.

(** Each step of the workflow sends at most one request, and it is a
    [POST] or a [PUT]. *)
Lemma adds_runStep s params l : Adds 1 writes (runStep s params l).
Proof.
  destruct s; cbn [runStep];
    unfold createAccountStep, inviteUserStep, createDatabaseStep, moveToGroupStep,
      addVaultEntryStep, createImportStep, setScheduleStep, applyTemplateStep,
      returnFailure;
    unfold_client; within_budget.
Qed.

Lemma adds_runSteps ss params l : Adds (List.length ss) writes (runSteps ss params l).
Proof.
  revert l. induction ss as [|s ss IH]; intros l; cbn [runSteps].
  - apply adds_ret.
  - change (List.length (s :: ss)) with (1 + List.length ss)%nat.
    apply adds_bind; [apply adds_runStep|].
    intros [l'|r]; [apply IH|]. apply (adds_weaken 0); [lia | apply adds_ret].
Qed.

Lemma adds_setup params : Adds 8 writes (setupBigCommerceIntegration params).
Proof.
  unfold setupBigCommerceIntegration. apply adds_tryCatch; [|intros; apply adds_ret].
  unfold setupBody. change 8%nat with (List.length steps + 0)%nat.
  apply adds_bind; [apply adds_runSteps|]. intros [l|r]; apply adds_ret.
Qed.

(** A public operation of the service sends at most as many requests as
    its steps can: one for the plain wrappers and the two operations that
    run an import or an export; two for the get-or-create of accounts,
    groups, FTP credentials and imports; three for the vault and for the
    export with its schedule; one per item for transformers and fields;
    eight for the workflow.  The bound holds whether the operation returns
    or throws, and the log only grows: no request is taken back. *)
Theorem service_operations_stay_within_budget op w :
  exists added,
    requests (worldOf (FdxService.run op w)) = (requests w ++ added)%list /\
    (List.length added <= budget op)%nat.
Proof.
  assert (H : Adds (budget op) (fun _ => True) (FdxService.run op)).
  { destruct op; cbn [FdxService.run budget];
      first
        [ apply adds_createTransformersFrom
        | apply adds_updateDbFieldsFrom
        | apply (adds_any _ writes), adds_setup
        | unfold retrieveAccounts, getOrCreateAccount, createAccount, moveDbToGroup, findGroup,
            updateVaultEntries, deleteOldEntry, createOrUpdateVaultEntry, getFtpCredentials,
            deleteDb, createDb, retrieveImport, createOrUpdateImport, updateImportSchedule,
            createOrUpdateExport, getExistingExport, handleExistingExport, runExportSchedule,
            createJoinImport, runImport, runExport, retrieveAccounts, retrieveImport;
          unfold_client; within_budget ]. }
  destruct (H w) as (added & Hlog & Hlen & _). eauto.
Qed.

(** Whatever happens to the workflow (success, a failing step, an
    exception), the requests it has sent are at most eight and each is a
    [POST] or a [PUT]: it reads nothing back and deletes nothing, so what
    the steps before a failure created stays. *)
Theorem workflow_only_creates params w :
  exists added,
    requests (worldOf (setupBigCommerceIntegration params w)) = (requests w ++ added)%list /\
    (List.length added <= 8)%nat /\
    Forall writes added.
Proof. apply adds_setup. Qed.

End Budgets.

(* ===================================================================== *)
(** ** The error of a failure *)
(* ===================================================================== *)

Section TruthyErrors.

Import Types Effects Spec.
Context {rt : Runtime}.

Lemma or_placeholder_truthy v s : s <> "" -> Js.truthy (Js.or v (Js.Str s)) = true.
Proof.
  intros Hs. unfold Js.or. destruct (Js.truthy v) eqn:Hv; [exact Hv|].
  cbn. destruct (String.eqb_spec s ""); [contradiction | reflexivity].
Qed.

Lemma truthy_request method url data config :
  Ensures (fun r => success r = false -> Js.truthy (errorOf r) = true)
    (FdxClient.request method url data config).
Proof.
  intros w. rewrite request_run.
  destruct (axios _ _ _) as [response|failure].
  - unfold FdxClient.processResponse.
    destruct ((200 <=? Axios.status response) && (Axios.status response <? 300));
      cbn; intros H; [discriminate H|]. apply or_placeholder_truthy. discriminate.
  - unfold FdxClient.rejected. destruct (Axios.response failure) as [response|].
    + cbn. intros _. apply or_placeholder_truthy. discriminate.
    + intros _. cbn [errorOf error]. unfold orElse.
      destruct (Axios.message failure =? "")%string eqn:Hm; cbn [Js.truthy];
        [reflexivity | now rewrite Hm].
Qed.

(** The failure envelopes of the client always have an error that is
    truthy: the guard's message, the server's message when it is truthy,
    or a placeholder that is not empty.  So a caller's
    [result.error || fallback] never reaches its fallback after a client
    call, as in [createOrUpdateVaultEntry] and in the token check of the
    examples. *)
Theorem client_failures_carry_a_truthy_error op w :
  match FdxClient.run op w with
  | Returns r _ => success r = false -> Js.truthy (errorOf r) = true
  | Throws _ _ => True
  end.
Proof.
  revert w.
  change (Ensures (fun r => success r = false -> Js.truthy (errorOf r) = true)
            (FdxClient.run op)).
  destruct op; cbn [FdxClient.run];
    unfold FdxClient.invitePrimaryUser, FdxClient.applyAutomateBuildTemplate,
      FdxClient.feedBuild, FdxClient.cancelBuild, FdxClient.accounts, FdxClient.dbs,
      FdxClient.createDb, FdxClient.deleteDb, FdxClient.vault, FdxClient.createVault,
      FdxClient.updateVault, FdxClient.deleteVault, FdxClient.ftpAccounts,
      FdxClient.createFtpAccounts, FdxClient.imports, FdxClient.createImport,
      FdxClient.updateImport, FdxClient.updateImportSchedule, FdxClient.exports,
      FdxClient.createExport, FdxClient.updateExport, FdxClient.scheduleExport,
      FdxClient.transformers, FdxClient.createTransformer, FdxClient.updateTransformer,
      FdxClient.updateDbFields, FdxClient.createJoinImport, FdxClient.joinImports,
      FdxClient.groups, FdxClient.createGroup, FdxClient.moveDbToGroup, FdxClient.login,
      FdxClient.createBigCommerceAccount, FdxClient.moveDbintoNewDbGroup,
      FdxClient.moveDbFromSourceToTargetDbGroup, FdxClient.addDbVaultEntry,
      FdxClient.dbFields, FdxClient.deleteDbField;
    repeat first
      [ apply truthy_request
      | apply ensures_ret; intros _; reflexivity
      | apply ensures_throw
      | match goal with
        | |- Ensures _ (if ?b then _ else _) => destruct b
        | |- Ensures _ (lift ?c) => destruct c
        end
      | apply ensures_any; intros ].
Qed.

End TruthyErrors.

(* ===================================================================== *)
(** ** The entry points *)
(* ===================================================================== *)

Module IndexFacts.

Import Types Effects Index.

Lemma lookup_spread k b :
  NoDup (map fst b) ->
  forall a,
    Js.lookup k (Js.spread a b) =
    match Js.lookup k b with
    | Some v => Some v
    | None => Js.lookup k a
    end.
Proof.
  unfold Js.spread. induction b as [|[k' v] b IH]; intros Hnd a; cbn [fold_left Js.lookup fst snd].
  - reflexivity.
  - inversion Hnd as [|? ? Hnotin Hnd']; subst. rewrite (IH Hnd'), lookup_setField.
    destruct (String.eqb_spec k' k) as [->|Hne]; [|reflexivity].
    assert (Hnone : Js.lookup k b = None).
    { clear -Hnotin. induction b as [|[k0 v0] b IHb]; [reflexivity|]. cbn in *.
      destruct (String.eqb_spec k0 k) as [->|]; [exfalso; auto|]. apply IHb. auto. }
    now rewrite Hnone.
Qed.

Lemma lookup_in k v fs : Js.lookup k fs = Some v -> In (k, v) fs.
Proof.
  induction fs as [|[k0 v0] fs IH]; cbn; [discriminate|].
  destruct (String.eqb_spec k0 k) as [->|]; [intros H; inversion H; auto | auto].
Qed.

End IndexFacts.

Section CreateClient.

Import Types Effects Index.

(** [createClient] hands the constructor the defaults overridden by the
    caller's properties, so the token is the caller's [apiToken] whenever
    that key is present, even when it holds [undefined] or the empty text,
    and the environment's token only when the key is absent.  The client is
    created exactly when that token is a text that is not empty; otherwise
    the constructor throws ['API key is required'], and it never throws
    ['Config is required'].  A client that is created has that token, a
    timeout that is not zero, and an active database only when the caller
    named one: the defaults name none. *)
Theorem createClient_outcomes token config :
  Index.PartialConfig config ->
  let effective :=
    match Js.lookup "apiToken" config with
    | Some given => given
    | None => Js.Str (Types.orElse token "")
    end in
  match Index.createClient token config with
  | Js.Abrupt e =>
      e = Js.Error "API key is required" /\
      (effective = Js.Undefined \/ effective = Js.Str "")
  | Js.Normal client =>
      effective = Js.Str (Effects.apiToken client) /\
      Effects.apiToken client <> "" /\
      Axios.timeout (Effects.client client) <> 0 /\
      (Effects.dbId client = None <->
       Js.lookup "dbId" config = None \/ Js.lookup "dbId" config = Some Js.Undefined)
  end.
Proof.
  intros [Hnd Htyped] effective. unfold Index.createClient.
  set (final := Js.spread (Index.DEFAULT_CONFIG token) config).
  assert (Htoken : Js.lookup "apiToken" final = Some effective).
  { unfold final, effective. rewrite (IndexFacts.lookup_spread _ _ Hnd).
    destruct (Js.lookup "apiToken" config); reflexivity. }
  assert (Hdb : Js.lookup "dbId" final = Js.lookup "dbId" config).
  { unfold final. rewrite (IndexFacts.lookup_spread _ _ Hnd).
    destruct (Js.lookup "dbId" config); reflexivity. }
  assert (Hdeclared : forall key v, Js.lookup key config = Some v -> Index.declared key v).
  { intros key v Hl. apply IndexFacts.lookup_in in Hl.
    rewrite Forall_forall in Htyped. apply (Htyped (key, v) Hl). }
  assert (Heffective : effective = Js.Undefined \/ exists s, effective = Js.Str s).
  { unfold effective. destruct (Js.lookup "apiToken" config) as [given|] eqn:Hgiven; [|eauto].
    destruct (Hdeclared _ _ Hgiven) as [->|Hd]; [auto|].
    destruct given; cbn in Hd; try contradiction; eauto;
      try (discriminate Hd). }
  assert (Hapi : cfgApiToken (asConfig final) =
                 match effective with Js.Str s => s | _ => "" end).
  { unfold asConfig. cbn [cfgApiToken]. rewrite Htoken. destruct effective; reflexivity. }
  assert (Hdbid : cfgDbId (asConfig final) = textOf (Js.lookup "dbId" config)).
  { unfold asConfig. cbn [cfgDbId]. now rewrite Hdb. }
  cbn [FdxClient.new]. rewrite !Hapi, Hdbid.
  destruct Heffective as [Hu|[s Hs]].
  - rewrite Hu. cbn. split; [reflexivity | auto].
  - rewrite Hs.
    destruct (String.eqb_spec s "") as [->|Hne].
    + split; [reflexivity | auto].
    + cbn [apiToken dbId client Axios.timeout]. split; [reflexivity|]. split; [exact Hne|].
      split.
      * destruct (cfgTimeout (asConfig final)) as [t|]; [|discriminate].
        destruct (Z.eqb_spec t 0); [discriminate | assumption].
      * destruct (Js.lookup "dbId" config) as [given|] eqn:Hgiven; cbn; [|tauto].
        destruct (Hdeclared _ _ Hgiven) as [->|Hd]; [cbn; tauto|].
        destruct given; cbn in Hd |- *; try contradiction;
          try (split; [discriminate | intros [H|H]; discriminate H]);
          try discriminate Hd.
Qed.

End CreateClient.

Lemma createClient_outcomes_witness :
  exists client,
    Index.createClient (Some "token-of-the-environment") [("timeout", Js.Num 0)]
    = Js.Normal client /\
    Js.Str "token-of-the-environment" = Js.Str (Effects.apiToken client) /\
    Effects.apiToken client <> "" /\
    Axios.timeout (Effects.client client) <> 0 /\
    (Effects.dbId client = None <->
     Js.lookup "dbId" [("timeout", Js.Num 0)] = None \/
     Js.lookup "dbId" [("timeout", Js.Num 0)] = Some Js.Undefined).
Proof.
  assert (Hp : Index.PartialConfig [("timeout", Js.Num 0)]).
  { split.
    - cbn. constructor; [intros [] | constructor].
    - constructor; [right; reflexivity | constructor]. }
  pose proof (createClient_outcomes (Some "token-of-the-environment")
                [("timeout", Js.Num 0)] Hp) as H.
  cbv zeta in H.
  destruct (Index.createClient (Some "token-of-the-environment") [("timeout", Js.Num 0)])
    as [client|e] eqn:Hclient; [|vm_compute in Hclient; discriminate Hclient].
  exists client. split; [reflexivity | exact H].
Defined.
